(** * autoimpute: the SingleImputer orchestrator and the default imputers

    A shallow embedding of
      - autoimpute/imputations/series/default.py
          (DefaultBaseImputer, DefaultSingleImputer)
      - autoimpute/imputations/dataframe/single_imputer.py
          (SingleImputer)
    Python objects that the two files mutate are threaded as explicit
    state; exceptions are values of [exn]; everything the two files call
    but do not define (pandas, sklearn, the statistical imputers, the
    helpers of BaseImputer) is gathered in one record of operations,
    [External]. *)

From Stdlib Require Import ZArith String List Bool Lia Sorted.
From stdpp Require Import base option list strings pretty.

Set Default Proof Using "Type".
Set Warnings "-register-all".
Open Scope string_scope.

(** ** Exceptions and results *)

Inductive exn :=
| TypeError (msg : string)
| ValueError (msg : string) (cause : option exn)   (* raise ValueError(msg) from cause *)
| AttributeError (msg : string)
| KeyError (key : string)
| NotFittedError (msg : string)
| OtherError (cls msg : string).

Inductive result (A : Type) :=
| Ok (a : A)
| Raise (e : exn).
Arguments Ok {A} a.
Arguments Raise {A} e.

(** [except TypeError] and [except AttributeError]: sklearn declares
    [class NotFittedError(ValueError, AttributeError)]. *)
Definition isinstance_TypeError (e : exn) : bool :=
  match e with TypeError _ => true | _ => false end.

Definition isinstance_AttributeError (e : exn) : bool :=
  match e with AttributeError _ | NotFittedError _ => true | _ => false end.

Definition exn_message (e : exn) : string :=
  match e with
  | TypeError m | ValueError m _ | AttributeError m
  | KeyError m | NotFittedError m | OtherError _ m => m
  end.

(** ** A state and exception monad: the state survives a raise *)

Definition Py (S A : Type) : Type := S -> result A * S.

Definition ret {S A} (a : A) : Py S A := fun s => (Ok a, s).
Definition raise {S A} (e : exn) : Py S A := fun s => (Raise e, s).
Definition bind {S A B} (c : Py S A) (k : A -> Py S B) : Py S B :=
  fun s => match c s with
           | (Ok a, s') => k a s'
           | (Raise e, s') => (Raise e, s')
           end.
Definition get {S} : Py S S := fun s => (Ok s, s).
Definition modify {S} (f : S -> S) : Py S unit := fun s => (Ok tt, f s).
Definition lift_result {S A} (r : result A) : Py S A := fun s => (r, s).

(** [try: body  except <sel> as e: handler e] *)
Definition try_except {S A} (body : Py S A) (sel : exn -> bool)
    (handler : exn -> Py S A) : Py S A :=
  fun s => match body s with
           | (Ok a, s') => (Ok a, s')
           | (Raise e, s') => if sel e then handler e s' else (Raise e, s')
           end.

Declare Scope py_scope.
Delimit Scope py_scope with py.
Notation "x <- c ;; k" := (bind c (fun x => k))
  (at level 100, c at next level, right associativity) : py_scope.
Notation "c ;;; k" := (bind c (fun _ => k))
  (at level 100, right associativity) : py_scope.
Open Scope py_scope.

(** ** Python dicts: insertion-ordered, keys unique *)

Module dict.
Definition t (V : Type) : Type := list (string * V).

Definition keys {V} (d : t V) : list string := d.*1.
Definition values {V} (d : t V) : list V := d.*2.

Fixpoint get {V} (d : t V) (k : string) : option V :=
  match d with
  | [] => None
  | (k', v) :: r => if decide (k' = k) then Some v else get r k
  end.

(** [d[k] = v]: overwrite in place, or append a new key at the end *)
Fixpoint set {V} (d : t V) (k : string) (v : V) : t V :=
  match d with
  | [] => [(k, v)]
  | (k', v') :: r =>
      if decide (k' = k) then (k', v) :: r else (k', v') :: set r k v
  end.

Definition mem {V} (d : t V) (k : string) : bool := bool_decide (k ∈ keys d).
End dict.

(** [d[k]] *)
Definition getitem {S V} (d : dict.t V) (k : string) : Py S V :=
  match dict.get d k with
  | Some v => ret v
  | None => raise (KeyError k)
  end.

(** ** Python values that cross the border to external code *)

Inductive pyval :=
| PyNone
| PyBool (b : bool)
| PyInt (z : Z)
| PyStr (s : string)
| PyDict (items : list (string * pyval))
| PyObj (o : nat)       (* an external object: a class or an instance *)
| PySeries (a : nat).   (* a pd.Series object, by address *)

Definition is_none_or_dict (v : pyval) : bool :=
  match v with PyNone | PyDict _ => true | _ => false end.

(** ** pandas data *)

(** dtypes by their numpy kind, plus the pandas extension dtypes *)
Inductive dtype :=
| d_bool | d_int | d_uint | d_float | d_complex        (* kinds b i u f c *)
| d_object | d_bytes | d_unicode                       (* kinds O S U *)
| d_datetime | d_timedelta                             (* kinds M m *)
| d_category | d_period | d_interval.

(** pandas.api.types.is_numeric_dtype: numpy number or bool *)
Definition is_numeric_dtype_kind (d : dtype) : bool :=
  match d with
  | d_bool | d_int | d_uint | d_float | d_complex => true
  | _ => false
  end.

(** pandas.api.types.is_string_dtype: kind in O, S, U and not one of the
    excluded extension dtypes (category, period, interval) *)
Definition is_string_dtype_kind (d : dtype) : bool :=
  match d with
  | d_object | d_bytes | d_unicode => true
  | _ => false
  end.

Inductive scalar :=
| Num (z : Z)
| Str (s : string)
| Stamp (t : Z).

(** a cell: [None] is a missing entry (NaN, None, NaT) *)
Definition value : Type := option scalar.

(** a row label, an element of an index *)
Inductive label :=
| Lint (z : Z)
| Lstr (s : string).

#[global] Instance label_eq_dec : EqDecision label.
Proof. solve_decision. Defined.

(** a column: its dtype and its rows, each the row label with the cell.
    Labels may repeat; the order is the order of the rows. *)
Record Series := mkSeries { s_dtype : dtype; s_rows : list (label * value) }.

(** [s.index] and [s.values] *)
Definition s_index (s : Series) : list label := (s_rows s).*1.
Definition s_values (s : Series) : list value := (s_rows s).*2.

(** pd.RangeIndex(n), the index a table gets when none is given: the
    labels are the positions 0 .. n-1 *)
Definition position_label (p : nat) : label := Lint (Z.of_nat p).
Definition range_index (n : nat) : list label := position_label <$> seq 0 n.

Definition DataFrame : Type := list (string * Series).

(** what an imputer hands back for [X.loc[imp_ix, column] = ...] *)
Inductive rhs :=
| RScalar (v : value)            (* one value, broadcast *)
| RArray (vs : list value)       (* one value per requested row, in order *)
| RSeries (s : Series).          (* a whole column, aligned on the index *)

(** ** The world outside the two files *)

Record world (E : Type) := mkWorld {
  heap : list Series;   (* the pd.Series objects handed to imputers *)
  ext : E               (* state of external objects, random generators *)
}.
Arguments mkWorld {E} heap ext.
Arguments heap {E} w.
Arguments ext {E} w.

Inductive strategy_spec :=
| StratStr (s : string)
| StratList (l : list string)
| StratDict (d : dict.t string).

Record External (E : Type) := mkExternal {
  (* Python object protocol on external values *)
  py_str : pyval -> world E -> string;             (* f"{v}", v a class or strategy name *)
  py_format : pyval -> world E -> result string;   (* f"{v}", v any object: its __format__ runs *)
  py_getattr : pyval -> string -> world E -> result pyval;   (* v.name *)
  py_call : pyval -> list (string * pyval) -> Py (world E) pyval;   (* v(k1=v1, ...) *)
  py_method : pyval -> string -> pyval -> Py (world E) pyval;       (* v.name(x) *)
  py_truth : nat -> world E -> result bool;                  (* bool(obj) *)
  (* the classes that default.py imports *)
  MeanImputer : pyval;
  ModeImputer : pyval;
  (* the other registry entries of single_imputer.py *)
  MedianImputer : pyval;
  RandomImputer : pyval;
  NormImputer : pyval;
  CategoricalImputer : pyval;
  InterpolateImputer : pyval;
  (* pandas: the dtype of a column of dtype d once the values vs are written into it *)
  setitem_dtype : dtype -> list value -> dtype;
  (* a fitted registry imputer: its statistics_["strategy"] and its impute *)
  plug_strategy : pyval -> world E -> pyval;
  plug_impute : pyval -> pyval -> Py (world E) rhs;
  (* autoimpute.utils.check_nan_columns, the decorator of fit and transform *)
  check_nan_columns : DataFrame -> option exn;
  (* BaseImputer.check_strategy_fit *)
  check_strategy_fit : strategy_spec -> list string -> result (dict.t string)
}.
Arguments py_str {E} _ _ _.
Arguments py_format {E} _ _ _.
Arguments py_getattr {E} _ _ _ _.
Arguments py_call {E} _ _ _ _.
Arguments py_method {E} _ _ _ _ _.
Arguments py_truth {E} _ _ _.
Arguments MeanImputer {E} _.
Arguments ModeImputer {E} _.
Arguments MedianImputer {E} _.
Arguments RandomImputer {E} _.
Arguments NormImputer {E} _.
Arguments CategoricalImputer {E} _.
Arguments InterpolateImputer {E} _.
Arguments setitem_dtype {E} _ _ _.
Arguments plug_strategy {E} _ _ _.
Arguments plug_impute {E} _ _ _ _.
Arguments check_nan_columns {E} _ _.
Arguments check_strategy_fit {E} _ _ _.

(** [str.endswith] *)
Definition endswith (s suffix : string) : bool :=
  bool_decide (String.length suffix <= String.length s)%nat &&
  String.eqb
    (String.substring (String.length s - String.length suffix)
                      (String.length suffix) s)
    suffix.

(** ** autoimpute/imputations/series/default.py *)

Module default.
Section default.
Context {E : Type} (env : External E).

Local Abbreviation W := (world E).

(** [X.dtype] of a Series in the heap; other values have none *)
Definition dtype_of (X : pyval) (w : W) : option dtype :=
  match X with
  | PySeries a => s_dtype <$> heap w !! a
  | _ => None
  end.

Definition is_numeric_dtype (X : pyval) (w : W) : bool :=
  match dtype_of X w with Some d => is_numeric_dtype_kind d | None => false end.

Definition is_string_dtype (X : pyval) (w : W) : bool :=
  match dtype_of X w with Some d => is_string_dtype_kind d | None => false end.

(** [bool(v)], as [if imp:] takes it *)
Definition truth (v : pyval) (w : W) : result bool :=
  match v with
  | PyNone => Ok false
  | PyBool b => Ok b
  | PyInt z => Ok (negb (z =? 0)%Z)
  | PyStr s => Ok (negb (String.eqb s ""))
  | PyDict d => Ok (negb (bool_decide (d = [])))
  | PyObj o => py_truth env o w
  | PySeries _ =>
      Raise (ValueError "The truth value of a Series is ambiguous." None)
  end.

(** [hasattr(v, name)] *)
Definition hasattr (v : pyval) (name : string) : Py W bool :=
  fun w => match py_getattr env v name w with
           | Ok _ => (Ok true, w)
           | Raise e =>
               if isinstance_AttributeError e then (Ok false, w)
               else (Raise e, w)
           end.

Definition getattr (v : pyval) (name : string) : Py W pyval :=
  fun w => (py_getattr env v name w, w).

(** [imp()] when the keyword arguments are None, [imp] applied to the unpacked kwgs otherwise *)
Definition instantiate (imp kwgs : pyval) : Py W pyval :=
  match kwgs with
  | PyNone => py_call env imp []
  | PyDict kw => py_call env imp kw
  | _ => raise (TypeError "argument after ** must be a mapping")
  end.

(** the instance: the four private attributes behind the properties,
    and [statistics_], absent until [fit] *)
Record DefaultBaseImputer := mkDefault {
  _num_kwgs : pyval;
  _cat_kwgs : pyval;
  _num_imputer : pyval;
  _cat_imputer : pyval;
  statistics_ : option (dict.t pyval)
}.

(** property getters *)
Definition num_kwgs (self : DefaultBaseImputer) := _num_kwgs self.
Definition cat_kwgs (self : DefaultBaseImputer) := _cat_kwgs self.
Definition num_imputer (self : DefaultBaseImputer) := _num_imputer self.
Definition cat_imputer (self : DefaultBaseImputer) := _cat_imputer self.

(** [@num_kwgs.setter] *)
Definition set_num_kwgs (kwgs : pyval) : Py W pyval :=
  if negb (is_none_or_dict kwgs) then
    raise (ValueError "num_kwgs must be dict of args used to init num_imputer." None)
  else ret kwgs.

(** [@cat_kwgs.setter] *)
Definition set_cat_kwgs (kwgs : pyval) : Py W pyval :=
  if negb (is_none_or_dict kwgs) then
    raise (ValueError "cat_kwgs must be dict of args used to init cat_imputer." None)
  else ret kwgs.

(** [imp.__name__.endswith("Imputer")] *)
Definition name_endswith_Imputer (imp : pyval) : Py W bool :=
  n <- getattr imp "__name__" ;;
  match n with
  | PyStr s => ret (endswith s "Imputer")
  | _ => raise (AttributeError "object has no attribute 'endswith'")
  end.

(** [f"{imp}"] on the argument of a setter *)
Definition format_imp (imp : pyval) : Py W string :=
  fun w => (py_format env imp w, w).

(** [@num_imputer.setter]; yields the value stored in [_num_imputer].
    Both messages are formatted where they are raised: the first inside
    the try block, the second inside the handler. *)
Definition set_num_imputer (kwgs imp : pyval) : Py W pyval :=
  try_except
    (cls_ <- name_endswith_Imputer imp ;;
     if negb cls_ then
       s <- format_imp imp ;;
       raise (ValueError (s ++ " must be a class ending in Imputer") None)
     else
       h <- hasattr imp "fit_transform" ;;
       if negb h then
         raise (ValueError "Imputer must implement fit_transform method." None)
       else instantiate imp kwgs)
    isinstance_AttributeError
    (fun ae =>
       s <- format_imp imp ;;
       raise (ValueError (s ++ " is not an instance of an Imputer") (Some ae))).

(** [@cat_imputer.setter] *)
Definition set_cat_imputer (kwgs imp : pyval) : Py W pyval :=
  try_except
    (cls_ <- name_endswith_Imputer imp ;;
     if negb cls_ then
       s <- format_imp imp ;;
       raise (ValueError (s ++ " must be an Imputer class from autoimpute") None)
     else
       h <- hasattr imp "fit_transform" ;;
       if negb h then
         raise (ValueError "Imputer must implement fit_transform method." None)
       else instantiate imp kwgs)
    isinstance_AttributeError
    (fun ae =>
       s <- format_imp imp ;;
       raise (ValueError (s ++ " is not a valid Imputer") (Some ae))).

(** [DefaultBaseImputer.__init__]: the attributes are set in the order
    num_kwgs, cat_kwgs, num_imputer, cat_imputer *)
Definition DefaultBaseImputer_init (num_imputer cat_imputer num_kwgs cat_kwgs : pyval)
  : Py W DefaultBaseImputer :=
  nk <- set_num_kwgs num_kwgs ;;
  ck <- set_cat_kwgs cat_kwgs ;;
  ni <- set_num_imputer nk num_imputer ;;
  ci <- set_cat_imputer ck cat_imputer ;;
  ret (mkDefault nk ck ni ci None).

(** [DefaultBaseImputer.fit] *)
Definition DefaultBaseImputer_fit (self : DefaultBaseImputer) (X : pyval)
  : Py W DefaultBaseImputer :=
  stats <-
    (fun w =>
       if is_numeric_dtype X w then
         (p <- py_method env (num_imputer self) "fit" X ;;
          s <- getattr (num_imputer self) "strategy" ;;
          ret [("param", p); ("strategy", s)]) w
       else if is_string_dtype X w then
         (p <- py_method env (cat_imputer self) "fit" X ;;
          s <- getattr (cat_imputer self) "strategy" ;;
          ret [("param", p); ("strategy", s)]) w
       else
         ret [("param", PyNone); ("strategy", PyNone)] w) ;;
  ret (mkDefault (_num_kwgs self) (_cat_kwgs self)
                 (_num_imputer self) (_cat_imputer self) (Some stats)).

(** [sklearn.utils.validation.check_is_fitted(self, "statistics_")] *)
Definition check_is_fitted {A} (attr : option A) (cls : string) : Py W A :=
  match attr with
  | Some a => ret a
  | None =>
      raise (NotFittedError
               ("This " ++ cls ++ " instance is not fitted yet. Call 'fit' with appropriate arguments before using this estimator."))
  end.

(** [DefaultBaseImputer.transform] *)
Definition DefaultBaseImputer_transform (cls : string)
    (self : DefaultBaseImputer) (X : pyval) : Py W pyval :=
  stats <- check_is_fitted (statistics_ self) cls ;;
  imp <- getitem stats "param" ;;
  b <- (fun w => (truth imp w, w)) ;;
  (if (b : bool) then py_method env imp "transform" X ;;; ret tt else ret tt) ;;;
  ret X.

(** *** class DefaultSingleImputer(DefaultBaseImputer, BaseEstimator,
        TransformerMixin) *)

Definition DefaultSingleImputer := DefaultBaseImputer.

(** the class variable [strategy = methods.DEFAULT] *)
Definition DefaultSingleImputer_strategy : string := "default".

(** DefaultSingleImputer called with keywords kw: binding of the keyword arguments to
    the four parameters and their defaults, then [__init__] *)
Definition init_parameters : list string :=
  ["num_imputer"; "cat_imputer"; "num_kwgs"; "cat_kwgs"].

Definition unexpected_keyword (kw : list (string * pyval)) : option string :=
  List.find (fun k => negb (bool_decide (k ∈ init_parameters))) kw.*1.

Definition DefaultSingleImputer_new (kw : list (string * pyval))
  : Py W DefaultSingleImputer :=
  match unexpected_keyword kw with
  | Some k =>
      raise (TypeError ("__init__() got an unexpected keyword argument '" ++ k ++ "'"))
  | None =>
      DefaultBaseImputer_init
        (default (MeanImputer env) (dict.get kw "num_imputer"))
        (default (ModeImputer env) (dict.get kw "cat_imputer"))
        (default PyNone (dict.get kw "num_kwgs"))
        (default (PyDict [("fill_strategy", PyStr "random")]) (dict.get kw "cat_kwgs"))
  end.

(** [fit]: defer to the parent, return self *)
Definition DefaultSingleImputer_fit (self : DefaultSingleImputer) (X : pyval)
  : Py W DefaultSingleImputer :=
  self' <- DefaultBaseImputer_fit self X ;;
  ret self'.

(** [transform]: defer to the parent, return X *)
Definition DefaultSingleImputer_transform (self : DefaultSingleImputer) (X : pyval)
  : Py W pyval :=
  DefaultBaseImputer_transform "DefaultSingleImputer" self X ;;;
  ret X.

(** Attribute lookup on a DefaultSingleImputer instance: the instance
    attributes, then the classes along the method resolution order
    DefaultSingleImputer, DefaultBaseImputer, BaseEstimator,
    TransformerMixin, object. *)
Definition instance_attributes (self : DefaultSingleImputer) : list string :=
  ["_num_kwgs"; "_cat_kwgs"; "_num_imputer"; "_cat_imputer"]
  ++ (match statistics_ self with Some _ => ["statistics_"] | None => [] end).

Definition DefaultSingleImputer_dict : list string :=
  ["strategy"; "__init__"; "fit"; "transform"].

Definition DefaultBaseImputer_dict : list string :=
  ["__init__"; "num_kwgs"; "cat_kwgs"; "num_imputer"; "cat_imputer";
   "fit"; "transform"].

(** sklearn.base *)
Definition BaseEstimator_dict : list string :=
  ["get_params"; "set_params"; "__repr__"; "__getstate__"; "__setstate__"].
Definition TransformerMixin_dict : list string := ["fit_transform"].

Definition DefaultSingleImputer_mro : list (list string) :=
  [DefaultSingleImputer_dict; DefaultBaseImputer_dict;
   BaseEstimator_dict; TransformerMixin_dict].

Definition DefaultSingleImputer_hasattr (self : DefaultSingleImputer)
    (name : string) : bool :=
  bool_decide (name ∈ instance_attributes self)
  || existsb (fun d => bool_decide (name ∈ d)) DefaultSingleImputer_mro.

(** *** class DefaultTimeSeriesImputer(DefaultBaseImputer, BaseEstimator,
        TransformerMixin) *)

Definition DefaultTimeSeriesImputer := DefaultBaseImputer.

(** the class variable [strategy = methods.DEFAULT] *)
Definition DefaultTimeSeriesImputer_strategy : string := "default".

(** DefaultTimeSeriesImputer called with keywords kw: the defaults are
    InterpolateImputer with fill_strategy "linear" and ModeImputer with
    fill_strategy "random" *)
Definition DefaultTimeSeriesImputer_new (kw : list (string * pyval))
  : Py W DefaultTimeSeriesImputer :=
  match unexpected_keyword kw with
  | Some k =>
      raise (TypeError ("__init__() got an unexpected keyword argument '" ++ k ++ "'"))
  | None =>
      DefaultBaseImputer_init
        (default (InterpolateImputer env) (dict.get kw "num_imputer"))
        (default (ModeImputer env) (dict.get kw "cat_imputer"))
        (default (PyDict [("fill_strategy", PyStr "linear")]) (dict.get kw "num_kwgs"))
        (default (PyDict [("fill_strategy", PyStr "random")]) (dict.get kw "cat_kwgs"))
  end.

(** [fit]: defer to the parent, return self *)
Definition DefaultTimeSeriesImputer_fit (self : DefaultTimeSeriesImputer) (X : pyval)
  : Py W DefaultTimeSeriesImputer :=
  self' <- DefaultBaseImputer_fit self X ;;
  ret self'.

(** [transform]: defer to the parent, return X *)
Definition DefaultTimeSeriesImputer_transform (self : DefaultTimeSeriesImputer) (X : pyval)
  : Py W pyval :=
  DefaultBaseImputer_transform "DefaultTimeSeriesImputer" self X ;;;
  ret X.

End default.
End default.

(** ** autoimpute/imputations/dataframe/single_imputer.py *)

(** autoimpute.imputations.method_names, spelled as the class docstring of
    SingleImputer lists the supported strategies *)
Module methods.
Definition DEFAULT := "default".
Definition MEAN := "mean".
Definition MEDIAN := "median".
Definition MODE := "mode".
Definition RANDOM := "random".
Definition NORM := "norm".
Definition CATEGORICAL := "categorical".
Definition INTERPOLATE := "interpolate".
End methods.

(** *** pandas operations used by the orchestrator *)

(** positions of the missing entries, from position [n] on *)
Fixpoint isnull_from (n : nat) (xs : list value) : list nat :=
  match xs with
  | [] => []
  | None :: r => n :: isnull_from (S n) r
  | Some _ :: r => isnull_from (S n) r
  end.

(** the row labels at the positions [ps] *)
Definition labels_at (idx : list label) (ps : list nat) : list label :=
  omap (fun p => idx !! p) ps.

(** [col[col.isnull()].index.tolist()]: the labels of the rows whose
    entry is missing, in the order of the rows *)
Definition isnull_index (col : Series) : list label :=
  labels_at (s_index col) (isnull_from 0 (s_values col)).

(** positions of the rows labelled [l], from position [n] on *)
Fixpoint positions_from (n : nat) (l : label) (idx : list label) : list nat :=
  match idx with
  | [] => []
  | l' :: r =>
      if decide (l' = l) then n :: positions_from (S n) l r
      else positions_from (S n) l r
  end.

(** the rows that [.loc[ix]] addresses: for each label of [ix] in turn,
    every row that carries it *)
Definition loc_rows (idx ix : list label) : list nat :=
  flat_map (fun l => positions_from 0 l idx) ix.

(** [s.reindex]: the entry of the row labelled [l], missing when no row
    carries the label *)
Definition series_get (s : Series) (l : label) : value :=
  match List.find (fun r : label * value => bool_decide (r.1 = l)) (s_rows s) with
  | Some r => r.2
  | None => None
  end.

(** the values that [.loc[ix] = r] writes on an index [idx], one per
    addressed row: a scalar and a one-element array are broadcast, a
    longer array must have one value per row, a Series is aligned on the
    labels of the addressed rows (used as it is when its index is
    exactly those labels, reindexed when its own labels are distinct) *)
Definition rhs_values (idx ix : list label) (r : rhs) : result (list value) :=
  let rows := loc_rows idx ix in
  match r with
  | RScalar v => Ok (replicate (length rows) v)
  | RArray vs =>
      if bool_decide (length vs = length rows) then Ok vs
      else
        match vs with
        | [v] => Ok (replicate (length rows) v)
        | _ =>
            Raise (ValueError "Must have equal len keys and value when setting with an iterable" None)
        end
  | RSeries s =>
      let labels := labels_at idx rows in
      if bool_decide (s_index s = labels) then Ok (s_values s)
      else if bool_decide (NoDup (s_index s)) then Ok (series_get s <$> labels)
      else Raise (ValueError "cannot reindex on an axis with duplicate labels" None)
  end.

(** write [vals] at the positions [ix], pairwise *)
Fixpoint assign_at (ix : list nat) (vals : list value) (xs : list value) : list value :=
  match ix, vals with
  | i :: ix', v :: vals' => assign_at ix' vals' (<[i := v]> xs)
  | _, _ => xs
  end.

(** [col.loc[ix] = r]: the rows are addressed by label, the values are
    written pairwise (a row addressed twice keeps the later value), and
    pandas settles the dtype of the result *)
Definition series_loc_set {E} (env : External E) (col : Series) (ix : list label) (r : rhs)
  : result Series :=
  match rhs_values (s_index col) ix r with
  | Ok vals =>
      Ok (mkSeries (setitem_dtype env (s_dtype col) vals)
            (zip (s_index col)
                 (assign_at (loc_rows (s_index col) ix) vals (s_values col))))
  | Raise e => Raise e
  end.

Module single_imputer.
Section single_imputer.
Context {E : Type} (env : External E).

Local Abbreviation W := (world E).

(** an instance of one of the registered classes *)
Inductive imputer :=
| IDefault (d : default.DefaultSingleImputer)   (* defined in default.py *)
| IPlug (o : pyval).                            (* an external imputer object *)

Inductive imputer_class :=
| cls_DefaultSingleImputer
| cls_external (c : pyval).

(** the class attribute [strategies] *)
Definition strategies : dict.t imputer_class :=
  [ (methods.DEFAULT, cls_DefaultSingleImputer);
    (methods.MEAN, cls_external (MeanImputer env));
    (methods.MEDIAN, cls_external (MedianImputer env));
    (methods.MODE, cls_external (ModeImputer env));
    (methods.RANDOM, cls_external (RandomImputer env));
    (methods.NORM, cls_external (NormImputer env));
    (methods.CATEGORICAL, cls_external (CategoricalImputer env));
    (methods.INTERPOLATE, cls_external (InterpolateImputer env)) ].

Record SingleImputer := mkSingleImputer {
  strategy : strategy_spec;
  imp_kwgs : option (dict.t pyval);
  copy : bool;
  verbose : bool;
  _strats : option (dict.t string);
  statistics_ : option (dict.t imputer);
  imputed_ : option (dict.t (list label))
}.

(** [SingleImputer(strategy, imp_kwgs, copy, verbose)]: no fitted
    attribute exists yet *)
Definition SingleImputer_init (strategy : strategy_spec)
    (imp_kwgs : option (dict.t pyval)) (copy verbose : bool) : SingleImputer :=
  mkSingleImputer strategy imp_kwgs copy verbose None None None.

Definition set__strats (v : dict.t string) (self : SingleImputer) :=
  mkSingleImputer (strategy self) (imp_kwgs self) (copy self) (verbose self)
                  (Some v) (statistics_ self) (imputed_ self).
Definition set_statistics_ (v : dict.t imputer) (self : SingleImputer) :=
  mkSingleImputer (strategy self) (imp_kwgs self) (copy self) (verbose self)
                  (_strats self) (Some v) (imputed_ self).
Definition set_imputed_ (v : dict.t (list label)) (self : SingleImputer) :=
  mkSingleImputer (strategy self) (imp_kwgs self) (copy self) (verbose self)
                  (_strats self) (statistics_ self) (Some v).
Definition set_verbose (b : bool) (self : SingleImputer) :=
  mkSingleImputer (strategy self) (imp_kwgs self) (copy self) b
                  (_strats self) (statistics_ self) (imputed_ self).

(** the interpreter state: the SingleImputer object, the DataFrame
    objects by address, the console, and the external world *)
Record pystate := mkState {
  this : SingleImputer;
  frames : list DataFrame;
  stdout : list string;
  wld : W
}.

Local Abbreviation M := (Py pystate).

Definition self_ : M SingleImputer := fun σ => (Ok (this σ), σ).
Definition update_self (f : SingleImputer -> SingleImputer) : M unit :=
  modify (fun σ => mkState (f (this σ)) (frames σ) (stdout σ) (wld σ)).
Definition print (line : string) : M unit :=
  modify (fun σ => mkState (this σ) (frames σ) (stdout σ ++ [line]) (wld σ)).
Definition in_world {A} (c : Py W A) : M A :=
  fun σ => let '(r, w) := c (wld σ) in
           (r, mkState (this σ) (frames σ) (stdout σ) w).

(** the DataFrame object at address [X] *)
Definition df_get (X : nat) : M DataFrame :=
  fun σ => match frames σ !! X with
           | Some T => (Ok T, σ)
           | None => (Raise (TypeError "not a DataFrame"), σ)
           end.
Definition df_put (X : nat) (T : DataFrame) : M unit :=
  modify (fun σ => mkState (this σ) (<[X := T]> (frames σ)) (stdout σ) (wld σ)).
(** [X.copy()] *)
Definition df_copy (X : nat) : M nat :=
  T <- df_get X ;;
  fun σ => (Ok (length (frames σ)),
            mkState (this σ) (frames σ ++ [T]) (stdout σ) (wld σ)).
(** [X[column]], when the column goes to an imputer: a new Series object *)
Definition new_series (col : Series) : M pyval :=
  fun σ => (Ok (PySeries (length (heap (wld σ)))),
            mkState (this σ) (frames σ) (stdout σ)
                    (mkWorld (heap (wld σ) ++ [col]) (ext (wld σ)))).

(** [@check_nan_columns] around a method taking the table *)
Definition check_nan_columns_decorator {A} (func : nat -> M A) (X : nat) : M A :=
  T <- df_get X ;;
  match check_nan_columns env T with
  | Some e => raise e
  | None => func X
  end.

(** [f"{v}"] *)
Definition format (v : pyval) (w : W) : string :=
  match v with
  | PyStr s => s
  | PyNone => "None"
  | _ => py_str env v w
  end.

(** [c * n] on a one-character string *)
Fixpoint repeat_string (c : string) (n : nat) : string :=
  match n with O => "" | S n' => c ++ repeat_string c n' end.

Definition newline : string := String (Ascii.ascii_of_nat 10) "".

(** [imp.__name__] *)
Definition class_name (imp : imputer_class) : Py W string :=
  match imp with
  | cls_DefaultSingleImputer => ret "DefaultSingleImputer"
  | cls_external c =>
      n <- default.getattr env c "__name__" ;;
      fun w => (Ok (format n w), w)
  end.

(** [imp()] if [imp_params] is None, else [imp] on the unpacked mapping *)
Definition construct (imp : imputer_class) (imp_params : pyval) : Py W imputer :=
  match imp with
  | cls_DefaultSingleImputer =>
      match imp_params with
      | PyNone => d <- default.DefaultSingleImputer_new env [] ;; ret (IDefault d)
      | PyDict kw => d <- default.DefaultSingleImputer_new env kw ;; ret (IDefault d)
      | _ => raise (TypeError "argument after ** must be a mapping")
      end
  | cls_external c =>
      o <- default.instantiate env c imp_params ;; ret (IPlug o)
  end.

(** [imputer.fit(x)] *)
Definition imputer_fit (imp : imputer) (x : pyval) : Py W imputer :=
  match imp with
  | IDefault d => d' <- default.DefaultSingleImputer_fit env d x ;; ret (IDefault d')
  | IPlug o => py_method env o "fit" x ;;; ret (IPlug o)
  end.

(** [imputer.statistics_["strategy"]] *)
Definition imputer_statistics_strategy (imp : imputer) : Py W pyval :=
  match imp with
  | IDefault d =>
      match default.statistics_ d with
      | Some stats => getitem stats "strategy"
      | None =>
          raise (AttributeError "'DefaultSingleImputer' object has no attribute 'statistics_'")
      end
  | IPlug o => fun w => (Ok (plug_strategy env o w), w)
  end.

(** [imputer.impute]: the attribute lookup that precedes the call *)
Definition imputer_impute (imp : imputer) : Py W (pyval -> Py W rhs) :=
  match imp with
  | IDefault d =>
      if default.DefaultSingleImputer_hasattr d "impute"
      then ret (fun _ => raise (TypeError "'impute' is not callable"))
      else raise (AttributeError "'DefaultSingleImputer' object has no attribute 'impute'")
  | IPlug o => ret (plug_impute env o)
  end.

(** Modelled from the spec: BaseImputer._fit_init_params, the
    keyword-argument resolver of section 4.2: the column-name key first,
    else the strategy-name key, else None. *)
Definition _fit_init_params (column method : string)
    (kwgs : option (dict.t pyval)) : pyval :=
  match kwgs with
  | None => PyNone
  | Some k =>
      match dict.get k column with
      | Some p => p
      | None => default PyNone (dict.get k method)
      end
  end.

(** [_fit_strategy_validator] *)
Definition _fit_strategy_validator (X : nat) : M unit :=
  self <- self_ ;;
  let s := strategy self in
  T <- df_get X ;;
  let cols := dict.keys T in
  strats <- lift_result (check_strategy_fit env s cols) ;;
  update_self (set__strats strats).

(** [_transform_strategy_validator] *)
Definition _transform_strategy_validator (X : nat) : M unit :=
  self <- self_ ;;
  in_world (default.check_is_fitted (statistics_ self) "SingleImputer") ;;;
  T <- df_get X ;;
  let X_cols := dict.keys T in
  match _strats self with
  | None => raise (AttributeError "'SingleImputer' object has no attribute '_strats'")
  | Some strats =>
      let fit_cols := dict.keys strats in
      let diff_fit := filter (fun c => c ∉ X_cols) fit_cols in
      if bool_decide (diff_fit <> []) then
        raise (ValueError "Same columns that were fit must appear in transform." None)
      else ret tt
  end.

(** the try block of the loop of [fit]: create the instance, a
    TypeError becoming a ValueError *)
Definition create_imputer (imp : imputer_class) (imp_params : pyval) : M imputer :=
  try_except
    (in_world (construct imp imp_params))
    isinstance_TypeError
    (fun te =>
       name <- in_world (class_name imp) ;;
       raise (ValueError ("Invalid arguments passed to " ++ name ++ " __init__ method.")
                         (Some te))).

(** one iteration of the loop of [fit] *)
Definition fit_column (X : nat) (column method : string) : M unit :=
  imp <- getitem strategies method ;;
  self <- self_ ;;
  let imp_params := _fit_init_params column method (imp_kwgs self) in
  imputer <- create_imputer imp imp_params ;;
  (if verbose self
   then print ("Column: " ++ column ++ ", Strategy: " ++ method)
   else ret tt) ;;;
  T <- df_get X ;;
  col <- getitem T column ;;
  x <- new_series col ;;
  imputer' <- in_world (imputer_fit imputer x) ;;
  self <- self_ ;;
  match statistics_ self with
  | Some stats => update_self (set_statistics_ (dict.set stats column imputer'))
  | None => raise (AttributeError "'SingleImputer' object has no attribute 'statistics_'")
  end.

Fixpoint fit_loop (X : nat) (items : list (string * string)) : M unit :=
  match items with
  | [] => ret tt
  | (column, method) :: rest => fit_column X column method ;;; fit_loop X rest
  end.

(** [fit], under its decorator; returns self, which is the state *)
Definition fit_body (X : nat) : M unit :=
  _fit_strategy_validator X ;;;
  update_self (set_statistics_ []) ;;;
  self <- self_ ;;
  (if verbose self then
     let ft := "FITTING IMPUTATION METHODS TO DATA..." in
     let st := "Strategies used to fit each column:" in
     print (ft ++ newline ++ st ++ newline ++ repeat_string "-" (String.length st))
   else ret tt) ;;;
  match _strats self with
  | Some strats => fit_loop X strats
  | None => raise (AttributeError "'SingleImputer' object has no attribute '_strats'")
  end.

Definition fit (X : nat) : M unit := check_nan_columns_decorator fit_body X.

(** the narration of one column, printed if [self.verbose] *)
Definition narrate_column (column : string) (imputer : imputer) (imp_ix : list label)
  : M unit :=
  strat <- in_world (imputer_statistics_strategy imputer) ;;
  w <- (fun σ => (Ok (wld σ), σ)) ;;
  print ("Transforming " ++ column ++ " with strategy '" ++ format strat w ++ "'") ;;;
  if negb (bool_decide (imp_ix = [])) then
    print ("Numer of imputations to perform: " ++ pretty (length imp_ix))
  else
    print "No imputations, moving to next column...".

(** [X.loc[imp_ix, column] = imputer.impute(X[column])] *)
Definition impute_column (X : nat) (column : string) (imputer : imputer)
    (imp_ix : list label) : M unit :=
  impute <- in_world (imputer_impute imputer) ;;
  T <- df_get X ;;
  col <- getitem T column ;;
  x <- new_series col ;;
  r <- in_world (impute x) ;;
  T <- df_get X ;;
  col <- getitem T column ;;
  col' <- lift_result (series_loc_set env col imp_ix r) ;;
  df_put X (dict.set T column col').

(** one iteration of the loop of [transform] *)
Definition transform_column (X : nat) (column : string) (imputer : imputer) : M unit :=
  T <- df_get X ;;
  col <- getitem T column ;;
  let imp_ix := isnull_index col in
  self <- self_ ;;
  match imputed_ self with
  | Some rec => update_self (set_imputed_ (dict.set rec column imp_ix))
  | None => raise (AttributeError "'SingleImputer' object has no attribute 'imputed_'")
  end ;;;
  (if verbose self then narrate_column column imputer imp_ix else ret tt) ;;;
  if bool_decide (imp_ix = []) then ret tt
  else impute_column X column imputer imp_ix.

Fixpoint transform_loop (X : nat) (items : list (string * imputer)) : M unit :=
  match items with
  | [] => ret tt
  | (column, imputer) :: rest =>
      transform_column X column imputer ;;; transform_loop X rest
  end.

(** [transform], under its decorator; yields the address of the table
    it returns *)
Definition transform_body (X : nat) : M nat :=
  self <- self_ ;;
  X <- (if copy self then df_copy X else ret X) ;;
  _transform_strategy_validator X ;;;
  (if verbose self then
     let trans := "PERFORMING IMPUTATIONS ON DATA BASED ON FIT..." in
     print (trans ++ newline ++ repeat_string "-" (String.length trans))
   else ret tt) ;;;
  update_self (set_imputed_ []) ;;;
  match statistics_ self with
  | Some stats => transform_loop X stats
  | None => raise (AttributeError "'SingleImputer' object has no attribute 'statistics_'")
  end ;;;
  ret X.

Definition transform (X : nat) : M nat := check_nan_columns_decorator transform_body X.

End single_imputer.
End single_imputer.

(** ** A small concrete world, used to run the code on examples

    Objects 0 to 6 are the seven imputer classes of the registry; an
    instance is object [100 + k], the k-th one constructed.  Every class
    fits the first observed value of the column and imputes it as one
    broadcast value (0 when it has seen none); ModeImputer alone accepts
    a keyword, fill_strategy. *)

Module demo.

Record instance := mkInstance { i_class : nat; i_param : value }.

Definition E : Type := list instance.
Definition W : Type := world E.

Definition class_names : list string :=
  ["MeanImputer"; "ModeImputer"; "MedianImputer"; "RandomImputer";
   "NormImputer"; "CategoricalImputer"; "InterpolateImputer"].

Definition strategy_names : list string :=
  [methods.MEAN; methods.MODE; methods.MEDIAN; methods.RANDOM;
   methods.NORM; methods.CATEGORICAL; methods.INTERPOLATE].

Definition instance_of (v : pyval) (w : W) : option instance :=
  match v with
  | PyObj o => if bool_decide (100 <= o)%nat then ext w !! (o - 100)%nat else None
  | _ => None
  end.

Definition no_attribute (name : string) : exn :=
  AttributeError ("object has no attribute '" ++ name ++ "'").

Definition getattr (v : pyval) (name : string) (w : W) : result pyval :=
  match v with
  | PyObj o =>
      match class_names !! o with
      | Some n =>
          if String.eqb name "__name__" then Ok (PyStr n)
          else if String.eqb name "fit_transform" then Ok PyNone
          else Raise (no_attribute name)
      | None =>
          match instance_of v w with
          | Some i =>
              if String.eqb name "strategy"
              then Ok (PyStr (default "" (strategy_names !! i_class i)))
              else Raise (no_attribute name)
          | None => Raise (no_attribute name)
          end
      end
  | _ => Raise (no_attribute name)
  end.

Definition accepted_keywords (c : nat) : list string :=
  if bool_decide (c = 1%nat) then ["fill_strategy"] else [].

Definition call (v : pyval) (kw : list (string * pyval)) : Py W pyval :=
  fun w =>
    match v with
    | PyObj c =>
        if bool_decide (c < 7)%nat then
          if forallb (fun k => bool_decide (k ∈ accepted_keywords c)) kw.*1 then
            (Ok (PyObj (100 + List.length (ext w))),
             mkWorld (heap w) (ext w ++ [mkInstance c None])%list)
          else (Raise (TypeError "__init__() got an unexpected keyword argument"), w)
        else (Raise (TypeError "object is not callable"), w)
    | _ => (Raise (TypeError "object is not callable"), w)
    end.

Definition first_observed (col : Series) : value :=
  default None (List.find (fun v : value => bool_decide (is_Some v)) (s_values col)).

Definition method (v : pyval) (name : string) (x : pyval) : Py W pyval :=
  fun w =>
    match v, instance_of v w, x with
    | PyObj o, Some i, PySeries a =>
        match heap w !! a with
        | Some col =>
            if String.eqb name "fit" then
              (Ok v, mkWorld (heap w)
                       (<[(o - 100)%nat := mkInstance (i_class i) (first_observed col)]> (ext w)))
            else if String.eqb name "transform" then (Ok x, w)
            else (Raise (no_attribute name), w)
        | None => (Raise (TypeError "not a Series"), w)
        end
    | _, _, _ => (Raise (no_attribute name), w)
    end.

Definition impute (v x : pyval) : Py W rhs :=
  fun w =>
    match instance_of v w with
    | Some i => (Ok (RScalar (Some (default (Num 0) (i_param i)))), w)
    | None => (Raise (no_attribute "impute"), w)
    end.

Definition strategy_of (v : pyval) (w : W) : pyval :=
  match instance_of v w with
  | Some i => PyStr (default "" (strategy_names !! i_class i))
  | None => PyNone
  end.

Definition all_missing (col : Series) : bool :=
  forallb (fun v : value => bool_decide (v = None)) (s_values col).

Definition nan_columns (T : DataFrame) : option exn :=
  if existsb (fun p => all_missing p.2) T
  then Some (ValueError "All values missing in column(s)." None)
  else None.

Definition resolve_strategy (s : strategy_spec) (cols : list string)
  : result (dict.t string) :=
  match s with
  | StratStr m => Ok (map (fun c => (c, m)) cols)
  | StratList l =>
      if bool_decide (List.length l = List.length cols) then Ok (zip cols l)
      else Raise (ValueError "Length of columns not equal to number of strategies." None)
  | StratDict d =>
      Ok (map (fun c => (c, default methods.DEFAULT (dict.get d c))) cols)
  end.

(** a value fits a dtype unless it is a string and the dtype is not one
    of strings; a column that receives a value that does not fit becomes
    an object column *)
Definition fits (d : dtype) (v : value) : bool :=
  match v with
  | Some (Str _) => is_string_dtype_kind d
  | _ => true
  end.

Definition dtype_after (d : dtype) (vs : list value) : dtype :=
  if forallb (fits d) vs then d else d_object.

Definition str_of (v : pyval) (w : W) : string :=
  match getattr v "__name__" w with
  | Ok (PyStr n) => n
  | _ => "<object>"
  end.

(** formatting fails on the object 99 alone, whose [__format__] looks up
    an attribute that does not exist *)
Definition format_of (v : pyval) (w : W) : result string :=
  match v with
  | PyObj 99 => Raise (no_attribute "name")
  | _ => Ok (str_of v w)
  end.

Definition env : External E :=
  {| py_str := str_of;
     py_format := format_of;
     py_getattr := getattr;
     py_call := call;
     py_method := method;
     py_truth := fun _ _ => Ok true;
     MeanImputer := PyObj 0;
     ModeImputer := PyObj 1;
     MedianImputer := PyObj 2;
     RandomImputer := PyObj 3;
     NormImputer := PyObj 4;
     CategoricalImputer := PyObj 5;
     InterpolateImputer := PyObj 6;
     setitem_dtype := dtype_after;
     plug_strategy := strategy_of;
     plug_impute := impute;
     check_nan_columns := nan_columns;
     check_strategy_fit := resolve_strategy |}.

Definition w0 : W := mkWorld [] [].

(** a session: one SingleImputer, one table at address 0 *)
Definition session (self : single_imputer.SingleImputer) (T : DataFrame)
  : single_imputer.pystate :=
  single_imputer.mkState self [T] [] w0.

(** columns on the default index *)
Definition float_col (vs : list value) : Series :=
  mkSeries d_float (zip (range_index (length vs)) vs).
Definition object_col (vs : list value) : Series :=
  mkSeries d_object (zip (range_index (length vs)) vs).

(** column A = [1, 2, missing, 4]; column B = ["x", "y", missing, "x"] *)
Definition table_AB : DataFrame :=
  [ ("A", float_col [Some (Num 1); Some (Num 2); None; Some (Num 4)]);
    ("B", object_col [Some (Str "x"); Some (Str "y"); None; Some (Str "x")]) ].

(** column A alone *)
Definition table_A : DataFrame :=
  [ ("A", float_col [Some (Num 1); Some (Num 2); None; Some (Num 4)]) ].

(** put one more table in memory; its address is the old number of tables *)
Definition load (T : DataFrame) (σ : single_imputer.pystate (E:=E))
  : single_imputer.pystate :=
  single_imputer.mkState (single_imputer.this σ)
    (single_imputer.frames σ ++ [T])%list
    (single_imputer.stdout σ) (single_imputer.wld σ).

(** SingleImputer(strategy="mean").fit(table_AB) *)
Definition fitted_mean : single_imputer.pystate :=
  (single_imputer.fit env 0
     (session (single_imputer.SingleImputer_init (StratStr "mean") None true false)
              table_AB)).2.

(** SingleImputer().fit(table_AB): the default strategy *)
Definition fitted_default : single_imputer.pystate :=
  (single_imputer.fit env 0
     (session (single_imputer.SingleImputer_init (StratStr "default") None true false)
              table_AB)).2.

(** SingleImputer(strategy="mean", imp_kwgs={"B": {"bogus": 1}}) *)
Definition bogus_B : single_imputer.pystate :=
  session (single_imputer.SingleImputer_init (StratStr "mean")
             (Some [("B", PyDict [("bogus", PyInt 1)])]) true false)
          table_AB.

(** SingleImputer(imp_kwgs={"default": {"num_kwgs": 5}}) *)
Definition bad_num_kwgs : single_imputer.pystate :=
  session (single_imputer.SingleImputer_init (StratStr "default")
             (Some [("default", PyDict [("num_kwgs", PyInt 5)])]) true false)
          table_AB.

(** a DefaultSingleImputer with its defaults, fitted on column A *)
Definition world_A : W :=
  mkWorld [float_col [Some (Num 1); Some (Num 2); None; Some (Num 4)]] [].

Definition default_imputer : default.DefaultSingleImputer * W :=
  match default.DefaultSingleImputer_new env [] world_A with
  | (Ok d, w) => (d, w)
  | (Raise _, w) => (default.mkDefault PyNone PyNone PyNone PyNone None, w)
  end.

Definition default_imputer_fitted : default.DefaultSingleImputer * W :=
  match default.DefaultSingleImputer_fit env default_imputer.1 (PySeries 0)
          default_imputer.2 with
  | (Ok d, w) => (d, w)
  | (Raise _, w) => (default_imputer.1, w)
  end.

(** the same world, except that calling any class raises AttributeError *)
Definition env_attr : External E :=
  {| py_str := py_str env;
     py_format := py_format env;
     py_getattr := getattr;
     py_call := fun _ _ w => (Raise (no_attribute "lower"), w);
     py_method := method;
     py_truth := fun _ _ => Ok true;
     MeanImputer := PyObj 0;
     ModeImputer := PyObj 1;
     MedianImputer := PyObj 2;
     RandomImputer := PyObj 3;
     NormImputer := PyObj 4;
     CategoricalImputer := PyObj 5;
     InterpolateImputer := PyObj 6;
     setitem_dtype := dtype_after;
     plug_strategy := strategy_of;
     plug_impute := impute;
     check_nan_columns := nan_columns;
     check_strategy_fit := resolve_strategy |}.

(** SingleImputer(strategy="mean"), not fitted yet *)
Definition fresh : single_imputer.pystate :=
  session (single_imputer.SingleImputer_init (StratStr "mean") None true false) table_AB.

(** SingleImputer(), the default strategy, not fitted yet *)
Definition fresh_default : single_imputer.pystate :=
  session (single_imputer.SingleImputer_init (StratStr "default") None true false) table_AB.

(** SingleImputer(strategy="mean", copy=False).fit(table_AB) *)
Definition fitted_mean_inplace : single_imputer.pystate :=
  (single_imputer.fit env 0
     (session (single_imputer.SingleImputer_init (StratStr "mean") None false false)
              table_AB)).2.

(** SingleImputer(strategy=["mean"]): one strategy for two columns *)
Definition bad_strategy : single_imputer.pystate :=
  session (single_imputer.SingleImputer_init (StratList ["mean"]) None true false) table_AB.

(** the two columns with every entry present *)
Definition table_full : DataFrame :=
  [ ("A", float_col [Some (Num 1); Some (Num 2); Some (Num 3); Some (Num 4)]);
    ("B", object_col [Some (Str "x"); Some (Str "y"); Some (Str "y"); Some (Str "x")]) ].

(** SingleImputer().fit(table_full) *)
Definition fitted_default_full : single_imputer.pystate :=
  (single_imputer.fit env 0
     (session (single_imputer.SingleImputer_init (StratStr "default") None true false)
              table_full)).2.

(** SingleImputer(strategy="mean").fit on a table without columns *)
Definition fitted_empty : single_imputer.pystate :=
  (single_imputer.fit env 0
     (session (single_imputer.SingleImputer_init (StratStr "mean") None true false) [])).2.

(** a column on the row labels [ls] *)
Definition labelled_col (d : dtype) (ls : list Z) (vs : list value) : Series :=
  mkSeries d (zip (Lint <$> ls) vs).

(** column A = [1, 2, missing, 4] on the index [10, 11, 12, 13] *)
Definition table_from_10 : DataFrame :=
  [ ("A", labelled_col d_float [10; 11; 12; 13]%Z
            [Some (Num 1); Some (Num 2); None; Some (Num 4)]) ].

(** column A = [1, missing, 3] on the index [10, 11, 11]: a label repeats *)
Definition table_repeated : DataFrame :=
  [ ("A", labelled_col d_float [10; 11; 11]%Z [Some (Num 1); None; Some (Num 3)]) ].

(** SingleImputer(strategy="mean").fit on each of the two *)
Definition fitted_mean_from_10 : single_imputer.pystate :=
  (single_imputer.fit env 0
     (session (single_imputer.SingleImputer_init (StratStr "mean") None true false)
              table_from_10)).2.

Definition fitted_mean_repeated : single_imputer.pystate :=
  (single_imputer.fit env 0
     (session (single_imputer.SingleImputer_init (StratStr "mean") None true false)
              table_repeated)).2.

(** the stores that the two fits with the default strategy leave *)
Definition default_store : dict.t single_imputer.imputer :=
  Eval vm_compute in default [] (single_imputer.statistics_ (single_imputer.this fitted_default)).

Definition default_full_store : dict.t single_imputer.imputer :=
  Eval vm_compute in
    default [] (single_imputer.statistics_ (single_imputer.this fitted_default_full)).

End demo.


(** ** Vocabulary of the specification *)

(** the rows of column [c] of a table whose entry is missing, each by
    its row label, in row order *)
Definition missing_positions (T : DataFrame) (c : string) : list label :=
  match dict.get T c with
  | Some col => isnull_index col
  | None => []
  end.

(** [needle] occurs in [s] *)
Fixpoint is_substring (needle s : string) : bool :=
  String.prefix needle s ||
  match s with
  | EmptyString => false
  | String _ s' => is_substring needle s'
  end.

(** an exception names [x] when its message contains it *)
Definition names (e : exn) (x : string) : bool := is_substring x (exn_message e).

(** the values an imputer hands back are all present, for the rows that
    [.loc[ix]] addresses on the index [idx] *)
Definition rhs_fills (idx ix : list label) (r : rhs) : Prop :=
  match r with
  | RScalar v => is_Some v
  | RArray vs => Forall is_Some vs
  | RSeries s => forall vals, rhs_values idx ix (RSeries s) = Ok vals -> Forall is_Some vals
  end.

(** a column after some writes: the same row labels; every row whose
    label is not the label of a missing row keeps its entry; and a column
    without missing entries is the same column *)
Definition col_preserved (col col' : Series) : Prop :=
  s_index col' = s_index col /\
  (forall p l, s_index col !! p = Some l -> l ∉ isnull_index col ->
               s_values col' !! p = s_values col !! p) /\
  (isnull_index col = [] -> col' = col).

Definition table_preserved (T T' : DataFrame) : Prop :=
  dict.keys T' = dict.keys T /\
  forall c col, dict.get T c = Some col ->
    exists col', dict.get T' c = Some col' /\ col_preserved col col'.

(** everything of a SingleImputer but its Imputed-Index Record *)
Definition same_config (s s' : single_imputer.SingleImputer) : Prop :=
  single_imputer.strategy s' = single_imputer.strategy s /\
  single_imputer.imp_kwgs s' = single_imputer.imp_kwgs s /\
  single_imputer.copy s' = single_imputer.copy s /\
  single_imputer.verbose s' = single_imputer.verbose s /\
  single_imputer._strats s' = single_imputer._strats s /\
  single_imputer.statistics_ s' = single_imputer.statistics_ s.

(** a stored imputer went through [fit]: a DefaultSingleImputer carries
    its [statistics_] with the key "strategy" *)
Definition imputer_fitted (imp : single_imputer.imputer) : Prop :=
  match imp with
  | single_imputer.IDefault d =>
      exists stats, default.statistics_ d = Some stats /\ is_Some (dict.get stats "strategy")
  | single_imputer.IPlug _ => True
  end.

(** the Statistics Store is a dict of fitted imputers *)
Definition store_ok (self : single_imputer.SingleImputer) : Prop :=
  forall stats, single_imputer.statistics_ self = Some stats ->
    NoDup (dict.keys stats) /\
    forall c imp, (c, imp) ∈ stats -> imputer_fitted imp.

(** every value that a stored imputer hands back for a column is present *)
Definition impute_fills {E} (env : External E)
    (stats : dict.t single_imputer.imputer) : Prop :=
  forall c o a w rv w' col,
    (c, single_imputer.IPlug o) ∈ stats ->
    heap w !! a = Some col ->
    plug_impute env o (PySeries a) w = (Ok rv, w') ->
    rhs_fills (s_index col) (isnull_index col) rv.


(** the state with the narration switched off and the console wiped *)
Definition silence {E} (σ : single_imputer.pystate (E:=E)) : single_imputer.pystate :=
  single_imputer.mkState
    (single_imputer.set_verbose false (single_imputer.this σ))
    (single_imputer.frames σ) [] (single_imputer.wld σ).

Definition with_verbose {E} (b : bool) (σ : single_imputer.pystate (E:=E))
  : single_imputer.pystate :=
  single_imputer.mkState
    (single_imputer.set_verbose b (single_imputer.this σ))
    (single_imputer.frames σ) (single_imputer.stdout σ) (single_imputer.wld σ).

(** [transform] up to its loop: the address of the working table and the
    state in which the loop starts *)
Definition loop_entry {E} (X : nat) (T : DataFrame) (σ : single_imputer.pystate (E:=E))
  : nat * single_imputer.pystate :=
  let self := single_imputer.this σ in
  let trans := "PERFORMING IMPUTATIONS ON DATA BASED ON FIT..." in
  (if single_imputer.copy self then length (single_imputer.frames σ) else X,
   single_imputer.mkState
     (single_imputer.set_imputed_ [] self)
     (if single_imputer.copy self
      then (single_imputer.frames σ ++ [T])%list else single_imputer.frames σ)
     (if single_imputer.verbose self
      then (single_imputer.stdout σ ++
            [(trans ++ single_imputer.newline ++
              single_imputer.repeat_string "-" (String.length trans))%string])%list
      else single_imputer.stdout σ)
     (single_imputer.wld σ)).

(** the state after [if self.copy: X = X.copy()] *)
Definition after_copy {E} (T : DataFrame) (σ : single_imputer.pystate (E:=E))
  : single_imputer.pystate :=
  single_imputer.mkState
    (single_imputer.this σ)
    (if single_imputer.copy (single_imputer.this σ)
     then (single_imputer.frames σ ++ [T])%list else single_imputer.frames σ)
    (single_imputer.stdout σ) (single_imputer.wld σ).

(** the columns of the strategy map that the table lacks *)
Definition missing_columns (strats : dict.t string) (T : DataFrame) : list string :=
  filter (fun c => c ∉ dict.keys T) (dict.keys strats).

Definition not_fitted_message (cls : string) : string :=
  "This " ++ cls ++ " instance is not fitted yet. Call 'fit' with appropriate arguments before using this estimator.".

Definition column_mismatch_message : string :=
  "Same columns that were fit must appear in transform.".

(** the state whose Statistics Store is replaced by [old] *)
Definition with_statistics {E} (old : option (dict.t single_imputer.imputer))
    (σ : single_imputer.pystate (E:=E)) : single_imputer.pystate :=
  let self := single_imputer.this σ in
  single_imputer.mkState
    (single_imputer.mkSingleImputer
       (single_imputer.strategy self) (single_imputer.imp_kwgs self)
       (single_imputer.copy self) (single_imputer.verbose self)
       (single_imputer._strats self) old (single_imputer.imputed_ self))
    (single_imputer.frames σ) (single_imputer.stdout σ) (single_imputer.wld σ).

Definition with_world {E} (w : world E) (σ : single_imputer.pystate (E:=E))
  : single_imputer.pystate :=
  single_imputer.mkState (single_imputer.this σ) (single_imputer.frames σ)
                         (single_imputer.stdout σ) w.

(** the message of the ValueError that replaces a TypeError of a constructor *)
Definition invalid_arguments_message (name : string) : string :=
  "Invalid arguments passed to " ++ name ++ " __init__ method.".

(** everything of a SingleImputer but its Statistics Store *)
Definition same_but_store (s s' : single_imputer.SingleImputer) : Prop :=
  single_imputer.strategy s' = single_imputer.strategy s /\
  single_imputer.imp_kwgs s' = single_imputer.imp_kwgs s /\
  single_imputer.copy s' = single_imputer.copy s /\
  single_imputer.verbose s' = single_imputer.verbose s /\
  single_imputer._strats s' = single_imputer._strats s /\
  single_imputer.imputed_ s' = single_imputer.imputed_ s.

(** [fit] up to its loop: the state in which the loop starts *)
Definition fit_entry {E} (strats : dict.t string) (σ : single_imputer.pystate (E:=E))
  : single_imputer.pystate :=
  let self := single_imputer.this σ in
  let ft := "FITTING IMPUTATION METHODS TO DATA..." in
  let st := "Strategies used to fit each column:" in
  single_imputer.mkState
    (single_imputer.set_statistics_ [] (single_imputer.set__strats strats self))
    (single_imputer.frames σ)
    (if single_imputer.verbose self
     then (single_imputer.stdout σ ++
           [(ft ++ single_imputer.newline ++ st ++ single_imputer.newline ++
             single_imputer.repeat_string "-" (String.length st))%string])%list
     else single_imputer.stdout σ)
    (single_imputer.wld σ).

(** the state of an object that [fit] never ran on: no strategy map, no
    Statistics Store *)
Definition forget_fit {E} (σ : single_imputer.pystate (E:=E)) : single_imputer.pystate :=
  let self := single_imputer.this σ in
  single_imputer.mkState
    (single_imputer.mkSingleImputer
       (single_imputer.strategy self) (single_imputer.imp_kwgs self)
       (single_imputer.copy self) (single_imputer.verbose self)
       None None (single_imputer.imputed_ self))
    (single_imputer.frames σ) (single_imputer.stdout σ) (single_imputer.wld σ).

(** every imputer of the store is a DefaultSingleImputer *)
Definition default_only (stats : dict.t single_imputer.imputer) : Prop :=
  forall c imp, (c, imp) ∈ stats -> exists d, imp = single_imputer.IDefault d.

Definition no_impute_message : string :=
  "'DefaultSingleImputer' object has no attribute 'impute'".

Definition num_kwgs_message : string :=
  "num_kwgs must be dict of args used to init num_imputer.".

Definition cat_kwgs_message : string :=
  "cat_kwgs must be dict of args used to init cat_imputer.".

(** the three [fit] methods of default.py *)
Definition default_fits {E} (env : External E)
  : list (default.DefaultBaseImputer -> pyval -> Py (world E) default.DefaultBaseImputer) :=
  [default.DefaultBaseImputer_fit env; default.DefaultSingleImputer_fit env;
   default.DefaultTimeSeriesImputer_fit env].

(** the three [transform] methods of default.py, with the class name that
    the not-fitted message carries *)
Definition default_transforms {E} (env : External E)
  : list (string * (default.DefaultBaseImputer -> pyval -> Py (world E) pyval)) :=
  [("DefaultBaseImputer", default.DefaultBaseImputer_transform env "DefaultBaseImputer");
   ("DefaultSingleImputer", default.DefaultSingleImputer_transform env);
   ("DefaultTimeSeriesImputer", default.DefaultTimeSeriesImputer_transform env)].
(** * Properties *)

Open Scope list_scope.

(** ** Running monadic code *)

Lemma bind_run {S A B} (c : Py S A) (k : A -> Py S B) s r s' :
  bind c k s = (r, s') ->
  exists r1 s1, c s = (r1, s1) /\
    match r1 with
    | Ok a => k a s1 = (r, s')
    | Raise e => r = Raise e /\ s' = s1
    end.
Proof.
  unfold bind. destruct (c s) as [[a|e] s1]; intros H.
  - by exists (Ok a), s1.
  - injection H as <- <-. by exists (Raise e), s1.
Qed.

Lemma bind_Ok {S A B} (c : Py S A) (k : A -> Py S B) s a s1 :
  c s = (Ok a, s1) -> bind c k s = k a s1.
Proof. unfold bind. by intros ->. Qed.

Lemma bind_Raise {S A B} (c : Py S A) (k : A -> Py S B) s e s1 :
  c s = (Raise e, s1) -> bind c k s = (Raise e, s1).
Proof. unfold bind. by intros ->. Qed.

(** ** Dicts *)

Section dict_facts.
Context {V : Type}.
Implicit Types (d : dict.t V) (k : string) (v : V).

Lemma dict_get_None d k : dict.get d k = None <-> k ∉ dict.keys d.
Proof.
  induction d as [|[k' v'] d IH]; simpl.
  - split; [intros _; apply not_elem_of_nil | done].
  - destruct (decide (k' = k)) as [->|Hne].
    + split; [done | intros H; exfalso; apply H; left].
    + rewrite IH. unfold dict.keys; simpl. rewrite not_elem_of_cons.
      split; [intros ?; split; [congruence | done] | by intros [_ ?]].
Qed.

Lemma dict_get_Some_elem d k v : dict.get d k = Some v -> (k, v) ∈ d.
Proof.
  induction d as [|[k' v'] d IH]; simpl; [done|].
  destruct (decide (k' = k)) as [->|Hne].
  - intros [= ->]. left.
  - intros H. right. auto.
Qed.

Lemma dict_get_is_Some d k : is_Some (dict.get d k) <-> k ∈ dict.keys d.
Proof.
  destruct (dict.get d k) eqn:Hg.
  - split; [intros _ | eauto].
    apply dict_get_Some_elem in Hg. unfold dict.keys.
    apply list_elem_of_fmap. by exists (k, v).
  - apply dict_get_None in Hg. split; [by intros [? ?] | done].
Qed.

Lemma dict_get_set_eq d k v : dict.get (dict.set d k v) k = Some v.
Proof.
  induction d as [|[k' v'] d IH]; simpl.
  - by rewrite decide_True.
  - destruct (decide (k' = k)) as [->|Hne]; simpl.
    + by rewrite decide_True.
    + by rewrite decide_False.
Qed.

Lemma dict_get_set_ne d k k' v : k <> k' -> dict.get (dict.set d k v) k' = dict.get d k'.
Proof.
  intros Hne. induction d as [|[k0 v0] d IH]; simpl.
  - by rewrite decide_False.
  - destruct (decide (k0 = k)) as [->|Hne0]; simpl.
    + by rewrite !decide_False.
    + destruct (decide (k0 = k')); done.
Qed.

Lemma dict_set_fresh d k v : k ∉ dict.keys d -> dict.set d k v = d ++ [(k, v)].
Proof.
  induction d as [|[k' v'] d IH]; simpl; [done|].
  unfold dict.keys; simpl. rewrite not_elem_of_cons. intros [Hne Hnin].
  rewrite decide_False by done. f_equal. by apply IH.
Qed.

Lemma dict_keys_set_present d k v : k ∈ dict.keys d -> dict.keys (dict.set d k v) = dict.keys d.
Proof.
  induction d as [|[k' v'] d IH]; simpl.
  - intros H. by apply elem_of_nil in H.
  - unfold dict.keys; simpl. destruct (decide (k' = k)) as [->|Hne]; simpl; [done|].
    rewrite elem_of_cons. intros [->|Hin]; [done|]. f_equal. by apply IH.
Qed.

Lemma dict_set_NoDup d k v : NoDup (dict.keys d) -> NoDup (dict.keys (dict.set d k v)).
Proof.
  intros Hnd. destruct (decide (k ∈ dict.keys d)) as [Hin|Hnin].
  - by rewrite dict_keys_set_present.
  - rewrite dict_set_fresh by done. unfold dict.keys in *. rewrite fmap_app; simpl.
    apply NoDup_app. split_and!; [done| |apply NoDup_singleton].
    intros x Hx Hx'. apply list_elem_of_singleton in Hx'. by subst.
Qed.

Lemma dict_set_elem d k v k' v' :
  (k', v') ∈ dict.set d k v -> (k' = k /\ v' = v) \/ (k', v') ∈ d.
Proof.
  induction d as [|[k0 v0] d IH]; simpl.
  - intros H. apply list_elem_of_singleton in H. left. by inversion H.
  - destruct (decide (k0 = k)) as [->|Hne]; rewrite elem_of_cons.
    + intros [[= -> ->]|H]; [by left | right; by right].
    + intros [[= -> ->]|H]; [right; left|].
      destruct (IH H) as [?|?]; [by left | right; by right].
Qed.
End dict_facts.

(** ** Missing positions and positional assignment *)

Lemma elem_of_isnull_from n xs i :
  i ∈ isnull_from n xs <-> (n <= i)%nat /\ xs !! (i - n)%nat = Some None.
Proof.
  revert n. induction xs as [|[x|] xs IH]; intros n; simpl.
  - split; [intros H; by apply elem_of_nil in H | by intros [_ ?]].
  - rewrite IH. split.
    + intros [Hle Hl]. split; [lia|].
      replace (i - n)%nat with (S (i - S n)) by lia. done.
    + intros [Hle Hl]. destruct (decide (i = n)) as [->|Hne].
      * by rewrite Nat.sub_diag in Hl.
      * split; [lia|]. replace (i - n)%nat with (S (i - S n)) in Hl by lia. done.
  - rewrite elem_of_cons, IH. split.
    + intros [->|[Hle Hl]].
      * split; [lia|]. by rewrite Nat.sub_diag.
      * split; [lia|]. replace (i - n)%nat with (S (i - S n)) by lia. done.
    + intros [Hle Hl]. destruct (decide (i = n)) as [->|Hne]; [by left|right].
      split; [lia|]. replace (i - n)%nat with (S (i - S n)) in Hl by lia. done.
Qed.

Lemma isnull_from_lt n xs : Forall (fun i => i < n + length xs)%nat (isnull_from n xs).
Proof.
  revert n. induction xs as [|[x|] xs IH]; intros n; simpl; [constructor|..].
  - eapply Forall_impl; [apply (IH (S n)) | simpl; intros; lia].
  - constructor; [lia|]. eapply Forall_impl; [apply (IH (S n)) | simpl; intros; lia].
Qed.

Lemma isnull_from_sorted n xs :
  StronglySorted lt (isnull_from n xs) /\ Forall (fun i => n <= i)%nat (isnull_from n xs).
Proof.
  revert n. induction xs as [|[x|] xs IH]; intros n; simpl.
  - split; constructor.
  - destruct (IH (S n)) as [Hs Hf]. split; [done|].
    eapply Forall_impl; [exact Hf | simpl; intros; lia].
  - destruct (IH (S n)) as [Hs Hf]. split.
    + constructor; [done|]. eapply Forall_impl; [exact Hf | simpl; intros; lia].
    + constructor; [lia|]. eapply Forall_impl; [exact Hf | simpl; intros; lia].
Qed.

Lemma isnull_from_nil n xs : isnull_from n xs = [] <-> Forall is_Some xs.
Proof.
  revert n. induction xs as [|[x|] xs IH]; intros n; simpl.
  - split; [constructor | done].
  - rewrite IH. split; [intros ?; constructor; [by eexists | done] | by inversion 1].
  - split; [done|]. inversion 1 as [|? ? [? ?]]; done.
Qed.

(** ** Row labels *)

Lemma s_index_length col : length (s_index col) = length (s_values col).
Proof. unfold s_index, s_values. by rewrite !length_fmap. Qed.

Lemma s_rows_lookup col p l v :
  s_rows col !! p = Some (l, v) <-> s_index col !! p = Some l /\ s_values col !! p = Some v.
Proof.
  unfold s_index, s_values. rewrite !list_lookup_fmap.
  destruct (s_rows col !! p) as [[l' v']|]; simpl; [|by split; [|intros [? ?]]].
  split; [by intros [= -> ->] | by intros [[= ->] [= ->]]].
Qed.

Lemma labels_at_Forall2 idx ps :
  Forall (fun p => p < length idx)%nat ps ->
  Forall2 (fun p l => idx !! p = Some l) ps (labels_at idx ps).
Proof.
  induction 1 as [|p ps Hp _ IH]; simpl; [constructor|].
  destruct (lookup_lt_is_Some_2 idx p Hp) as [l Hl]. unfold labels_at; simpl.
  rewrite Hl. simpl. by constructor.
Qed.

Lemma labels_at_length idx ps :
  Forall (fun p => p < length idx)%nat ps -> length (labels_at idx ps) = length ps.
Proof. intros H. symmetry. eapply Forall2_length, labels_at_Forall2, H. Qed.

Lemma elem_of_labels_at idx ps l :
  l ∈ labels_at idx ps <-> exists p, p ∈ ps /\ idx !! p = Some l.
Proof. unfold labels_at. by rewrite list_elem_of_omap. Qed.

Lemma lookup_range_index n p : (p < n)%nat -> range_index n !! p = Some (position_label p).
Proof.
  intros Hp. unfold range_index. rewrite list_lookup_fmap, lookup_seq_lt by done. done.
Qed.

Lemma labels_at_range_index n ps :
  Forall (fun p => p < n)%nat ps -> labels_at (range_index n) ps = position_label <$> ps.
Proof.
  induction 1 as [|p ps Hp _ IH]; [done|]. unfold labels_at in *; simpl.
  rewrite lookup_range_index by done. simpl. f_equal. exact IH.
Qed.

Lemma isnull_positions_lt col :
  Forall (fun p => p < length (s_index col))%nat (isnull_from 0 (s_values col)).
Proof. rewrite s_index_length. apply (isnull_from_lt 0). Qed.

Lemma elem_of_isnull_positions col p :
  p ∈ isnull_from 0 (s_values col) <-> s_values col !! p = Some None.
Proof.
  rewrite elem_of_isnull_from, Nat.sub_0_r. split; [by intros [_ ?] | split; [lia | done]].
Qed.

(** a label is recorded exactly when some row that carries it is missing *)
Lemma elem_of_isnull_index col l :
  l ∈ isnull_index col <->
  exists p, s_index col !! p = Some l /\ s_values col !! p = Some None.
Proof.
  unfold isnull_index. rewrite elem_of_labels_at. split.
  - intros (p & Hp & Hl). exists p. split; [done|]. by apply elem_of_isnull_positions.
  - intros (p & Hl & Hp). exists p. split; [|done]. by apply elem_of_isnull_positions.
Qed.

Lemma isnull_index_length col :
  length (isnull_index col) = length (isnull_from 0 (s_values col)).
Proof. apply labels_at_length, isnull_positions_lt. Qed.

Lemma isnull_index_nil col :
  isnull_index col = [] <-> Forall is_Some (s_values col).
Proof.
  rewrite <- (isnull_from_nil 0). split.
  - intros Hnil. apply length_zero_iff_nil. by rewrite <- isnull_index_length, Hnil.
  - intros Hnil. unfold isnull_index. by rewrite Hnil.
Qed.

(** ** Rows addressed by label *)

Lemma elem_of_positions_from n l idx p :
  p ∈ positions_from n l idx <-> (n <= p)%nat /\ idx !! (p - n)%nat = Some l.
Proof.
  revert n. induction idx as [|l' idx IH]; intros n; simpl.
  - split; [intros H; by apply elem_of_nil in H | by intros [_ ?]].
  - destruct (decide (l' = l)) as [->|Hne].
    + rewrite elem_of_cons, IH. split.
      * intros [->|[Hle Hl]].
        -- split; [lia|]. by rewrite Nat.sub_diag.
        -- split; [lia|]. replace (p - n)%nat with (S (p - S n)) by lia. done.
      * intros [Hle Hl]. destruct (decide (p = n)) as [->|Hpn]; [by left|right].
        split; [lia|]. replace (p - n)%nat with (S (p - S n)) in Hl by lia. done.
    + rewrite IH. split.
      * intros [Hle Hl]. split; [lia|].
        replace (p - n)%nat with (S (p - S n)) by lia. done.
      * intros [Hle Hl]. destruct (decide (p = n)) as [->|Hpn].
        -- rewrite Nat.sub_diag in Hl. simpl in Hl. congruence.
        -- split; [lia|]. replace (p - n)%nat with (S (p - S n)) in Hl by lia. done.
Qed.

(** [.loc[ix]] addresses exactly the rows whose label is in [ix] *)
Lemma elem_of_loc_rows idx ix p :
  p ∈ loc_rows idx ix <-> exists l, l ∈ ix /\ idx !! p = Some l.
Proof.
  unfold loc_rows. rewrite list_elem_of_In, in_flat_map. split.
  - intros (l & Hl & Hp). apply list_elem_of_In in Hl, Hp.
    apply elem_of_positions_from in Hp as [_ Hp]. rewrite Nat.sub_0_r in Hp. by exists l.
  - intros (l & Hl & Hp). exists l. split; [by apply list_elem_of_In|].
    apply list_elem_of_In, elem_of_positions_from. rewrite Nat.sub_0_r. split; [lia | done].
Qed.

Lemma loc_rows_lt idx ix : Forall (fun p => p < length idx)%nat (loc_rows idx ix).
Proof.
  apply Forall_forall. intros p Hp. apply elem_of_loc_rows in Hp as (l & _ & Hp).
  by eapply lookup_lt_Some.
Qed.

Lemma loc_rows_nil idx : loc_rows idx [] = [].
Proof. done. Qed.

(** the values written are one per addressed row *)
Lemma rhs_values_length idx ix r vals :
  rhs_values idx ix r = Ok vals -> length vals = length (loc_rows idx ix).
Proof.
  destruct r as [v|vs|s]; simpl.
  - intros [= <-]. by rewrite length_replicate.
  - case_bool_decide as Hlen; [by intros [= <-]|].
    destruct vs as [|v [|]]; try done. intros [= <-]. by rewrite length_replicate.
  - case_bool_decide as Hidx.
    + intros [= <-]. rewrite <- s_index_length, Hidx. apply labels_at_length, loc_rows_lt.
    + case_bool_decide; [|done]. intros [= <-]. rewrite length_fmap.
      apply labels_at_length, loc_rows_lt.
Qed.

Lemma rhs_fills_values idx ix r vals :
  rhs_fills idx ix r -> rhs_values idx ix r = Ok vals -> Forall is_Some vals.
Proof.
  destruct r as [v|vs|s]; simpl.
  - intros Hv [= <-]. apply Forall_forall. intros y Hy.
    by apply elem_of_replicate in Hy as [-> _].
  - intros Hvs. case_bool_decide; [by intros [= <-]|].
    destruct vs as [|v [|]]; try done. intros [= <-]. apply Forall_forall. intros y Hy.
    apply elem_of_replicate in Hy as [-> _]. by inversion Hvs.
  - intros Hs Hv. by apply Hs.
Qed.

Lemma assign_at_length ix vals xs : length (assign_at ix vals xs) = length xs.
Proof.
  revert vals xs. induction ix as [|i ix IH]; intros [|v vals] xs; simpl; try done.
  by rewrite IH, length_insert.
Qed.

Lemma assign_at_lookup_notin ix vals xs j :
  j ∉ ix -> assign_at ix vals xs !! j = xs !! j.
Proof.
  revert vals xs. induction ix as [|i ix IH]; intros [|v vals] xs Hj; simpl; try done.
  apply not_elem_of_cons in Hj as [Hne Hj].
  rewrite IH by done. by apply list_lookup_insert_ne.
Qed.

Lemma assign_at_lookup_in ix vals xs j :
  length vals = length ix -> j ∈ ix -> (j < length xs)%nat ->
  exists v, v ∈ vals /\ assign_at ix vals xs !! j = Some v.
Proof.
  revert vals xs. induction ix as [|i ix IH]; intros [|v vals] xs Hlen Hj Hlt; simpl in *;
    try done.
  - by apply elem_of_nil in Hj.
  - destruct (decide (j ∈ ix)) as [Hin|Hnin].
    + destruct (IH vals (<[i:=v]> xs)) as (v' & Hv' & Hl); [lia|done|by rewrite length_insert|].
      exists v'. split; [by right | done].
    + apply elem_of_cons in Hj as [->|?]; [|done].
      exists v. split; [left|].
      rewrite assign_at_lookup_notin by done. by apply list_lookup_insert_eq.
Qed.

(** ** default.py *)

Lemma numeric_string_disjoint d :
  is_numeric_dtype_kind d = true -> is_string_dtype_kind d = false.
Proof. by destruct d. Qed.

Section default_facts.
Context {E : Type} (env : External E).
Import default.

Lemma is_numeric_not_string X (w : world E) :
  is_numeric_dtype X w = true -> is_string_dtype X w = false.
Proof.
  unfold is_numeric_dtype, is_string_dtype.
  destruct (dtype_of X w); [apply numeric_string_disjoint | done].
Qed.

(** C5: [DefaultBaseImputer.fit] puts the column in exactly one of the
    classes numeric, textual, other.  A numeric column is fitted by the
    numeric sub-imputer, and what its [fit] returns is stored as "param"
    next to its strategy name; a string column likewise with the
    categorical sub-imputer; any other column stores None for both, and
    no sub-imputer runs. *)
Theorem DefaultBaseImputer_fit_classifies (self : DefaultBaseImputer) (X : pyval) (w : world E) :
  let fitted stats :=
    mkDefault (_num_kwgs self) (_cat_kwgs self) (_num_imputer self) (_cat_imputer self)
              (Some stats) in
  ((is_numeric_dtype X w = true /\ is_string_dtype X w = false) \/
   (is_numeric_dtype X w = false /\ is_string_dtype X w = true) \/
   (is_numeric_dtype X w = false /\ is_string_dtype X w = false)) /\
  (is_numeric_dtype X w = true ->
     forall p w1 s,
       py_method env (num_imputer self) "fit" X w = (Ok p, w1) ->
       py_getattr env (num_imputer self) "strategy" w1 = Ok s ->
       DefaultBaseImputer_fit env self X w
       = (Ok (fitted [("param", p); ("strategy", s)]), w1)) /\
  (is_string_dtype X w = true ->
     forall p w1 s,
       py_method env (cat_imputer self) "fit" X w = (Ok p, w1) ->
       py_getattr env (cat_imputer self) "strategy" w1 = Ok s ->
       DefaultBaseImputer_fit env self X w
       = (Ok (fitted [("param", p); ("strategy", s)]), w1)) /\
  (is_numeric_dtype X w = false -> is_string_dtype X w = false ->
     DefaultBaseImputer_fit env self X w
     = (Ok (fitted [("param", PyNone); ("strategy", PyNone)]), w)).
Proof.
  intros fitted. split_and!.
  - destruct (is_numeric_dtype X w) eqn:Hn.
    + left. split; [done | by apply is_numeric_not_string].
    + destruct (is_string_dtype X w); [right; left | right; right]; done.
  - intros Hn p w1 s Hfit Hstrat.
    unfold DefaultBaseImputer_fit, bind, getattr, ret.
    by rewrite Hn, Hfit, Hstrat.
  - intros Hs p w1 s Hfit Hstrat.
    assert (Hn : is_numeric_dtype X w = false).
    { destruct (is_numeric_dtype X w) eqn:Hn; [|done].
      apply is_numeric_not_string in Hn. congruence. }
    unfold DefaultBaseImputer_fit, bind, getattr, ret.
    by rewrite Hn, Hs, Hfit, Hstrat.
  - intros Hn Hs. unfold DefaultBaseImputer_fit, bind, ret. by rewrite Hn, Hs.
Qed.

(** C9: [transform] of both classes hands back the very argument [X].
    Whatever the delegated [transform] returns is dropped, and the world
    afterwards is the one that call left, so [X] reads differently only
    if the sub-imputer wrote into it; with a null "param" nothing runs
    and nothing changes. *)
Theorem default_transform_returns_argument (self : DefaultBaseImputer) (X : pyval)
    (w : world E) (stats : dict.t pyval) (imp : pyval) :
  statistics_ self = Some stats ->
  dict.get stats "param" = Some imp ->
  forall tr,
    tr = DefaultBaseImputer_transform env "DefaultBaseImputer" \/
    tr = DefaultSingleImputer_transform env ->
    (forall r w', tr self X w = (Ok r, w') -> r = X) /\
    (truth env imp w = Ok true ->
       forall v w', py_method env imp "transform" X w = (Ok v, w') ->
                    tr self X w = (Ok X, w')) /\
    (truth env imp w = Ok false -> tr self X w = (Ok X, w)) /\
    (imp = PyNone -> tr self X w = (Ok X, w)).
Proof.
  intros Hstats Hparam tr Htr.
  assert (Hbase : forall cls,
    DefaultBaseImputer_transform env cls self X w =
    match truth env imp w with
    | Ok true => match py_method env imp "transform" X w with
                 | (Ok _, w') => (Ok X, w')
                 | (Raise e, w') => (Raise e, w')
                 end
    | Ok false => (Ok X, w)
    | Raise e => (Raise e, w)
    end).
  { intros cls. unfold DefaultBaseImputer_transform, check_is_fitted, getitem, bind, ret.
    rewrite Hstats, Hparam. simpl.
    destruct (truth env imp w) as [[|]|e]; [|done..].
    by destruct (py_method env imp "transform" X w) as [[v|e] w']. }
  assert (Hshape : tr self X w =
    match truth env imp w with
    | Ok true => match py_method env imp "transform" X w with
                 | (Ok _, w') => (Ok X, w')
                 | (Raise e, w') => (Raise e, w')
                 end
    | Ok false => (Ok X, w)
    | Raise e => (Raise e, w)
    end).
  { destruct Htr as [->| ->]; [apply Hbase|].
    unfold DefaultSingleImputer_transform, bind, ret. rewrite Hbase.
    destruct (truth env imp w) as [[|]|e]; [|done..].
    by destruct (py_method env imp "transform" X w) as [[v|e] w']. }
  rewrite Hshape. split_and!.
  - intros r w'. destruct (truth env imp w) as [[|]|e]; [| |done].
    + destruct (py_method env imp "transform" X w) as [[v|e] w1]; [|done].
      by intros [= <- _].
    + by intros [= <- _].
  - intros -> v w' ->. done.
  - by intros ->.
  - intros ->. done.
Qed.

End default_facts.

(** ** single_imputer.py *)

Lemma col_preserved_refl col : col_preserved col col.
Proof. by split_and!. Qed.

(** the writes leave no new label among the labels of missing rows *)
Lemma col_preserved_isnull c1 c2 l :
  col_preserved c1 c2 -> l ∈ isnull_index c2 -> l ∈ isnull_index c1.
Proof.
  intros (Hi & Hv & _) Hin. destruct (decide (l ∈ isnull_index c1)) as [|Hnin]; [done|].
  apply elem_of_isnull_index in Hin as (p & Hl & Hp). rewrite Hi in Hl.
  pose proof (Hv p l Hl Hnin) as Heq. apply elem_of_isnull_index. exists p.
  split; [done|]. exact (eq_trans (eq_sym Heq) Hp).
Qed.

Lemma col_preserved_trans c1 c2 c3 :
  col_preserved c1 c2 -> col_preserved c2 c3 -> col_preserved c1 c3.
Proof.
  intros H12 H23. pose proof H12 as (Hi & Hv & Hf). pose proof H23 as (Hi' & Hv' & Hf').
  split_and!.
  - congruence.
  - intros p l Hl Hnin. rewrite <- (Hv p l Hl Hnin). apply (Hv' p l); [by rewrite Hi|].
    intros Hin. apply Hnin. by eapply col_preserved_isnull.
  - intros Hnil. rewrite (Hf Hnil) in *. by apply Hf'.
Qed.

Lemma table_preserved_refl T : table_preserved T T.
Proof. split; [done|]. intros c col Hc. exists col. split; [done | apply col_preserved_refl]. Qed.

Lemma table_preserved_trans T1 T2 T3 :
  table_preserved T1 T2 -> table_preserved T2 T3 -> table_preserved T1 T3.
Proof.
  intros [Hk H12] [Hk' H23]. split; [congruence|].
  intros c col Hc. destruct (H12 c col Hc) as (col2 & Hc2 & Hp).
  destruct (H23 c col2 Hc2) as (col3 & Hc3 & Hp'). exists col3. split; [done|].
  by eapply col_preserved_trans.
Qed.

(** a column without missing entries is fixed by [col_preserved] *)
Lemma col_preserved_full col col' :
  col_preserved col col' -> isnull_index col = [] -> col' = col.
Proof. intros (_ & _ & Hf). exact Hf. Qed.

(** when the row labels are distinct, every entry that was present is
    still there *)
Lemma col_preserved_present col col' :
  col_preserved col col' -> NoDup (s_index col) ->
  forall p x, s_values col !! p = Some (Some x) -> s_values col' !! p = Some (Some x).
Proof.
  intros (Hi & Hv & _) Hnd p x Hp.
  destruct (s_index col !! p) as [l|] eqn:Hl.
  2:{ apply lookup_ge_None in Hl. apply lookup_lt_Some in Hp.
      rewrite s_index_length in Hl.
      exfalso. eapply Nat.lt_irrefl, Nat.lt_le_trans; [exact Hp | exact Hl]. }
  refine (eq_trans (Hv p l Hl _) Hp). intros Hin.
  apply elem_of_isnull_index in Hin as (q & Hlq & Hq).
  assert (q = p) as -> by (by eapply NoDup_lookup).
  pose proof (eq_trans (eq_sym Hq) Hp) as Heq. done.
Qed.

Lemma col_preserved_length col col' :
  col_preserved col col' -> length (s_values col') = length (s_values col).
Proof. intros (Hi & _). by rewrite <- !s_index_length, Hi. Qed.

Section loc_facts.
Context {E : Type} (env : External E).

(** [.loc[ix] = r] keeps the row labels and writes the values of [r] at
    the rows addressed *)
Lemma series_loc_set_spec col ix r col' :
  series_loc_set env col ix r = Ok col' ->
  exists vals,
    rhs_values (s_index col) ix r = Ok vals /\
    s_index col' = s_index col /\
    s_values col' = assign_at (loc_rows (s_index col) ix) vals (s_values col).
Proof.
  unfold series_loc_set. destruct (rhs_values (s_index col) ix r) as [vals|e] eqn:Hv; [|done].
  intros [= <-]. exists vals. split; [done|]. unfold s_index at 1, s_values at 1. simpl. split.
  - apply fst_zip. by rewrite assign_at_length, s_index_length.
  - apply snd_zip. by rewrite assign_at_length, s_index_length.
Qed.

(** a row whose label is not addressed keeps its entry *)
Lemma series_loc_set_frame col ix r col' p l :
  series_loc_set env col ix r = Ok col' ->
  s_index col !! p = Some l -> l ∉ ix ->
  s_values col' !! p = s_values col !! p.
Proof.
  intros Hset Hl Hnin. apply series_loc_set_spec in Hset as (vals & _ & _ & ->).
  apply assign_at_lookup_notin. intros Hp.
  apply elem_of_loc_rows in Hp as (l' & Hl' & Hp). congruence.
Qed.

(** writes at the labels of the missing rows preserve the column *)
Lemma series_loc_set_preserved col r col' :
  isnull_index col <> [] ->
  series_loc_set env col (isnull_index col) r = Ok col' -> col_preserved col col'.
Proof.
  intros Hne Hset. split_and!; [|by eauto using series_loc_set_frame|done].
  by apply series_loc_set_spec in Hset as (vals & _ & ? & _).
Qed.

(** and leave nothing missing when every value handed back is present *)
Lemma series_loc_set_fills col r col' :
  series_loc_set env col (isnull_index col) r = Ok col' ->
  rhs_fills (s_index col) (isnull_index col) r ->
  isnull_index col' = [].
Proof.
  intros Hset Hfill. apply series_loc_set_spec in Hset as (vals & Hvals & Hidx & Hv).
  pose proof (rhs_values_length _ _ _ _ Hvals) as Hlen.
  pose proof (rhs_fills_values _ _ _ _ Hfill Hvals) as Hall.
  apply isnull_index_nil. rewrite Hv. apply Forall_lookup. intros p y Hp.
  destruct (decide (p ∈ loc_rows (s_index col) (isnull_index col))) as [Hin|Hnin].
  - destruct (assign_at_lookup_in (loc_rows (s_index col) (isnull_index col)) vals
                (s_values col) p) as (v & Hv' & Hl); [done|done| |].
    { rewrite <- s_index_length.
      apply elem_of_loc_rows in Hin as (l & _ & Hl). by eapply lookup_lt_Some. }
    pose proof (eq_trans (eq_sym Hp) Hl) as Heq. injection Heq as ->.
    eapply List.Forall_forall in Hall; [exact Hall|]. by apply list_elem_of_In.
  - rewrite assign_at_lookup_notin in Hp by done.
    destruct y as [y|]; [by eexists|]. exfalso. apply Hnin.
    destruct (s_index col !! p) as [l|] eqn:Hl.
    2:{ apply lookup_ge_None in Hl. apply lookup_lt_Some in Hp.
        rewrite s_index_length in Hl.
        exfalso. eapply Nat.lt_irrefl, Nat.lt_le_trans; [exact Hp | exact Hl]. }
    apply elem_of_loc_rows. exists l. split; [|done].
    apply elem_of_isnull_index. by exists p.
Qed.

End loc_facts.

Lemma table_preserved_set T c col col' :
  dict.get T c = Some col -> col_preserved col col' ->
  table_preserved T (dict.set T c col').
Proof.
  intros Hc Hp. split.
  - clear Hp. induction T as [|[k v] T IH]; simpl in *; [done|].
    destruct (decide (k = c)) as [->|Hne]; simpl; [done|].
    unfold dict.keys in *; simpl. f_equal. by apply IH.
  - intros c0 col0 Hc0. destruct (decide (c = c0)) as [->|Hne].
    + rewrite dict_get_set_eq. exists col'. split; [done|]. congruence.
    + rewrite dict_get_set_ne by done. exists col0. split; [done | apply col_preserved_refl].
Qed.

Section orchestrator_facts.
Context {E : Type} (env : External E).
Import single_imputer.

Implicit Types (σ : pystate (E:=E)) (T : DataFrame) (imp : imputer) (c : string).

Lemma same_config_refl (s : SingleImputer) : same_config s s.
Proof. by split_and!. Qed.

Lemma same_config_trans (s1 s2 s3 : SingleImputer) :
  same_config s1 s2 -> same_config s2 s3 -> same_config s1 s3.
Proof. unfold same_config. intros (?&?&?&?&?&?) (?&?&?&?&?&?). split_and!; congruence. Qed.

(** destruct the innermost scrutinee of the run in [H] *)
Ltac run_step H :=
  match type of H with
  | context [match ?x with _ => _ end] =>
      lazymatch x with
      | context [match _ with _ => _ end] => fail
      | _ => destruct x eqn:?; simpl in H
      end
  end.

Ltac unfold_py H :=
  cbv [bind ret raise self_ update_self print in_world df_get df_put
       new_series lift_result modify getitem] in H.

Lemma imputer_statistics_strategy_world imp (w : world E) r w' :
  imputer_statistics_strategy env imp w = (r, w') -> w' = w.
Proof.
  destruct imp as [d|o]; simpl.
  - destruct (default.statistics_ d) as [stats|]; [|by intros [= _ <-]].
    unfold getitem. destruct (dict.get stats "strategy"); by intros [= _ <-].
  - by intros [= _ <-].
Qed.

Lemma narrate_column_spec c imp ix σ r σ' :
  narrate_column env c imp ix σ = (r, σ') ->
  this σ' = this σ /\ frames σ' = frames σ /\ wld σ' = wld σ.
Proof.
  intros Hrun. unfold narrate_column in Hrun. unfold_py Hrun.
  destruct (imputer_statistics_strategy env imp (wld σ)) as [[strat|e] w] eqn:Hs;
    apply imputer_statistics_strategy_world in Hs as ->; simpl in Hrun.
  - destruct (negb (bool_decide (ix = []))); injection Hrun as <- <-; by destruct σ.
  - injection Hrun as <- <-. by destruct σ.
Qed.

Lemma default_has_no_impute (d : default.DefaultSingleImputer) :
  default.DefaultSingleImputer_hasattr d "impute" = false.
Proof.
  unfold default.DefaultSingleImputer_hasattr, default.instance_attributes.
  destruct (default.statistics_ d); by vm_compute.
Qed.

Lemma imputer_impute_spec imp (w : world E) r w' :
  imputer_impute env imp w = (r, w') ->
  w' = w /\
  match r with
  | Ok f => exists o, imp = IPlug o /\ f = plug_impute env o
  | Raise e =>
      isinstance_AttributeError e = true /\ exists d, imp = IDefault d
  end.
Proof.
  destruct imp as [d|o]; simpl.
  - rewrite default_has_no_impute. intros [= <- <-]. split; [done|]. split; [done | by exists d].
  - intros [= <- <-]. split; [done | by exists o].
Qed.

Lemma impute_column_spec X c imp ix σ T col r σ' :
  frames σ !! X = Some T ->
  dict.get T c = Some col ->
  impute_column env X c imp ix σ = (r, σ') ->
  this σ' = this σ /\
  ((r <> Ok tt /\ frames σ' = frames σ) \/
   (r = Ok tt /\
    exists o a w rv w' col',
      imp = IPlug o /\ heap w !! a = Some col /\
      plug_impute env o (PySeries a) w = (Ok rv, w') /\
      series_loc_set env col ix rv = Ok col' /\
      frames σ' = <[X := dict.set T c col']> (frames σ))).
Proof.
  intros HT Hcol Hrun. unfold impute_column in Hrun. unfold_py Hrun.
  destruct (imputer_impute env imp (wld σ)) as [[f|e] w] eqn:Himp;
    apply imputer_impute_spec in Himp as [-> Himp]; simpl in Hrun; cycle 1.
  { injection Hrun as <- <-. split; [done | by left]. }
  destruct Himp as (o & -> & ->).
  rewrite HT, Hcol in Hrun; simpl in Hrun.
  match type of Hrun with
  | context [plug_impute env o ?x ?w] =>
      destruct (plug_impute env o x w) as [[rv|e] w'] eqn:Hcall
  end; simpl in Hrun; cycle 1.
  { injection Hrun as <- <-. split; [done | by left]. }
  rewrite HT, Hcol in Hrun; simpl in Hrun.
  destruct (series_loc_set env col ix rv) as [col'|e] eqn:Hset; simpl in Hrun; cycle 1.
  { injection Hrun as <- <-. split; [done | by left]. }
  injection Hrun as <- <-. split; [done | right]. split; [done|].
  eexists o, _, _, rv, w', col'. split_and!; [done| |exact Hcall|done|done].
  simpl. by rewrite lookup_app_r, Nat.sub_diag.
Qed.

(** what one iteration of the loop of [transform] does *)
Lemma transform_column_spec X c imp σ T r σ' :
  frames σ !! X = Some T ->
  transform_column env X c imp σ = (r, σ') ->
  same_config (this σ) (this σ') /\
  exists T',
    frames σ' = <[X := T']> (frames σ) /\
    table_preserved T T' /\
    (forall c', c' <> c -> dict.get T' c' = dict.get T c') /\
    (r = Ok tt ->
     exists col rec,
       dict.get T c = Some col /\
       imputed_ (this σ) = Some rec /\
       imputed_ (this σ') = Some (dict.set rec c (isnull_index col)) /\
       ((isnull_index col = [] /\ T' = T /\ wld σ' = wld σ) \/
        (isnull_index col <> [] /\
         exists o a w rv w' col',
           imp = IPlug o /\ heap w !! a = Some col /\
           plug_impute env o (PySeries a) w = (Ok rv, w') /\
           series_loc_set env col (isnull_index col) rv = Ok col' /\
           T' = dict.set T c col'))).
Proof.
  intros HT Hrun.
  assert (Hstay : forall σ0 (r0 : result unit),
    same_config (this σ) (this σ0) -> frames σ0 = frames σ -> r0 <> Ok tt ->
    same_config (this σ) (this σ0) /\
    exists T', frames σ0 = <[X := T']> (frames σ) /\ table_preserved T T' /\
      (forall c', c' <> c -> dict.get T' c' = dict.get T c') /\
      (r0 = Ok tt -> exists col rec,
         dict.get T c = Some col /\ imputed_ (this σ) = Some rec /\
         imputed_ (this σ0) = Some (dict.set rec c (isnull_index col)) /\
         ((isnull_index col = [] /\ T' = T /\ wld σ0 = wld σ) \/
          (isnull_index col <> [] /\
           exists o a w rv w' col',
             imp = IPlug o /\ heap w !! a = Some col /\
             plug_impute env o (PySeries a) w = (Ok rv, w') /\
             series_loc_set env col (isnull_index col) rv = Ok col' /\
             T' = dict.set T c col')))).
  { intros σ0 r0 Hc Hf Hr. split; [done|]. exists T.
    split_and!; [by rewrite Hf, list_insert_id | apply table_preserved_refl | done | done]. }
  unfold transform_column in Hrun.
  apply bind_run in Hrun as (r1 & σ1 & H1 & Hrun).
  unfold df_get in H1. rewrite HT in H1. injection H1 as <- <-.
  apply bind_run in Hrun as (r1 & σ1 & H1 & Hrun).
  unfold getitem in H1. destruct (dict.get T c) as [col|] eqn:Hcol; cycle 1.
  { injection H1 as <- <-. destruct Hrun as [-> ->].
    by apply Hstay; [apply same_config_refl|..]. }
  injection H1 as <- <-.
  apply bind_run in Hrun as (r1 & σ1 & H1 & Hrun).
  injection H1 as <- <-.
  apply bind_run in Hrun as (r1 & σ1 & H1 & Hrun).
  destruct (imputed_ (this σ)) as [rec|] eqn:Hrec; cycle 1.
  { injection H1 as <- <-. destruct Hrun as [-> ->].
    by apply Hstay; [apply same_config_refl|..]. }
  injection H1 as <- <-.
  set (σ1 := mkState (set_imputed_ (dict.set rec c (isnull_index col)) (this σ))
                     (frames σ) (stdout σ) (wld σ)) in *.
  assert (Hcfg : same_config (this σ) (this σ1)) by (by split_and!).
  apply bind_run in Hrun as (r2 & σ2 & H2 & Hrun).
  assert (H2' : this σ2 = this σ1 /\ frames σ2 = frames σ1 /\ wld σ2 = wld σ1).
  { destruct (verbose (this σ)).
    - by apply narrate_column_spec in H2.
    - by injection H2 as <- <-. }
  destruct H2' as (Hthis2 & Hfr2 & Hw2).
  destruct r2 as [[]|e]; cycle 1.
  { destruct Hrun as [-> ->]. apply Hstay; [by rewrite Hthis2|by rewrite Hfr2|done]. }
  case_bool_decide as Hix.
  - injection Hrun as <- <-. split; [by rewrite Hthis2|].
    exists T. split_and!; [by rewrite Hfr2; simpl; rewrite list_insert_id
                          | apply table_preserved_refl | done|].
    intros _. exists col, rec. split_and!; [done..|by rewrite Hthis2|].
    left. by rewrite Hw2.
  - eapply impute_column_spec in Hrun as [Hthis3 Hrun];
      [|by rewrite Hfr2|exact Hcol].
    destruct Hrun as [[Hr Hfr3]|(-> & o & a & w & rv & w' & col' & -> & Ha & Hcall & Hset & Hfr3)].
    + apply Hstay; [by rewrite Hthis3, Hthis2|by rewrite Hfr3, Hfr2|done].
    + split; [by rewrite Hthis3, Hthis2|].
      exists (dict.set T c col'). split_and!.
      * by rewrite Hfr3, Hfr2.
      * eapply table_preserved_set; [done|]. by eapply series_loc_set_preserved.
      * intros c' Hne. by rewrite dict_get_set_ne.
      * intros _. exists col, rec. split_and!; [done..|by rewrite Hthis3, Hthis2|].
        right. split; [done|]. by exists o, a, w, rv, w', col'.
Qed.

(** *** The loop of [transform] *)

Lemma transform_loop_frame X items σ T r σ' :
  frames σ !! X = Some T ->
  transform_loop env X items σ = (r, σ') ->
  same_config (this σ) (this σ') /\
  exists T',
    frames σ' = <[X := T']> (frames σ) /\
    table_preserved T T' /\
    (forall c, c ∉ dict.keys items -> dict.get T' c = dict.get T c).
Proof.
  revert σ T. induction items as [|[c imp] items IH]; intros σ T HT Hrun; simpl in Hrun.
  - injection Hrun as <- <-. split; [apply same_config_refl|]. exists T.
    split_and!; [by rewrite list_insert_id | apply table_preserved_refl | done].
  - apply bind_run in Hrun as (r1 & σ1 & H1 & Hrun).
    eapply transform_column_spec in H1 as (Hcfg & T1 & Hfr & Hp & Hoth & _); [|done].
    destruct r1 as [[]|e].
    + eapply IH in Hrun as (Hcfg' & T2 & Hfr' & Hp' & Hoth').
      2:{ rewrite Hfr. apply list_lookup_insert_eq. by eapply lookup_lt_Some. }
      split; [by eapply same_config_trans|]. exists T2. split_and!.
      * by rewrite Hfr', Hfr, list_insert_insert_eq.
      * by eapply table_preserved_trans.
      * intros c' Hc'. unfold dict.keys in Hc'; simpl in Hc'.
        apply not_elem_of_cons in Hc' as [Hne Hc'].
        rewrite Hoth' by done. by apply Hoth.
    + destruct Hrun as [-> ->]. split; [done|]. exists T1. split_and!; [done..|].
      intros c' Hc'. unfold dict.keys in Hc'; simpl in Hc'.
      apply not_elem_of_cons in Hc' as [Hne Hc']. by apply Hoth.
Qed.

Lemma missing_positions_ext T T' c :
  dict.get T' c = dict.get T c -> missing_positions T' c = missing_positions T c.
Proof. unfold missing_positions. by intros ->. Qed.

Lemma transform_loop_imputed X items σ T rec σ' :
  frames σ !! X = Some T ->
  imputed_ (this σ) = Some rec ->
  NoDup (dict.keys items) ->
  (forall c, c ∈ dict.keys items -> c ∉ dict.keys rec) ->
  transform_loop env X items σ = (Ok tt, σ') ->
  imputed_ (this σ') = Some (rec ++ map (fun p => (p.1, missing_positions T p.1)) items).
Proof.
  revert σ T rec. induction items as [|[c imp] items IH];
    intros σ T rec HT Hrec Hnd Hdisj Hrun; simpl in Hrun.
  - injection Hrun as <-. simpl. by rewrite app_nil_r.
  - apply bind_run in Hrun as (r1 & σ1 & H1 & Hrun).
    eapply transform_column_spec in H1 as (Hcfg & T1 & Hfr & Hp & Hoth & Hok); [|done].
    destruct r1 as [[]|e]; [|by destruct Hrun].
    destruct (Hok eq_refl) as (col & rec0 & Hcol & Hrec0 & Hrec1 & _).
    rewrite Hrec in Hrec0. injection Hrec0 as <-.
    unfold dict.keys in Hnd; simpl in Hnd. apply NoDup_cons in Hnd as [Hc Hnd].
    assert (Hfresh : c ∉ dict.keys rec) by (apply Hdisj; left).
    rewrite dict_set_fresh in Hrec1 by done.
    eapply IH in Hrun; [| |exact Hrec1|done|].
    2:{ rewrite Hfr. apply list_lookup_insert_eq. by eapply lookup_lt_Some. }
    2:{ intros c' Hc'. unfold dict.keys. rewrite fmap_app. simpl.
        rewrite elem_of_app, list_elem_of_singleton.
        intros [Hin| ->]; [|done]. eapply Hdisj; [|exact Hin]. by right. }
    rewrite Hrun. f_equal. rewrite <- app_assoc. f_equal. simpl. f_equal.
    + unfold missing_positions. by rewrite Hcol.
    + apply map_ext_in. intros [c' imp'] Hin. simpl. f_equal.
      apply missing_positions_ext, Hoth. intros ->. apply Hc.
      apply list_elem_of_In in Hin. apply list_elem_of_fmap. by exists (c, imp').
Qed.

Lemma transform_loop_fills X items σ T σ' :
  frames σ !! X = Some T ->
  impute_fills env items ->
  transform_loop env X items σ = (Ok tt, σ') ->
  exists T', frames σ' !! X = Some T' /\
    forall c, c ∈ dict.keys items ->
      exists col, dict.get T' c = Some col /\ isnull_index col = [].
Proof.
  revert σ T. induction items as [|[c imp] items IH]; intros σ T HT Hfill Hrun; simpl in Hrun.
  - injection Hrun as <-. exists T. split; [done|]. intros c Hc. by apply elem_of_nil in Hc.
  - apply bind_run in Hrun as (r1 & σ1 & H1 & Hrun).
    eapply transform_column_spec in H1 as (Hcfg & T1 & Hfr & Hp & Hoth & Hok); [|done].
    destruct r1 as [[]|e]; [|by destruct Hrun].
    destruct (Hok eq_refl) as (col & rec0 & Hcol & _ & _ & Hcase).
    assert (HT1 : frames σ1 !! X = Some T1).
    { rewrite Hfr. apply list_lookup_insert_eq. by eapply lookup_lt_Some. }
    assert (Hc1 : exists col1, dict.get T1 c = Some col1 /\ isnull_index col1 = []).
    { destruct Hcase as [(Hnil & -> & _)|(_ & o & a & w & rv & w' & col' & -> & Ha & Hcall & Hset & ->)].
      - by exists col.
      - exists col'. split; [apply dict_get_set_eq|].
        eapply series_loc_set_fills; [done|]. eapply Hfill; [left|done..]. }
    pose proof Hrun as Hrun'.
    eapply transform_loop_frame in Hrun' as (_ & T2 & Hfr2 & Hp2 & _); [|done].
    eapply IH in Hrun as (T2' & HT2 & Hrest); [|done|].
    2:{ intros c0 o a w rv w' col0 Hin. eapply Hfill. right. exact Hin. }
    assert (T2' = T2) as ->.
    { rewrite Hfr2 in HT2. rewrite list_lookup_insert_eq in HT2 by (by eapply lookup_lt_Some).
      congruence. }
    exists T2. split; [done|]. intros c0 Hc0.
    destruct (decide (c0 ∈ dict.keys items)) as [Hin|Hnin]; [by apply Hrest|].
    unfold dict.keys in Hc0; simpl in Hc0. apply elem_of_cons in Hc0 as [->|?]; [|done].
    destruct Hc1 as (col1 & Hcol1 & Hnil1).
    destruct Hp2 as [_ Hp2]. destruct (Hp2 c col1 Hcol1) as (col2 & Hcol2 & Hpres).
    exists col2. split; [done|].
    apply col_preserved_full in Hpres; [by subst | done].
Qed.

(** *** [transform] as a whole *)

Lemma transform_cases X σ T :
  frames σ !! X = Some T ->
  transform env X σ =
  match check_nan_columns env T with
  | Some e => (Raise e, σ)
  | None =>
      match statistics_ (this σ) with
      | None => (Raise (NotFittedError (not_fitted_message "SingleImputer")), after_copy T σ)
      | Some stats =>
          match _strats (this σ) with
          | None =>
              (Raise (AttributeError "'SingleImputer' object has no attribute '_strats'"),
               after_copy T σ)
          | Some strats =>
              if bool_decide (missing_columns strats T <> []) then
                (Raise (ValueError column_mismatch_message None), after_copy T σ)
              else
                match transform_loop env (loop_entry X T σ).1 stats (loop_entry X T σ).2 with
                | (Ok _, σ') => (Ok (loop_entry X T σ).1, σ')
                | (Raise e, σ') => (Raise e, σ')
                end
          end
      end
  end.
Proof.
  intros HT. destruct σ as [self fr out w]. simpl in HT.
  unfold transform, check_nan_columns_decorator, transform_body, loop_entry, after_copy,
    _transform_strategy_validator, df_copy, default.check_is_fitted, missing_columns,
    not_fitted_message, column_mismatch_message.
  cbv [bind ret raise self_ update_self print in_world df_get df_put
       new_series lift_result modify getitem]. simpl.
  rewrite HT. destruct (check_nan_columns env T); [done|]. simpl.
  assert (Hc : (if copy self then fr ++ [T] else fr) !! (if copy self then length fr else X)
               = Some T).
  { destruct (copy self); [|done]. by rewrite lookup_app_r, Nat.sub_diag. }
  destruct (copy self) eqn:Hcopy; simpl; rewrite ?HT, ?Hc; simpl.
  all: destruct (statistics_ self) as [stats|]; simpl; [|done].
  all: rewrite ?HT, ?Hc; simpl.
  all: destruct (_strats self) as [strats|]; simpl; [|done].
  all: case_bool_decide; simpl; [done|].
  all: destruct (verbose self); simpl.
  all: match goal with
       | |- context [transform_loop env ?a ?b ?c] =>
           by destruct (transform_loop env a b c) as [[[]|?] ?]
       end.
Qed.

Lemma loop_entry_lookup X σ T :
  frames σ !! X = Some T ->
  frames (loop_entry X T σ).2 !! (loop_entry X T σ).1 = Some T.
Proof.
  intros HT. unfold loop_entry; simpl. destruct (copy (this σ)); [|done].
  by rewrite lookup_app_r, Nat.sub_diag.
Qed.

Lemma transform_Ok_inv X σ T X' σ' :
  frames σ !! X = Some T ->
  transform env X σ = (Ok X', σ') ->
  exists stats strats,
    check_nan_columns env T = None /\
    statistics_ (this σ) = Some stats /\
    _strats (this σ) = Some strats /\
    missing_columns strats T = [] /\
    X' = (loop_entry X T σ).1 /\
    transform_loop env X' stats (loop_entry X T σ).2 = (Ok tt, σ').
Proof.
  intros HT Hrun. rewrite (transform_cases X σ T HT) in Hrun.
  destruct (check_nan_columns env T); [done|].
  destruct (statistics_ (this σ)) as [stats|]; [|done].
  destruct (_strats (this σ)) as [strats|]; [|done].
  case_bool_decide as Hmiss; [done|].
  destruct (transform_loop env _ stats _) as [[[]|e] σ''] eqn:Hloop; [|done].
  injection Hrun as <- <-. exists stats, strats. split_and!; try done.
  all: by destruct (missing_columns strats T).
Qed.

Lemma transform_loop_columns X items σ T σ' :
  frames σ !! X = Some T ->
  transform_loop env X items σ = (Ok tt, σ') ->
  forall c, c ∈ dict.keys items -> is_Some (dict.get T c).
Proof.
  revert σ T. induction items as [|[c imp] items IH]; intros σ T HT Hrun c0 Hc0;
    simpl in Hrun.
  - by apply elem_of_nil in Hc0.
  - apply bind_run in Hrun as (r1 & σ1 & H1 & Hrun).
    eapply transform_column_spec in H1 as (Hcfg & T1 & Hfr & Hp & Hoth & Hok); [|done].
    destruct r1 as [[]|e]; [|by destruct Hrun].
    destruct (Hok eq_refl) as (col & rec0 & Hcol & _).
    unfold dict.keys in Hc0; simpl in Hc0. apply elem_of_cons in Hc0 as [->|Hin]; [by eexists|].
    eapply IH in Hrun; [| |exact Hin].
    2:{ rewrite Hfr. apply list_lookup_insert_eq. by eapply lookup_lt_Some. }
    apply dict_get_is_Some. apply dict_get_is_Some in Hrun.
    destruct Hp as [Hk _]. by rewrite <- Hk.
Qed.


(** C2, as the code has it: after a [transform] that returns, [imputed_]
    maps every column of the Statistics Store, in order, to the row
    labels of the entries that were missing in that column of the table
    passed in: the labels, in row order, of exactly the missing
    positions.  On the default index the label of a row is its position;
    a column without missing entries gets the empty list.  Nothing of an
    earlier record survives: the record on entry does not occur in the
    result. *)
Theorem transform_imputed_record X σ T stats X' σ' :
  frames σ !! X = Some T ->
  statistics_ (this σ) = Some stats ->
  NoDup (dict.keys stats) ->
  transform env X σ = (Ok X', σ') ->
  imputed_ (this σ') = Some (map (fun p => (p.1, missing_positions T p.1)) stats) /\
  forall c, c ∈ dict.keys stats ->
    exists col ps,
      dict.get T c = Some col /\
      StronglySorted lt ps /\
      (forall p, p ∈ ps <-> s_values col !! p = Some None) /\
      Forall2 (fun p l => s_index col !! p = Some l) ps (missing_positions T c) /\
      (s_index col = range_index (length (s_values col)) ->
       missing_positions T c = position_label <$> ps) /\
      (Forall is_Some (s_values col) -> missing_positions T c = []).
Proof.
  intros HT Hstats Hnd Hrun.
  destruct (transform_Ok_inv X σ T X' σ' HT Hrun)
    as (stats' & strats & _ & Hstats' & _ & _ & -> & Hloop).
  rewrite Hstats in Hstats'. injection Hstats' as <-.
  pose proof (loop_entry_lookup X σ T HT) as HT0.
  split.
  - apply (transform_loop_imputed _ _ _ T []) in Hloop; [exact Hloop|done|done|done|].
    intros c _. apply not_elem_of_nil.
  - intros c Hc.
    destruct (transform_loop_columns _ _ _ _ _ HT0 Hloop c Hc) as [col Hcol].
    exists col, (isnull_from 0 (s_values col)).
    unfold missing_positions. rewrite Hcol. split_and!; [done| | | | |].
    + apply isnull_from_sorted.
    + apply elem_of_isnull_positions.
    + apply labels_at_Forall2, isnull_positions_lt.
    + intros Hidx. unfold isnull_index. rewrite Hidx.
      apply labels_at_range_index, (isnull_from_lt 0).
    + apply isnull_index_nil.
Qed.

(** C3, as the code has it: a [transform] that returns hands back a
    table with the same columns and the same row labels, in which a row
    can differ only in a column of the Statistics Store and only if its
    label is the label of a row that was missing in that column.  When
    the row labels of a column are distinct, these are the missing rows
    themselves: every entry that was present is unchanged.  A column
    without missing entries is the same column, and so is every column
    outside the Statistics Store. *)
Theorem transform_writes_only_missing X σ T stats X' σ' :
  frames σ !! X = Some T ->
  statistics_ (this σ) = Some stats ->
  transform env X σ = (Ok X', σ') ->
  exists T',
    frames σ' !! X' = Some T' /\
    dict.keys T' = dict.keys T /\
    forall c col, dict.get T c = Some col ->
      exists col',
        dict.get T' c = Some col' /\
        s_index col' = s_index col /\
        (forall p l, s_index col !! p = Some l -> l ∉ missing_positions T c ->
                     s_values col' !! p = s_values col !! p) /\
        (NoDup (s_index col) ->
         forall p x, s_values col !! p = Some (Some x) ->
                     s_values col' !! p = Some (Some x)) /\
        (missing_positions T c = [] -> col' = col) /\
        (c ∉ dict.keys stats -> col' = col).
Proof.
  intros HT Hstats Hrun.
  destruct (transform_Ok_inv X σ T X' σ' HT Hrun)
    as (stats' & strats & _ & Hstats' & _ & _ & -> & Hloop).
  rewrite Hstats in Hstats'. injection Hstats' as <-.
  pose proof (loop_entry_lookup X σ T HT) as HT0.
  eapply transform_loop_frame in Hloop as (_ & T' & Hfr & [Hk Hp] & Hoth); [|done].
  exists T'. split_and!; [|done|].
  { rewrite Hfr. apply list_lookup_insert_eq. by eapply lookup_lt_Some. }
  intros c col Hcol. destruct (Hp c col Hcol) as (col' & Hcol' & Hpres).
  exists col'. pose proof Hpres as (Hi & Hv & Hf).
  unfold missing_positions. rewrite Hcol. split_and!; try done.
  - by apply col_preserved_present.
  - intros Hc. specialize (Hoth c Hc). congruence.
Qed.

(** *** Runs that find nothing to impute *)

Lemma imputer_statistics_strategy_fitted imp (w : world E) :
  imputer_fitted imp ->
  exists strat, imputer_statistics_strategy env imp w = (Ok strat, w).
Proof.
  destruct imp as [d|o]; simpl.
  - intros (stats & -> & [strat Hs]). exists strat. unfold getitem. by rewrite Hs.
  - intros _. by eexists.
Qed.

Lemma narrate_column_fitted c imp ix σ :
  imputer_fitted imp ->
  exists out,
    narrate_column env c imp ix σ
    = (Ok tt, mkState (this σ) (frames σ) (stdout σ ++ out) (wld σ)).
Proof.
  intros Hfit. unfold narrate_column.
  cbv [bind ret raise self_ update_self print in_world modify].
  destruct (imputer_statistics_strategy_fitted imp (wld σ) Hfit) as [strat ->]. simpl.
  destruct (negb (bool_decide (ix = []))); simpl; rewrite <- app_assoc; by eexists.
Qed.

Lemma transform_column_noop X c imp σ T col rec :
  frames σ !! X = Some T ->
  dict.get T c = Some col ->
  isnull_index col = [] ->
  imputed_ (this σ) = Some rec ->
  (verbose (this σ) = true -> imputer_fitted imp) ->
  exists out,
    transform_column env X c imp σ
    = (Ok tt, mkState (set_imputed_ (dict.set rec c []) (this σ))
                      (frames σ) (stdout σ ++ out) (wld σ)).
Proof.
  intros HT Hcol Hnil Hrec Hfit. unfold transform_column.
  erewrite bind_Ok; [|by unfold df_get; rewrite HT].
  erewrite bind_Ok; [|by unfold getitem; rewrite Hcol].
  erewrite bind_Ok; [|done].
  rewrite Hrec, Hnil.
  erewrite bind_Ok; [|done].
  destruct (verbose (this σ)) eqn:Hv.
  - edestruct (narrate_column_fitted c imp []) as [out Hout]; [by apply Hfit|].
    erewrite bind_Ok; [|exact Hout]. simpl. by exists out.
  - erewrite bind_Ok; [|done]. simpl. exists []. by rewrite app_nil_r.
Qed.

Lemma transform_loop_noop X items σ T rec :
  frames σ !! X = Some T ->
  imputed_ (this σ) = Some rec ->
  (forall c, c ∈ dict.keys items ->
     exists col, dict.get T c = Some col /\ isnull_index col = []) ->
  (verbose (this σ) = true -> forall c imp, (c, imp) ∈ items -> imputer_fitted imp) ->
  exists σ',
    transform_loop env X items σ = (Ok tt, σ') /\
    frames σ' = frames σ /\ wld σ' = wld σ.
Proof.
  revert σ rec. induction items as [|[c imp] items IH]; intros σ rec HT Hrec Hfull Hfit; simpl.
  - by exists σ.
  - destruct (Hfull c) as (col & Hcol & Hnil); [left|].
    edestruct (transform_column_noop X c imp σ) as [out Hstep]; [done..| |].
    { intros Hv. eapply Hfit; [done | left]. }
    erewrite bind_Ok; [|exact Hstep].
    edestruct (IH (mkState (set_imputed_ (dict.set rec c []) (this σ))
                           (frames σ) (stdout σ ++ out) (wld σ)))
      as (σ' & Hloop & Hfr & Hw); [done|done| | |].
    + intros c' Hc'. apply Hfull. by right.
    + simpl. intros Hv c' imp' Hin. eapply Hfit; [done | by right].
    + exists σ'. by rewrite Hloop.
Qed.

Lemma missing_columns_keys strats T T' :
  dict.keys T' = dict.keys T -> missing_columns strats T' = missing_columns strats T.
Proof. unfold missing_columns. by intros ->. Qed.

(** C8: let every value that the stored imputers hand back be present.
    A [transform] that returns leaves no missing entry in any column of
    the Statistics Store, and running [transform] again on the table it
    returned finds nothing to do: it returns, the table it returns
    equals the one it was given, every column of the store is recorded
    with the empty list, and no imputer is asked for values (the world
    is unchanged). *)
Theorem transform_idempotent X σ T stats X1 σ1 :
  frames σ !! X = Some T ->
  statistics_ (this σ) = Some stats ->
  store_ok (this σ) ->
  impute_fills env stats ->
  transform env X σ = (Ok X1, σ1) ->
  exists T1,
    frames σ1 !! X1 = Some T1 /\
    (forall c, c ∈ dict.keys stats -> missing_positions T1 c = []) /\
    (check_nan_columns env T1 = None ->
     exists X2 σ2,
       transform env X1 σ1 = (Ok X2, σ2) /\
       frames σ2 !! X2 = Some T1 /\
       frames σ2 !! X1 = Some T1 /\
       imputed_ (this σ2) = Some (map (fun p => (p.1, [])) stats) /\
       wld σ2 = wld σ1).
Proof.
  intros HT Hstats Hok Hfill Hrun.
  destruct (transform_Ok_inv X σ T X1 σ1 HT Hrun)
    as (stats' & strats & _ & Hstats' & Hstrats & Hmiss & -> & Hloop).
  rewrite Hstats in Hstats'. injection Hstats' as <-.
  destruct (Hok stats Hstats) as [Hnd Hfitted].
  pose proof (loop_entry_lookup X σ T HT) as HT0.
  set (X1 := (loop_entry X T σ).1) in *.
  pose proof Hloop as Hloop'.
  eapply transform_loop_fills in Hloop' as (T1 & HT1 & Hfull); [|done..].
  pose proof Hloop as Hloop''.
  eapply transform_loop_frame in Hloop'' as (Hcfg & T1' & Hfr & [Hk _] & _); [|done].
  assert (T1' = T1) as ->.
  { rewrite Hfr in HT1. rewrite list_lookup_insert_eq in HT1 by (by eapply lookup_lt_Some).
    congruence. }
  exists T1. split_and!; [done| |].
  { intros c Hc. destruct (Hfull c Hc) as (col & Hcol & Hnil).
    unfold missing_positions. by rewrite Hcol. }
  intros Hgate.
  destruct Hcfg as (_ & _ & _ & _ & Hstrats1 & Hstats1). simpl in Hstrats1, Hstats1.
  rewrite Hstrats in Hstrats1. rewrite Hstats in Hstats1.
  rewrite (transform_cases X1 σ1 T1 HT1), Hgate, Hstats1, Hstrats1.
  rewrite (missing_columns_keys strats T T1 Hk), Hmiss.
  rewrite bool_decide_eq_false_2 by (intros Hne; by apply Hne).
  pose proof (loop_entry_lookup X1 σ1 T1 HT1) as HT2.
  set (X2 := (loop_entry X1 T1 σ1).1) in *. set (σ0 := (loop_entry X1 T1 σ1).2) in *.
  destruct (transform_loop_noop X2 stats σ0 T1 []) as (σ2 & Hloop2 & Hfr2 & Hw2);
    [done|done|done| |].
  { intros _ c imp Hin. by eapply Hfitted. }
  rewrite Hloop2. exists X2, σ2. split_and!; [done| | | |].
  - by rewrite Hfr2.
  - rewrite Hfr2. unfold σ0, loop_entry; simpl.
    destruct (copy (this σ1)); [|done]. by apply lookup_app_l_Some.
  - apply (transform_loop_imputed _ _ _ T1 []) in Hloop2; [|done|done|done|].
    2:{ intros c _. apply not_elem_of_nil. }
    rewrite Hloop2. simpl. f_equal. apply map_ext_in. intros [c imp] Hin. simpl. f_equal.
    destruct (Hfull c) as (col & Hcol & Hnil).
    { apply list_elem_of_In in Hin. apply list_elem_of_fmap. by exists (c, imp). }
    unfold missing_positions. by rewrite Hcol.
  - by rewrite Hw2.
Qed.

(** *** The narration does not interfere *)

(** destruct the innermost scrutinee of the goal *)
Ltac goal_step :=
  match goal with
  | |- context [match ?x with _ => _ end] =>
      lazymatch x with
      | context [match _ with _ => _ end] => fail
      | _ => destruct x eqn:?; simpl
      end
  end.

Lemma impute_column_silence X c imp ix σ r σ' :
  impute_column env X c imp ix σ = (r, σ') ->
  impute_column env X c imp ix (silence σ) = (r, silence σ').
Proof.
  destruct σ as [self fr out w]. unfold impute_column, silence.
  cbv [bind ret raise self_ update_self print in_world df_get df_put
       new_series lift_result modify getitem]. simpl.
  repeat goal_step; by intros [= <- <-].
Qed.

Lemma transform_column_silence X c imp σ r σ' :
  imputer_fitted imp ->
  transform_column env X c imp σ = (r, σ') ->
  transform_column env X c imp (silence σ) = (r, silence σ').
Proof.
  intros Hfit Hrun. unfold transform_column in *.
  apply bind_run in Hrun as (r1 & σ1 & H1 & Hrun).
  unfold df_get in H1. simpl.
  destruct (frames σ !! X) as [T|] eqn:HT; injection H1 as <- <-; cycle 1.
  { destruct Hrun as [-> ->]. erewrite bind_Raise; [done|]. unfold df_get; simpl. by rewrite HT. }
  erewrite bind_Ok; [|by unfold df_get; simpl; rewrite HT].
  apply bind_run in Hrun as (r1 & σ1 & H1 & Hrun).
  unfold getitem in H1.
  destruct (dict.get T c) as [col|] eqn:Hcol; injection H1 as <- <-; cycle 1.
  { destruct Hrun as [-> ->]. erewrite bind_Raise; [done|]. unfold getitem. by rewrite Hcol. }
  erewrite bind_Ok; [|by unfold getitem; rewrite Hcol].
  apply bind_run in Hrun as (r1 & σ1 & H1 & Hrun). injection H1 as <- <-.
  erewrite bind_Ok; [|done]. simpl.
  apply bind_run in Hrun as (r1 & σ1 & H1 & Hrun).
  destruct (imputed_ (this σ)) as [rec|] eqn:Hrec; injection H1 as <- <-; cycle 1.
  { destruct Hrun as [-> ->]. by erewrite bind_Raise. }
  erewrite bind_Ok; [|done].
  apply bind_run in Hrun as (r2 & σ2 & H2 & Hrun).
  erewrite bind_Ok; [|done].
  assert (Hσ2 : r2 = Ok tt /\
            silence σ2 = mkState (set_verbose false
                                    (set_imputed_ (dict.set rec c (isnull_index col)) (this σ)))
                                 (frames σ) [] (wld σ)).
  { destruct (verbose (this σ)).
    - edestruct (narrate_column_fitted c imp (isnull_index col)) as [out Hout]; [done|].
      rewrite Hout in H2. by injection H2 as <- <-.
    - by injection H2 as <- <-. }
  destruct Hσ2 as [-> Hσ2].
  case_bool_decide.
  - injection Hrun as <- <-. by rewrite Hσ2.
  - apply impute_column_silence in Hrun. by rewrite Hσ2 in Hrun.
Qed.

Lemma transform_loop_silence X items σ r σ' :
  (forall c imp, (c, imp) ∈ items -> imputer_fitted imp) ->
  transform_loop env X items σ = (r, σ') ->
  transform_loop env X items (silence σ) = (r, silence σ').
Proof.
  revert σ. induction items as [|[c imp] items IH]; intros σ Hfit Hrun; simpl in *.
  - by injection Hrun as <- <-.
  - apply bind_run in Hrun as (r1 & σ1 & H1 & Hrun).
    apply transform_column_silence in H1; [|eapply Hfit; left].
    destruct r1 as [[]|e].
    + erewrite bind_Ok; [|exact H1]. apply IH; [|done].
      intros c' imp' Hin. eapply Hfit. by right.
    + destruct Hrun as [-> ->]. by erewrite bind_Raise.
Qed.

Lemma transform_dangling X σ :
  frames σ !! X = None ->
  transform env X σ = (Raise (TypeError "not a DataFrame"), σ).
Proof.
  intros HX. unfold transform, check_nan_columns_decorator.
  erewrite bind_Raise; [done|]. unfold df_get. by rewrite HX.
Qed.

Lemma transform_silence X σ r σ' :
  store_ok (this σ) ->
  transform env X σ = (r, σ') ->
  transform env X (silence σ) = (r, silence σ').
Proof.
  intros Hok Hrun. destruct (frames σ !! X) as [T|] eqn:HT; cycle 1.
  { rewrite transform_dangling in Hrun by done. injection Hrun as <- <-.
    by rewrite transform_dangling. }
  rewrite (transform_cases X σ T HT) in Hrun.
  rewrite (transform_cases X (silence σ) T) by done.
  change (statistics_ (this (silence σ))) with (statistics_ (this σ)).
  change (_strats (this (silence σ))) with (_strats (this σ)).
  change (after_copy T (silence σ)) with (silence (after_copy T σ)).
  destruct (check_nan_columns env T); [by injection Hrun as <- <-|].
  destruct (statistics_ (this σ)) as [stats|] eqn:Hstats; [|by injection Hrun as <- <-].
  destruct (_strats (this σ)) as [strats|]; [|by injection Hrun as <- <-].
  case_bool_decide; [by injection Hrun as <- <-|].
  destruct (transform_loop env _ stats (loop_entry X T σ).2) as [r0 σ0] eqn:Hloop.
  apply transform_loop_silence in Hloop; [|by apply (Hok stats Hstats)].
  replace (loop_entry X T (silence σ)).2 with (silence (loop_entry X T σ).2)
    by (unfold loop_entry, silence; simpl; by destruct (copy (this σ))).
  replace (loop_entry X T (silence σ)).1 with (loop_entry X T σ).1 by done.
  rewrite Hloop. by destruct r0 as [[]|e]; injection Hrun as <- <-.
Qed.

Lemma transform_column_quiet X c imp σ r σ' :
  verbose (this σ) = false ->
  transform_column env X c imp σ = (r, σ') ->
  stdout σ' = stdout σ /\ verbose (this σ') = false.
Proof.
  destruct σ as [self fr out w]. simpl. intros Hv.
  unfold transform_column, impute_column.
  cbv [bind ret raise self_ update_self print in_world df_get df_put
       new_series lift_result modify getitem]. simpl.
  repeat goal_step; try done; by intros [= <- <-].
Qed.

Lemma transform_loop_quiet X items σ r σ' :
  verbose (this σ) = false ->
  transform_loop env X items σ = (r, σ') ->
  stdout σ' = stdout σ.
Proof.
  revert σ. induction items as [|[c imp] items IH]; intros σ Hv Hrun; simpl in Hrun.
  - by injection Hrun as <- <-.
  - apply bind_run in Hrun as (r1 & σ1 & H1 & Hrun).
    apply transform_column_quiet in H1 as [Hout Hv1]; [|done].
    destruct r1 as [[]|e].
    + apply IH in Hrun; [congruence | done].
    + by destruct Hrun as [-> ->].
Qed.

Lemma transform_quiet X σ r σ' :
  verbose (this σ) = false ->
  transform env X σ = (r, σ') ->
  stdout σ' = stdout σ.
Proof.
  intros Hv Hrun. destruct (frames σ !! X) as [T|] eqn:HT; cycle 1.
  { rewrite transform_dangling in Hrun by done. by injection Hrun as <- <-. }
  rewrite (transform_cases X σ T HT) in Hrun.
  destruct (check_nan_columns env T); [by injection Hrun as <- <-|].
  destruct (statistics_ (this σ)) as [stats|] eqn:Hstats; [|by injection Hrun as <- <-].
  destruct (_strats (this σ)) as [strats|]; [|by injection Hrun as <- <-].
  case_bool_decide; [by injection Hrun as <- <-|].
  destruct (transform_loop env _ stats (loop_entry X T σ).2) as [r0 σ0] eqn:Hloop.
  apply transform_loop_quiet in Hloop; [|done].
  assert (stdout σ' = stdout σ0) as -> by (by destruct r0 as [[]|e]; injection Hrun as <- <-).
  rewrite Hloop. unfold loop_entry; simpl. by rewrite Hv.
Qed.

(** C7: on a fitted (or never fitted) SingleImputer, [transform] with
    [verbose] on and with [verbose] off end alike: the same outcome, be
    it the returned table or the exception, the same tables, the same
    Imputed-Index Record, the same world.  Only the console differs:
    with [verbose] off nothing is printed. *)
Theorem transform_verbose_noninterference X σ :
  store_ok (this σ) ->
  let run b := transform env X (with_verbose b σ) in
  (run true).1 = (run false).1 /\
  frames (run true).2 = frames (run false).2 /\
  imputed_ (this (run true).2) = imputed_ (this (run false).2) /\
  statistics_ (this (run true).2) = statistics_ (this (run false).2) /\
  wld (run true).2 = wld (run false).2 /\
  stdout (run false).2 = stdout σ.
Proof.
  intros Hok run.
  assert (Hsil : forall b, transform env X (silence σ) = ((run b).1, silence (run b).2)).
  { intros b. replace (silence σ) with (silence (with_verbose b σ)) by done.
    apply transform_silence; [done|]. unfold run. by destruct (transform env X _). }
  pose proof (Hsil true) as Ht. rewrite (Hsil false) in Ht.
  unfold silence, set_verbose in Ht. injection Ht as Hr _ _ _ _ Hst Hi Hf Hw.
  split_and!; try done.
  unfold run. destruct (transform env X (with_verbose false σ)) as [r σ'] eqn:Hrun.
  by apply transform_quiet in Hrun.
Qed.

(** *** [fit] *)

Lemma default_fit_fitted (d d' : default.DefaultSingleImputer) x (w w' : world E) :
  default.DefaultSingleImputer_fit env d x w = (Ok d', w') ->
  imputer_fitted (IDefault d').
Proof.
  unfold default.DefaultSingleImputer_fit, default.DefaultBaseImputer_fit, default.getattr.
  cbv [bind ret raise]. intros Hrun.
  repeat run_step Hrun; simplify_eq; simpl; eexists; split; try done; by eexists.
Qed.

Lemma imputer_fit_fitted imp x (w w' : world E) imp' :
  imputer_fit env imp x w = (Ok imp', w') -> imputer_fitted imp'.
Proof.
  destruct imp as [d|o]; simpl; intros Hrun.
  - apply bind_run in Hrun as (r1 & w1 & H1 & Hrun).
    destruct r1 as [d'|e]; [|by destruct Hrun].
    injection Hrun as <- <-. by eapply default_fit_fitted.
  - apply bind_run in Hrun as (r1 & w1 & H1 & Hrun).
    destruct r1 as [v|e]; [|by destruct Hrun]. by injection Hrun as <- <-.
Qed.

Lemma fit_column_spec X c m σ r σ' :
  fit_column env X c m σ = (r, σ') ->
  frames σ' = frames σ /\
  same_but_store (this σ) (this σ') /\
  match r with
  | Ok _ =>
      exists stats imp',
        statistics_ (this σ) = Some stats /\
        statistics_ (this σ') = Some (dict.set stats c imp') /\
        imputer_fitted imp'
  | Raise _ => statistics_ (this σ') = statistics_ (this σ)
  end.
Proof.
  destruct σ as [self fr out w]. unfold fit_column, create_imputer.
  cbv [bind ret raise try_except self_ update_self print in_world df_get df_put
       new_series lift_result modify getitem]. simpl.
  intros Hrun. repeat run_step Hrun; simplify_eq; simpl; split_and!; try done.
  all: eexists _, _; split_and!; try done.
  all: by eapply imputer_fit_fitted.
Qed.

Lemma same_but_store_trans (s1 s2 s3 : SingleImputer) :
  same_but_store s1 s2 -> same_but_store s2 s3 -> same_but_store s1 s3.
Proof. unfold same_but_store. intros (?&?&?&?&?&?) (?&?&?&?&?&?). split_and!; congruence. Qed.

(** the loop of [fit] stops at the first column that fails; the store
    then holds the columns before it *)
Lemma fit_loop_spec X items σ stats r σ' :
  statistics_ (this σ) = Some stats ->
  NoDup (dict.keys stats ++ dict.keys items) ->
  (forall c imp, (c, imp) ∈ stats -> imputer_fitted imp) ->
  fit_loop env X items σ = (r, σ') ->
  frames σ' = frames σ /\
  same_but_store (this σ) (this σ') /\
  exists fitted stats',
    statistics_ (this σ') = Some stats' /\
    dict.keys stats' = dict.keys stats ++ dict.keys fitted /\
    (forall c imp, (c, imp) ∈ stats' -> imputer_fitted imp) /\
    match r with
    | Ok _ => fitted = items
    | Raise _ => exists c m rest, items = fitted ++ (c, m) :: rest
    end.
Proof.
  revert σ stats. induction items as [|[c m] items IH];
    intros σ stats Hstats Hnd Hfit Hrun; simpl in Hrun.
  - injection Hrun as <- <-. split_and!; [done..|].
    exists [], stats. by rewrite app_nil_r.
  - apply bind_run in Hrun as (r1 & σ1 & H1 & Hrun).
    apply fit_column_spec in H1 as (Hfr & Hsame & Hcol).
    destruct r1 as [[]|e].
    + destruct Hcol as (stats0 & imp' & Hstats0 & Hstats1 & Himp').
      rewrite Hstats in Hstats0. injection Hstats0 as <-.
      assert (Hc : c ∉ dict.keys stats).
      { intros Hin. apply NoDup_app in Hnd as (_ & Hdisj & _).
        apply (Hdisj c Hin). left. }
      rewrite dict_set_fresh in Hstats1 by done.
      eapply IH in Hrun as (Hfr' & Hsame' & fitted & stats' & Hst' & Hk & Hfit' & Hr);
        [|exact Hstats1| |].
      * split_and!; [congruence|by eapply same_but_store_trans|].
        exists ((c, m) :: fitted), stats'. split_and!; [done| |done|].
        -- rewrite Hk. unfold dict.keys. rewrite !fmap_app. simpl. by rewrite <- app_assoc.
        -- destruct r as [[]|e]; [by subst|].
           destruct Hr as (c' & m' & rest & ->). by exists c', m', rest.
      * unfold dict.keys in *. rewrite fmap_app. simpl. by rewrite <- app_assoc.
      * intros c' imp0 Hin. apply elem_of_app in Hin as [Hin|Hin]; [by eapply Hfit|].
        apply list_elem_of_singleton in Hin. by injection Hin as -> ->.
    + destruct Hrun as [-> ->]. split_and!; [done..|].
      exists [], stats. rewrite Hcol, app_nil_r. split_and!; [done..|].
      by exists c, m, items.
Qed.

Lemma fit_cases X σ T :
  frames σ !! X = Some T ->
  fit env X σ =
  match check_nan_columns env T with
  | Some e => (Raise e, σ)
  | None =>
      match check_strategy_fit env (strategy (this σ)) (dict.keys T) with
      | Raise e => (Raise e, σ)
      | Ok strats => fit_loop env X strats (fit_entry strats σ)
      end
  end.
Proof.
  intros HT. destruct σ as [self fr out w]. simpl in HT.
  unfold fit, check_nan_columns_decorator, fit_body, _fit_strategy_validator, fit_entry.
  cbv [bind ret raise self_ update_self print in_world df_get df_put
       new_series lift_result modify getitem]. simpl.
  rewrite HT. destruct (check_nan_columns env T); [done|]. simpl. rewrite HT. simpl.
  destruct (check_strategy_fit env (strategy self) (dict.keys T)) as [strats|e]; [|done].
  simpl. by destruct (verbose self).
Qed.

Lemma fit_dangling X σ :
  frames σ !! X = None -> fit env X σ = (Raise (TypeError "not a DataFrame"), σ).
Proof.
  intros HX. unfold fit, check_nan_columns_decorator.
  erewrite bind_Raise; [done|]. unfold df_get. by rewrite HX.
Qed.

(** whatever its outcome, [fit] leaves a store of fitted imputers under
    distinct keys, provided the strategy map is a dict *)
Lemma fit_store_ok X σ r σ' :
  store_ok (this σ) ->
  (forall cols strats,
      check_strategy_fit env (strategy (this σ)) cols = Ok strats -> NoDup (dict.keys strats)) ->
  fit env X σ = (r, σ') ->
  store_ok (this σ').
Proof.
  intros Hok Hdict Hrun. destruct (frames σ !! X) as [T|] eqn:HT; cycle 1.
  { rewrite fit_dangling in Hrun by done. by injection Hrun as <- <-. }
  rewrite (fit_cases X σ T HT) in Hrun.
  destruct (check_nan_columns env T); [by injection Hrun as <- <-|].
  destruct (check_strategy_fit env _ _) as [strats|e] eqn:Hs; [|by injection Hrun as <- <-].
  eapply (fit_loop_spec X strats _ []) in Hrun
    as (_ & _ & fitted & stats' & Hst & Hk & Hfit & Hr); [|done| |].
  - intros stats Hstats. rewrite Hst in Hstats. injection Hstats as <-. split; [|done].
    rewrite Hk. simpl. specialize (Hdict _ _ Hs).
    destruct r as [[]|e]; [by subst|].
    destruct Hr as (c & m & rest & ->). unfold dict.keys in *. rewrite fmap_app in Hdict.
    by apply NoDup_app in Hdict as [? _].
  - simpl. by eapply Hdict.
  - intros c imp Hin. by apply elem_of_nil in Hin.
Qed.

Lemma fit_forgets_store X σ old :
  fit env X (with_statistics old σ) = fit env X σ
  \/ (exists e, fit env X σ = (Raise e, σ) /\
                fit env X (with_statistics old σ) = (Raise e, with_statistics old σ)).
Proof.
  destruct (frames σ !! X) as [T|] eqn:HT; cycle 1.
  { right. eexists. split; [by apply fit_dangling|]. by apply fit_dangling. }
  rewrite (fit_cases X σ T HT), (fit_cases X (with_statistics old σ) T HT).
  destruct (check_nan_columns env T); [right; by eexists|].
  change (strategy (this (with_statistics old σ))) with (strategy (this σ)).
  destruct (check_strategy_fit env _ _) as [strats|e]; [by left | right; by eexists].
Qed.



(** C6, as the code has it: when the constructor of a column's imputer
    raises a TypeError, [fit] raises a ValueError whose message names the
    imputer class, and nothing else, and whose cause is that TypeError;
    any other exception of the constructor leaves [fit] as it is. *)
Theorem fit_column_construction_failure X column method σ cls e w' :
  dict.get (strategies env) method = Some cls ->
  construct env cls (_fit_init_params column method (imp_kwgs (this σ))) (wld σ)
  = (Raise e, w') ->
  (isinstance_TypeError e = true ->
   forall name w'',
     class_name env cls w' = (Ok name, w'') ->
     fit_column env X column method σ
     = (Raise (ValueError (invalid_arguments_message name) (Some e)), with_world w'' σ)) /\
  (isinstance_TypeError e = false ->
   fit_column env X column method σ = (Raise e, with_world w' σ)).
Proof.
  intros Hreg Hcons. unfold fit_column.
  erewrite bind_Ok; [|by unfold getitem; rewrite Hreg].
  erewrite bind_Ok; [|done].
  split.
  - intros Hte name w'' Hname. erewrite bind_Raise; [done|].
    unfold create_imputer, try_except, in_world. rewrite Hcons, Hte.
    unfold bind, raise. simpl. by rewrite Hname.
  - intros Hte. erewrite bind_Raise; [done|].
    unfold create_imputer, try_except, in_world. by rewrite Hcons, Hte.
Qed.

(** C4, as the code has it: on a fitted SingleImputer and a table that
    the decorator accepts, if the table lacks a column of the strategy
    map then [transform] raises a ValueError with one fixed message,
    which names no column; if the table has them all, the check passes
    and the outcome of [transform] is that of its loop. *)
Theorem transform_column_mismatch X σ T stats strats :
  frames σ !! X = Some T ->
  check_nan_columns env T = None ->
  statistics_ (this σ) = Some stats ->
  _strats (this σ) = Some strats ->
  (forall c, c ∈ dict.keys strats -> c ∉ dict.keys T ->
     transform env X σ
     = (Raise (ValueError column_mismatch_message None), after_copy T σ)) /\
  ((forall c, c ∈ dict.keys strats -> c ∈ dict.keys T) ->
     _transform_strategy_validator X σ = (Ok tt, σ) /\
     transform env X σ =
     match transform_loop env (loop_entry X T σ).1 stats (loop_entry X T σ).2 with
     | (Ok _, σ') => (Ok (loop_entry X T σ).1, σ')
     | (Raise e, σ') => (Raise e, σ')
     end).
Proof.
  intros HT Hgate Hstats Hstrats. split.
  - intros c Hc Hnc. rewrite (transform_cases X σ T HT), Hgate, Hstats, Hstrats.
    rewrite bool_decide_eq_true_2; [done|].
    intros Hnil. assert (Hin : c ∈ missing_columns strats T).
    { unfold missing_columns. by apply list_elem_of_filter. }
    rewrite Hnil in Hin. by apply elem_of_nil in Hin.
  - intros Hall.
    assert (Hnil : missing_columns strats T = []).
    { unfold missing_columns. destruct (filter _ _) as [|c l] eqn:Hf; [done|].
      assert (Hin : c ∈ filter (fun c => c ∉ dict.keys T) (dict.keys strats))
        by (rewrite Hf; left).
      apply list_elem_of_filter in Hin as [Hnc Hc]. by apply Hall in Hc. }
    split.
    + destruct σ as [self fr out w]. simpl in *.
      unfold _transform_strategy_validator, default.check_is_fitted.
      cbv [bind ret raise self_ update_self print in_world df_get df_put
           new_series lift_result modify getitem]. simpl.
      rewrite Hstats. simpl. rewrite HT. simpl. rewrite Hstrats.
      fold (missing_columns strats T). rewrite Hnil.
      by rewrite bool_decide_eq_false_2 by (intros Hne; by apply Hne).
    + rewrite (transform_cases X σ T HT), Hgate, Hstats, Hstrats, Hnil.
      by rewrite bool_decide_eq_false_2 by (intros Hne; by apply Hne).
Qed.

(** the class has no [impute]: looking the attribute up on a
    DefaultSingleImputer raises AttributeError, in every state of it *)
Lemma DefaultSingleImputer_has_no_impute (d : default.DefaultSingleImputer) (w : world E) :
  default.DefaultSingleImputer_hasattr d "impute" = false /\
  imputer_impute env (IDefault d) w
  = (Raise (AttributeError "'DefaultSingleImputer' object has no attribute 'impute'"), w).
Proof.
  split; [apply default_has_no_impute|].
  simpl. by rewrite default_has_no_impute.
Qed.

Lemma store_ok_intro (self : SingleImputer) stats :
  statistics_ self = Some stats ->
  NoDup (dict.keys stats) ->
  Forall (fun p => imputer_fitted p.2) stats ->
  store_ok self.
Proof.
  intros Hst Hnd Hall stats' Hst'. rewrite Hst in Hst'. injection Hst' as <-.
  split; [done|]. intros c imp Hin.
  eapply Forall_forall in Hall; [|exact Hin]. done.
Qed.

End orchestrator_facts.

(** ** More of default.py: construction, and fit followed by transform *)

Section default_more.
Context {E : Type} (env : External E).
Import default.

(** X1: the constructor validates [num_kwgs], then [cat_kwgs], before it
    looks at either imputer class: a value that is neither None nor a dict
    raises the ValueError of its setter, and nothing has been instantiated
    by then. *)
Theorem DefaultBaseImputer_init_checks_kwgs_first
    (num_imputer cat_imputer num_kwgs cat_kwgs : pyval) (w : world E) :
  (is_none_or_dict num_kwgs = false ->
   DefaultBaseImputer_init env num_imputer cat_imputer num_kwgs cat_kwgs w
   = (Raise (ValueError num_kwgs_message None), w)) /\
  (is_none_or_dict num_kwgs = true -> is_none_or_dict cat_kwgs = false ->
   DefaultBaseImputer_init env num_imputer cat_imputer num_kwgs cat_kwgs w
   = (Raise (ValueError cat_kwgs_message None), w)).
Proof.
  unfold DefaultBaseImputer_init, set_num_kwgs, set_cat_kwgs, bind, raise, ret.
  split.
  - by intros ->.
  - by intros -> ->.
Qed.

Lemma name_endswith_Imputer_spec imp (w : world E) r w' :
  name_endswith_Imputer env imp w = (r, w') ->
  w' = w /\
  match r with
  | Ok b => exists n, py_getattr env imp "__name__" w = Ok (PyStr n) /\
                      b = endswith n "Imputer"
  | Raise e =>
      py_getattr env imp "__name__" w = Raise e \/
      ((exists v, py_getattr env imp "__name__" w = Ok v) /\
       isinstance_AttributeError e = true)
  end.
Proof.
  unfold name_endswith_Imputer, getattr, bind, ret, raise.
  destruct (py_getattr env imp "__name__" w) as [v|e] eqn:Hn.
  - destruct v; intros [= <- <-]; split; try done; try (right; split; [by eexists|done]).
    by eexists.
  - intros [= <- <-]. split; [done | by left].
Qed.

Lemma hasattr_spec imp name (w : world E) r w' :
  hasattr env imp name w = (r, w') ->
  w' = w /\
  match r with
  | Ok b => b = true <-> exists v, py_getattr env imp name w = Ok v
  | Raise e => isinstance_AttributeError e = false
  end.
Proof.
  unfold hasattr. destruct (py_getattr env imp name w) as [v|e] eqn:Hg.
  - intros [= <- <-]. split; [done|]. split; [by eexists | done].
  - destruct (isinstance_AttributeError e) eqn:He; intros [= <- <-]; split; try done.
    split; [done | by intros [? ?]].
Qed.

(** settle the formatting of a message and the choice of the handler *)
Ltac setter_cases :=
  repeat first
    [ progress simpl
    | match goal with
      | |- context [py_format env ?i ?w] => destruct (py_format env i w) eqn:?
      | |- context [isinstance_AttributeError ?e] =>
          destruct (isinstance_AttributeError e) eqn:?
      end ].

(** what a sub-imputer setter has checked when it returns *)
Lemma set_num_imputer_Ok kwgs imp (w : world E) v w' :
  set_num_imputer env kwgs imp w = (Ok v, w') ->
  (exists n, py_getattr env imp "__name__" w = Ok (PyStr n) /\ endswith n "Imputer" = true) /\
  (exists m, py_getattr env imp "fit_transform" w = Ok m) /\
  instantiate env imp kwgs w = (Ok v, w').
Proof.
  unfold set_num_imputer, try_except, format_imp. cbv [bind raise].
  destruct (name_endswith_Imputer env imp w) as [[b|e] w1] eqn:Hname;
    apply name_endswith_Imputer_spec in Hname as [-> Hname]; simpl; cycle 1.
  { setter_cases; by intros [=]. }
  destruct Hname as (n & Hn & ->).
  destruct (endswith n "Imputer") eqn:Hend; simpl; [|setter_cases; by intros [=]].
  destruct (hasattr env imp "fit_transform" w) as [[h|e] w1] eqn:Hh;
    apply hasattr_spec in Hh as [-> Hh]; simpl; cycle 1.
  { rewrite Hh. by intros [=]. }
  destruct h; simpl; [|by intros [=]].
  destruct (instantiate env imp kwgs w) as [[v'|e] w1] eqn:Hi.
  - intros [= <- <-]. split_and!; [by exists n | by apply Hh | done].
  - setter_cases; by intros [=].
Qed.

Lemma set_cat_imputer_Ok kwgs imp (w : world E) v w' :
  set_cat_imputer env kwgs imp w = (Ok v, w') ->
  (exists n, py_getattr env imp "__name__" w = Ok (PyStr n) /\ endswith n "Imputer" = true) /\
  (exists m, py_getattr env imp "fit_transform" w = Ok m) /\
  instantiate env imp kwgs w = (Ok v, w').
Proof.
  unfold set_cat_imputer, try_except, format_imp. cbv [bind raise].
  destruct (name_endswith_Imputer env imp w) as [[b|e] w1] eqn:Hname;
    apply name_endswith_Imputer_spec in Hname as [-> Hname]; simpl; cycle 1.
  { setter_cases; by intros [=]. }
  destruct Hname as (n & Hn & ->).
  destruct (endswith n "Imputer") eqn:Hend; simpl; [|setter_cases; by intros [=]].
  destruct (hasattr env imp "fit_transform" w) as [[h|e] w1] eqn:Hh;
    apply hasattr_spec in Hh as [-> Hh]; simpl; cycle 1.
  { rewrite Hh. by intros [=]. }
  destruct h; simpl; [|by intros [=]].
  destruct (instantiate env imp kwgs w) as [[v'|e] w1] eqn:Hi.
  - intros [= <- <-]. split_and!; [by exists n | by apply Hh | done].
  - setter_cases; by intros [=].
Qed.

(** X2: a default imputer only comes into being validated.  If the
    constructor returns, both keyword values are None or dicts and are
    stored as given, each class has a [__name__] ending in "Imputer" and a
    [fit_transform], the numeric sub-imputer was instantiated first and
    the categorical one after it, and the new object has no [statistics_]:
    it is not fitted. *)
Theorem DefaultBaseImputer_init_success
    (num_imputer cat_imputer num_kwgs cat_kwgs : pyval) (w w' : world E)
    (d : DefaultBaseImputer) :
  DefaultBaseImputer_init env num_imputer cat_imputer num_kwgs cat_kwgs w = (Ok d, w') ->
  is_none_or_dict num_kwgs = true /\ is_none_or_dict cat_kwgs = true /\
  _num_kwgs d = num_kwgs /\ _cat_kwgs d = cat_kwgs /\ statistics_ d = None /\
  exists w1,
    instantiate env num_imputer num_kwgs w = (Ok (_num_imputer d), w1) /\
    instantiate env cat_imputer cat_kwgs w1 = (Ok (_cat_imputer d), w') /\
    (exists n, py_getattr env num_imputer "__name__" w = Ok (PyStr n) /\
               endswith n "Imputer" = true) /\
    (exists m, py_getattr env num_imputer "fit_transform" w = Ok m) /\
    (exists n, py_getattr env cat_imputer "__name__" w1 = Ok (PyStr n) /\
               endswith n "Imputer" = true) /\
    (exists m, py_getattr env cat_imputer "fit_transform" w1 = Ok m).
Proof.
  unfold DefaultBaseImputer_init. intros Hrun.
  apply bind_run in Hrun as (r1 & w1 & H1 & Hrun).
  unfold set_num_kwgs in H1. destruct (is_none_or_dict num_kwgs) eqn:Hnk; simpl in H1;
    injection H1 as <- <-; [|by destruct Hrun].
  apply bind_run in Hrun as (r2 & w2 & H2 & Hrun).
  unfold set_cat_kwgs in H2. destruct (is_none_or_dict cat_kwgs) eqn:Hck; simpl in H2;
    injection H2 as <- <-; [|by destruct Hrun].
  apply bind_run in Hrun as (r3 & w3 & H3 & Hrun).
  destruct r3 as [ni|e]; [|by destruct Hrun].
  apply set_num_imputer_Ok in H3 as (Hn & Hft & Hni).
  apply bind_run in Hrun as (r4 & w4 & H4 & Hrun).
  destruct r4 as [ci|e]; [|by destruct Hrun].
  apply set_cat_imputer_Ok in H4 as (Hn' & Hft' & Hci).
  injection Hrun as <- <-. simpl. split_and!; try done.
  exists w3. by split_and!.
Qed.

(** an AttributeError leaves a setter only out of the formatting of its
    message *)
Lemma set_num_imputer_Raise kwgs imp (w : world E) e w' :
  set_num_imputer env kwgs imp w = (Raise e, w') ->
  isinstance_AttributeError e = true ->
  exists w0, py_format env imp w0 = Raise e.
Proof.
  unfold set_num_imputer, try_except, format_imp.
  match goal with |- context [bind ?c ?k w] => destruct (bind c k w) as [[v|e0] w0] end;
    [by intros [=]|].
  destruct (isinstance_AttributeError e0) eqn:He; [|intros [= <- <-]; congruence].
  cbv [bind raise]. destruct (py_format env imp w0) as [s|e1] eqn:Hf.
  - by intros [= <- <-].
  - intros [= <- <-] _. by exists w0.
Qed.

Lemma set_cat_imputer_Raise kwgs imp (w : world E) e w' :
  set_cat_imputer env kwgs imp w = (Raise e, w') ->
  isinstance_AttributeError e = true ->
  exists w0, py_format env imp w0 = Raise e.
Proof.
  unfold set_cat_imputer, try_except, format_imp.
  match goal with |- context [bind ?c ?k w] => destruct (bind c k w) as [[v|e0] w0] end;
    [by intros [=]|].
  destruct (isinstance_AttributeError e0) eqn:He; [|intros [= <- <-]; congruence].
  cbv [bind raise]. destruct (py_format env imp w0) as [s|e1] eqn:Hf.
  - by intros [= <- <-].
  - intros [= <- <-] _. by exists w0.
Qed.

(** X3: the constructor fails with an AttributeError (or with sklearn's
    NotFittedError, which is one) only when the formatting of a
    sub-imputer argument for an error message raised it: whatever of that
    kind the inspection or the instantiation of a sub-imputer class
    raises leaves the setter as a ValueError, unless building the message
    of that ValueError fails in turn. *)
Theorem DefaultBaseImputer_init_AttributeError_only_from_format
    (num_imputer cat_imputer num_kwgs cat_kwgs : pyval) (w w' : world E) (e : exn) :
  DefaultBaseImputer_init env num_imputer cat_imputer num_kwgs cat_kwgs w = (Raise e, w') ->
  isinstance_AttributeError e = false \/
  exists imp w0,
    (imp = num_imputer \/ imp = cat_imputer) /\ py_format env imp w0 = Raise e.
Proof.
  unfold DefaultBaseImputer_init. intros Hrun.
  destruct (isinstance_AttributeError e) eqn:He; [right | by left].
  apply bind_run in Hrun as (r1 & w1 & H1 & Hrun).
  unfold set_num_kwgs in H1. destruct (is_none_or_dict num_kwgs); simpl in H1;
    injection H1 as <- <-; [|destruct Hrun as [[= ->] _]; done].
  apply bind_run in Hrun as (r2 & w2 & H2 & Hrun).
  unfold set_cat_kwgs in H2. destruct (is_none_or_dict cat_kwgs); simpl in H2;
    injection H2 as <- <-; [|destruct Hrun as [[= ->] _]; done].
  apply bind_run in Hrun as (r3 & w3 & H3 & Hrun).
  destruct r3 as [ni|e3].
  2:{ destruct Hrun as [[= ->] _].
      destruct (set_num_imputer_Raise _ _ _ _ _ H3 He) as [w0 Hf].
      exists num_imputer, w0. split; [by left | done]. }
  apply bind_run in Hrun as (r4 & w4 & H4 & Hrun).
  destruct r4 as [ci|e4]; [by injection Hrun|].
  destruct Hrun as [[= ->] _].
  destruct (set_cat_imputer_Raise _ _ _ _ _ H4 He) as [w0 Hf].
  exists cat_imputer, w0. split; [by right | done].
Qed.

(** X4: an AttributeError out of the class itself, when it is called, is
    reported as if the argument were no imputer class at all: the numeric
    setter raises the ValueError "... is not an instance of an Imputer"
    with that AttributeError as its cause; what the formatting of the
    argument raises, if it fails, takes the place of that ValueError. *)
Theorem set_num_imputer_masks_AttributeError kwgs imp (w w1 : world E) n m e :
  py_getattr env imp "__name__" w = Ok (PyStr n) ->
  endswith n "Imputer" = true ->
  py_getattr env imp "fit_transform" w = Ok m ->
  instantiate env imp kwgs w = (Raise e, w1) ->
  set_num_imputer env kwgs imp w =
  if isinstance_AttributeError e
  then match py_format env imp w1 with
       | Ok s =>
           (Raise (ValueError (s ++ " is not an instance of an Imputer")%string (Some e)), w1)
       | Raise e' => (Raise e', w1)
       end
  else (Raise e, w1).
Proof.
  intros Hn Hend Hft Hi.
  unfold set_num_imputer, try_except, name_endswith_Imputer, hasattr, getattr, format_imp.
  cbv [bind ret raise]. rewrite Hn. simpl. rewrite Hend. simpl. rewrite Hft. simpl.
  rewrite Hi.
  destruct (isinstance_AttributeError e); [|done].
  by destruct (py_format env imp w1).
Qed.

(** X5: [transform] of the three classes on an instance that was never
    fitted raises NotFittedError, carrying the class name, and calls
    nothing: the world is unchanged. *)
Theorem default_transform_not_fitted (self : DefaultBaseImputer) (X : pyval) (w : world E)
    cls tr :
  statistics_ self = None ->
  (cls, tr) ∈ default_transforms env ->
  tr self X w = (Raise (NotFittedError (not_fitted_message cls)), w).
Proof.
  intros Hst Hin. unfold default_transforms in Hin.
  repeat (apply elem_of_cons in Hin as [[= -> ->]|Hin]);
    [..|by apply elem_of_nil in Hin];
    unfold DefaultSingleImputer_transform, DefaultTimeSeriesImputer_transform,
      DefaultBaseImputer_transform, check_is_fitted, bind; by rewrite Hst.
Qed.

Lemma default_transform_shape (self : DefaultBaseImputer) (X : pyval) (w : world E)
    stats imp cls tr :
  statistics_ self = Some stats ->
  dict.get stats "param" = Some imp ->
  (cls, tr) ∈ default_transforms env ->
  tr self X w =
  match truth env imp w with
  | Ok true => match py_method env imp "transform" X w with
               | (Ok _, w') => (Ok X, w')
               | (Raise e, w') => (Raise e, w')
               end
  | Ok false => (Ok X, w)
  | Raise e => (Raise e, w)
  end.
Proof.
  intros Hst Hp Hin.
  assert (Hbase : forall c,
    DefaultBaseImputer_transform env c self X w =
    match truth env imp w with
    | Ok true => match py_method env imp "transform" X w with
                 | (Ok _, w') => (Ok X, w')
                 | (Raise e, w') => (Raise e, w')
                 end
    | Ok false => (Ok X, w)
    | Raise e => (Raise e, w)
    end).
  { intros c. unfold DefaultBaseImputer_transform, check_is_fitted, getitem, bind, ret.
    rewrite Hst, Hp. simpl.
    destruct (truth env imp w) as [[|]|e]; [|done..].
    by destruct (py_method env imp "transform" X w) as [[v|e] w']. }
  unfold default_transforms in Hin.
  repeat (apply elem_of_cons in Hin as [[= -> ->]|Hin]); [..|by apply elem_of_nil in Hin].
  - apply Hbase.
  - unfold DefaultSingleImputer_transform, bind, ret. rewrite Hbase.
    destruct (truth env imp w) as [[|]|e]; [|done..].
    by destruct (py_method env imp "transform" X w) as [[v|e] w'].
  - unfold DefaultTimeSeriesImputer_transform, bind, ret. rewrite Hbase.
    destruct (truth env imp w) as [[|]|e]; [|done..].
    by destruct (py_method env imp "transform" X w) as [[v|e] w'].
Qed.

Lemma default_fits_base (self : DefaultBaseImputer) (X : pyval) (w : world E) fit_m :
  fit_m ∈ default_fits env ->
  fit_m self X w = DefaultBaseImputer_fit env self X w.
Proof.
  intros Hin. unfold default_fits in Hin.
  repeat (apply elem_of_cons in Hin as [->|Hin]); [..|by apply elem_of_nil in Hin];
    [done|..];
    unfold DefaultSingleImputer_fit, DefaultTimeSeriesImputer_fit, bind, ret;
    by destruct (DefaultBaseImputer_fit env self X w) as [[d|e] w'].
Qed.

(** X6: fit, then transform, for each of the three classes.  The
    sub-imputer is chosen once, by [fit]: after a fit on a numeric column
    every later [transform] goes to what the numeric sub-imputer's [fit]
    returned, whatever the dtype of the column it is then given; and after
    a fit on a column that is neither numeric nor string, every later
    [transform] returns its argument and runs nothing. *)
Theorem default_fit_then_transform (self : DefaultBaseImputer) (X : pyval) (w : world E)
    fit_m cls tr :
  fit_m ∈ default_fits env ->
  (cls, tr) ∈ default_transforms env ->
  (is_numeric_dtype X w = true ->
   forall p w1 s,
     py_method env (num_imputer self) "fit" X w = (Ok p, w1) ->
     py_getattr env (num_imputer self) "strategy" w1 = Ok s ->
     exists self',
       fit_m self X w = (Ok self', w1) /\
       forall X' w2,
         truth env p w2 = Ok true ->
         tr self' X' w2 =
         match py_method env p "transform" X' w2 with
         | (Ok _, w3) => (Ok X', w3)
         | (Raise e, w3) => (Raise e, w3)
         end) /\
  (is_numeric_dtype X w = false -> is_string_dtype X w = false ->
   exists self',
     fit_m self X w = (Ok self', w) /\
     forall X' w2, tr self' X' w2 = (Ok X', w2)).
Proof.
  intros Hfit Htr. rewrite (default_fits_base self X w fit_m Hfit). split.
  - intros Hn p w1 s Hp Hs. eexists. split.
    + unfold DefaultBaseImputer_fit, bind, getattr, ret. by rewrite Hn, Hp, Hs.
    + intros X' w2 Ht.
      erewrite default_transform_shape; [|simpl; reflexivity|reflexivity|exact Htr].
      by rewrite Ht.
  - intros Hn Hs. eexists. split.
    + unfold DefaultBaseImputer_fit, bind, ret. by rewrite Hn, Hs.
    + intros X' w2.
      erewrite default_transform_shape; [|simpl; reflexivity|reflexivity|exact Htr].
      done.
Qed.

End default_more.

(** ** More of single_imputer.py: the life cycle of the SingleImputer *)

Section orchestrator_more.
Context {E : Type} (env : External E).
Import single_imputer.

Implicit Types (σ : pystate (E:=E)) (T : DataFrame) (imp : imputer) (c : string).

Ltac goal_step :=
  match goal with
  | |- context [match ?x with _ => _ end] =>
      lazymatch x with
      | context [match _ with _ => _ end] => fail
      | _ => destruct x eqn:?; simpl
      end
  end.

(** where [transform] leaves the tables *)
Lemma transform_frames X σ T r σ' :
  frames σ !! X = Some T ->
  transform env X σ = (r, σ') ->
  same_config (this σ) (this σ') /\
  (σ' = σ \/
   exists T',
     frames σ' = <[(loop_entry X T σ).1 := T']> (frames (after_copy T σ)) /\
     table_preserved T T') /\
  (forall X', r = Ok X' -> X' = (loop_entry X T σ).1).
Proof.
  intros HT Hrun. rewrite (transform_cases env X σ T HT) in Hrun.
  assert (Hidle : frames (after_copy T σ)
                  = <[(loop_entry X T σ).1 := T]> (frames (after_copy T σ))).
  { symmetry. apply list_insert_id. unfold after_copy, loop_entry; simpl.
    destruct (copy (this σ)); [|done]. by rewrite lookup_app_r, Nat.sub_diag. }
  destruct (check_nan_columns env T).
  { injection Hrun as <- <-. split_and!; [apply same_config_refl|by left|done]. }
  destruct (statistics_ (this σ)) as [stats|] eqn:Hst; cycle 1.
  { injection Hrun as <- <-. split_and!; [apply same_config_refl| |done].
    right. exists T. split; [done | apply table_preserved_refl]. }
  destruct (_strats (this σ)) as [strats|]; cycle 1.
  { injection Hrun as <- <-. split_and!; [apply same_config_refl| |done].
    right. exists T. split; [done | apply table_preserved_refl]. }
  case_bool_decide.
  { injection Hrun as <- <-. split_and!; [apply same_config_refl| |done].
    right. exists T. split; [done | apply table_preserved_refl]. }
  destruct (transform_loop env _ stats (loop_entry X T σ).2) as [r0 σ0] eqn:Hloop.
  eapply transform_loop_frame in Hloop as (Hcfg & T' & Hfr & Hp & _);
    [|by apply loop_entry_lookup].
  assert (Hr : σ' = σ0 /\ forall X', r = Ok X' -> X' = (loop_entry X T σ).1).
  { destruct r0 as [[]|e]; injection Hrun as <- <-; split; try done.
    by intros X' [= <-]. }
  destruct Hr as [-> Hr]. split_and!; [|by right; exists T'|done].
  by destruct Hcfg as (?&?&?&?&?&?).
Qed.

(** X7: [transform] on an object that [fit] never ran on raises
    NotFittedError, for every table that the decorator accepts, and leaves
    the object and the table as they were. *)
Theorem transform_before_fit_raises X σ T :
  frames σ !! X = Some T ->
  check_nan_columns env T = None ->
  statistics_ (this σ) = None ->
  exists σ',
    transform env X σ = (Raise (NotFittedError (not_fitted_message "SingleImputer")), σ') /\
    this σ' = this σ /\ frames σ' !! X = Some T /\
    wld σ' = wld σ /\ stdout σ' = stdout σ.
Proof.
  intros HT Hgate Hst. rewrite (transform_cases env X σ T HT), Hgate, Hst.
  eexists. split; [reflexivity|]. unfold after_copy; simpl. split_and!; try done.
  destruct (copy (this σ)); [|done]. by apply lookup_app_l_Some.
Qed.

(** X8: with [copy] set, [transform] works on a table of its own.
    Whatever the outcome, every table that existed before the call is
    afterwards what it was, the argument included; and the table returned
    is a new object. *)
Theorem transform_copy_leaves_tables X σ T r σ' :
  frames σ !! X = Some T ->
  copy (this σ) = true ->
  transform env X σ = (r, σ') ->
  (forall Y T0, frames σ !! Y = Some T0 -> frames σ' !! Y = Some T0) /\
  (forall X', r = Ok X' ->
     X' = length (frames σ) /\ frames σ !! X' = None /\ is_Some (frames σ' !! X')).
Proof.
  intros HT Hcopy Hrun.
  destruct (transform_frames X σ T r σ' HT Hrun) as (_ & Hfr & HX).
  unfold loop_entry, after_copy in *; simpl in *. rewrite Hcopy in *.
  split.
  - intros Y T0 HY. destruct Hfr as [->|(T' & -> & _)]; [done|].
    rewrite list_lookup_insert_ne.
    + by apply lookup_app_l_Some.
    + apply lookup_lt_Some in HY. lia.
  - intros X' ->.
    destruct (transform_Ok_inv env X σ T X' σ' HT Hrun)
      as (stats & strats & _ & _ & _ & _ & -> & Hloop).
    eapply transform_loop_frame in Hloop as (_ & T' & Hfr' & _);
      [|by apply loop_entry_lookup].
    unfold loop_entry in *; simpl in *. rewrite Hcopy in *.
    split_and!; [done | by apply lookup_ge_None |].
    rewrite Hfr'. eexists. apply list_lookup_insert_eq. rewrite length_app. simpl. lia.
Qed.

(** X9: without [copy], [transform] writes into the table it is given and
    returns that very table.  Whatever the outcome, exception included, no
    other table changes, and in the table itself the columns stay, each
    with its row labels; a row changes only in a column that had missing
    entries and only if its label is the label of a missing row of that
    column, so that with distinct row labels every entry that was present
    keeps its value. *)
Theorem transform_in_place X σ T r σ' :
  frames σ !! X = Some T ->
  copy (this σ) = false ->
  transform env X σ = (r, σ') ->
  length (frames σ') = length (frames σ) /\
  (forall Y, Y <> X -> frames σ' !! Y = frames σ !! Y) /\
  (exists T',
     frames σ' !! X = Some T' /\ table_preserved T T' /\
     forall c col, dict.get T c = Some col -> NoDup (s_index col) ->
       exists col',
         dict.get T' c = Some col' /\
         forall p x, s_values col !! p = Some (Some x) ->
                     s_values col' !! p = Some (Some x)) /\
  (forall X', r = Ok X' -> X' = X).
Proof.
  intros HT Hcopy Hrun.
  destruct (transform_frames X σ T r σ' HT Hrun) as (_ & Hfr & HX).
  unfold loop_entry, after_copy in *; simpl in *. rewrite Hcopy in *.
  assert (Hkept : forall T', table_preserved T T' ->
            forall c col, dict.get T c = Some col -> NoDup (s_index col) ->
              exists col', dict.get T' c = Some col' /\
                forall p x, s_values col !! p = Some (Some x) ->
                            s_values col' !! p = Some (Some x)).
  { intros T' [_ Hp] c col Hcol Hnd. destruct (Hp c col Hcol) as (col' & Hcol' & Hpres).
    exists col'. split; [done|]. by apply col_preserved_present. }
  destruct Hfr as [->|(T' & -> & Hp)].
  - split_and!; [done|done| |done]. exists T.
    split_and!; [done | apply table_preserved_refl | apply Hkept, table_preserved_refl].
  - split_and!; [apply length_insert| | |done].
    + intros Y HY. by apply list_lookup_insert_ne.
    + exists T'. split_and!; [|done|by apply Hkept].
      apply list_lookup_insert_eq. by eapply lookup_lt_Some.
Qed.

(** X10: [transform] reads the fitted state and never writes it: after
    any call, with any outcome, the strategy, the keyword arguments, the
    flags, the strategy map and the Statistics Store are what they were. *)
Theorem transform_keeps_configuration X σ r σ' :
  transform env X σ = (r, σ') -> same_config (this σ) (this σ').
Proof.
  intros Hrun. destruct (frames σ !! X) as [T|] eqn:HT.
  - by destruct (transform_frames X σ T r σ' HT Hrun) as (? & _).
  - rewrite transform_dangling in Hrun by done. injection Hrun as <- <-.
    apply same_config_refl.
Qed.

(** *** [fit] *)

Lemma create_imputer_state cls params σ r σ' :
  create_imputer env cls params σ = (r, σ') ->
  this σ' = this σ /\ frames σ' = frames σ /\ stdout σ' = stdout σ.
Proof.
  destruct σ as [self fr out w]. unfold create_imputer, try_except, in_world, bind, raise.
  simpl. destruct (construct env cls params w) as [[i|e] w1]; [intros ?; by simplify_eq|].
  destruct (isinstance_TypeError e); [|intros ?; by simplify_eq].
  simpl. destruct (class_name env cls w1) as [[n|e'] w2]; intros ?; by simplify_eq.
Qed.

Lemma fit_column_column X c m σ T σ' :
  frames σ !! X = Some T ->
  fit_column env X c m σ = (Ok tt, σ') ->
  is_Some (dict.get T c).
Proof.
  intros HT Hrun. unfold fit_column in Hrun.
  apply bind_run in Hrun as (r1 & σ1 & H1 & Hrun).
  unfold getitem in H1. destruct (dict.get (strategies env) m) as [cls|];
    injection H1 as <- <-; [|by destruct Hrun].
  apply bind_run in Hrun as (r2 & σ2 & H2 & Hrun). injection H2 as <- <-.
  apply bind_run in Hrun as (r3 & σ3 & H3 & Hrun).
  apply create_imputer_state in H3 as (Hthis & Hfr & Hout).
  destruct r3 as [imputer|e]; [|by destruct Hrun].
  apply bind_run in Hrun as (r4 & σ4 & H4 & Hrun).
  assert (Hfr4 : frames σ4 = frames σ /\ r4 = Ok tt).
  { destruct (verbose (this σ)); injection H4 as <- <-; by rewrite <- Hfr. }
  destruct Hfr4 as [Hfr4 ->].
  apply bind_run in Hrun as (r5 & σ5 & H5 & Hrun).
  unfold df_get in H5. rewrite Hfr4, HT in H5. injection H5 as <- <-.
  apply bind_run in Hrun as (r6 & σ6 & H6 & Hrun).
  unfold getitem in H6. destruct (dict.get T c) as [col|]; [by eexists|].
  injection H6 as <- <-. by destruct Hrun.
Qed.

Lemma fit_loop_columns X items σ T σ' :
  frames σ !! X = Some T ->
  fit_loop env X items σ = (Ok tt, σ') ->
  forall c, c ∈ dict.keys items -> is_Some (dict.get T c).
Proof.
  revert σ. induction items as [|[c m] items IH]; intros σ HT Hrun c0 Hc0; simpl in Hrun.
  - by apply elem_of_nil in Hc0.
  - apply bind_run in Hrun as (r1 & σ1 & H1 & Hrun).
    destruct r1 as [[]|e]; [|by destruct Hrun].
    unfold dict.keys in Hc0; simpl in Hc0. apply elem_of_cons in Hc0 as [->|Hin].
    + by eapply fit_column_column.
    + pose proof H1 as H1'. apply fit_column_spec in H1' as (Hfr & _).
      eapply IH; [|exact Hrun|exact Hin]. by rewrite Hfr.
Qed.


(** X12: when the decorator or the strategy validation rejects the table,
    [fit] raises what they raise and the object is untouched: the strategy
    map and the Statistics Store of an earlier fit are still there. *)
Theorem fit_validation_failure_keeps_object X σ T e :
  frames σ !! X = Some T ->
  check_nan_columns env T = Some e \/
  (check_nan_columns env T = None /\
   check_strategy_fit env (strategy (this σ)) (dict.keys T) = Raise e) ->
  fit env X σ = (Raise e, σ).
Proof.
  intros HT Hcase. rewrite (fit_cases env X σ T HT).
  destruct Hcase as [-> | [-> ->]]; done.
Qed.

(** X13: once the validation has passed, [fit] starts from nothing: its
    outcome and the state it leaves are the same as on an object that was
    never fitted.  Nothing of an earlier strategy map or store survives. *)
Theorem fit_forgets_earlier_fit X σ T strats :
  frames σ !! X = Some T ->
  check_nan_columns env T = None ->
  check_strategy_fit env (strategy (this σ)) (dict.keys T) = Ok strats ->
  fit env X σ = fit env X (forget_fit σ).
Proof.
  intros HT Hgate Hs.
  rewrite (fit_cases env X σ T HT), (fit_cases env X (forget_fit σ) T HT), Hgate.
  change (strategy (this (forget_fit σ))) with (strategy (this σ)). by rewrite Hs.
Qed.

(** *** The narration of [fit] does not interfere *)

Lemma fit_column_silence X c m σ r σ' :
  fit_column env X c m σ = (r, σ') ->
  fit_column env X c m (silence σ) = (r, silence σ').
Proof.
  intros Hrun. unfold fit_column in *.
  apply bind_run in Hrun as (r1 & σ1 & H1 & Hrun).
  unfold getitem in H1. destruct (dict.get (strategies env) m) as [cls|] eqn:Hcls;
    injection H1 as <- <-; cycle 1.
  { destruct Hrun as [-> ->]. erewrite bind_Raise; [done|]. unfold getitem. by rewrite Hcls. }
  erewrite bind_Ok; [|by unfold getitem; rewrite Hcls].
  apply bind_run in Hrun as (r2 & σ2 & H2 & Hrun). injection H2 as <- <-.
  erewrite bind_Ok; [|done].
  apply bind_run in Hrun as (r3 & σ3 & H3 & Hrun).
  assert (H3' : create_imputer env cls (_fit_init_params c m (imp_kwgs (this σ))) (silence σ)
                = (r3, silence σ3)).
  { revert H3. destruct σ as [self fr out w].
    unfold create_imputer, try_except, in_world, bind, raise, silence. simpl.
    destruct (construct env cls _ w) as [[i|e] w1]; [intros ?; by simplify_eq|].
    destruct (isinstance_TypeError e); [|intros ?; by simplify_eq].
    simpl. destruct (class_name env cls w1) as [[n|e'] w2]; intros ?; by simplify_eq. }
  apply create_imputer_state in H3 as (Hthis & _ & _).
  destruct r3 as [imputer|e]; cycle 1.
  { destruct Hrun as [-> ->]. erewrite bind_Raise; [done|]. exact H3'. }
  erewrite bind_Ok; [|exact H3'].
  apply bind_run in Hrun as (r4 & σ4 & H4 & Hrun).
  assert (H4' : r4 = Ok tt /\ silence σ4 = silence σ3).
  { destruct (verbose (this σ)); by injection H4 as <- <-. }
  destruct H4' as [-> H4']. simpl.
  erewrite bind_Ok; [|done].
  rewrite <- H4'. clear H3' H4' Hthis H4.
  revert Hrun. destruct σ4 as [self fr out w].
  cbv [bind ret raise try_except self_ update_self print in_world df_get df_put
       new_series lift_result modify getitem silence]. simpl.
  repeat goal_step; by intros [= <- <-].
Qed.

Lemma fit_loop_silence X items σ r σ' :
  fit_loop env X items σ = (r, σ') ->
  fit_loop env X items (silence σ) = (r, silence σ').
Proof.
  revert σ. induction items as [|[c m] items IH]; intros σ Hrun; simpl in *.
  - by injection Hrun as <- <-.
  - apply bind_run in Hrun as (r1 & σ1 & H1 & Hrun).
    apply fit_column_silence in H1.
    destruct r1 as [[]|e].
    + erewrite bind_Ok; [|exact H1]. by apply IH.
    + destruct Hrun as [-> ->]. by erewrite bind_Raise.
Qed.

Lemma fit_silence X σ r σ' :
  fit env X σ = (r, σ') -> fit env X (silence σ) = (r, silence σ').
Proof.
  intros Hrun. destruct (frames σ !! X) as [T|] eqn:HT; cycle 1.
  { rewrite fit_dangling in Hrun by done. injection Hrun as <- <-.
    by rewrite fit_dangling. }
  rewrite (fit_cases env X σ T HT) in Hrun.
  rewrite (fit_cases env X (silence σ) T) by done.
  change (strategy (this (silence σ))) with (strategy (this σ)).
  destruct (check_nan_columns env T); [by injection Hrun as <- <-|].
  destruct (check_strategy_fit env _ _) as [strats|e]; [|by injection Hrun as <- <-].
  apply fit_loop_silence in Hrun.
  replace (fit_entry strats (silence σ)) with (silence (fit_entry strats σ)); [done|].
  unfold fit_entry, silence. simpl. done.
Qed.

(** X14: [fit] with [verbose] on and with [verbose] off end alike: the
    same outcome, the same strategy map, the same Statistics Store, the
    same tables, the same world.  The flag only decides what is printed. *)
Theorem fit_verbose_noninterference X σ :
  let run b := fit env X (with_verbose b σ) in
  (run true).1 = (run false).1 /\
  _strats (this (run true).2) = _strats (this (run false).2) /\
  statistics_ (this (run true).2) = statistics_ (this (run false).2) /\
  imputed_ (this (run true).2) = imputed_ (this (run false).2) /\
  frames (run true).2 = frames (run false).2 /\
  wld (run true).2 = wld (run false).2.
Proof.
  intros run.
  assert (Hsil : forall b, fit env X (silence σ) = ((run b).1, silence (run b).2)).
  { intros b. replace (silence σ) with (silence (with_verbose b σ)) by done.
    apply fit_silence. unfold run. by destruct (fit env X _). }
  pose proof (Hsil true) as Ht. rewrite (Hsil false) in Ht.
  unfold silence, set_verbose in Ht. injection Ht as Hr _ _ _ Hs Hst Hi Hf Hw.
  by split_and!.
Qed.

Lemma fit_loop_state X items σ r σ' :
  is_Some (statistics_ (this σ)) ->
  fit_loop env X items σ = (r, σ') ->
  frames σ' = frames σ /\ _strats (this σ') = _strats (this σ) /\
  is_Some (statistics_ (this σ')).
Proof.
  revert σ. induction items as [|[c m] items IH]; intros σ Hsome Hloop; simpl in Hloop.
  - by injection Hloop as <- <-.
  - apply bind_run in Hloop as (r1 & σ1 & H1 & Hloop).
    apply fit_column_spec in H1 as (Hfr & Hsame & Hcol).
    destruct Hsame as (_ & _ & _ & _ & Hss & _).
    destruct r1 as [[]|e].
    + destruct Hcol as (st & imp' & _ & Hst1 & _).
      apply IH in Hloop as (Hfr' & Hst' & Hsome'); [|by rewrite Hst1].
      split_and!; [congruence|congruence|done].
    + destruct Hloop as [-> ->]. split_and!; [done|done|by rewrite Hcol].
Qed.

Lemma validator_passes X σ T stats strats :
  frames σ !! X = Some T ->
  statistics_ (this σ) = Some stats ->
  _strats (this σ) = Some strats ->
  (forall c, c ∈ dict.keys strats -> c ∈ dict.keys T) ->
  _transform_strategy_validator X σ = (Ok tt, σ) /\ missing_columns strats T = [].
Proof.
  intros HT Hstats Hstrats Hall.
  assert (Hnil : missing_columns strats T = []).
  { unfold missing_columns. destruct (filter _ _) as [|c l] eqn:Hf; [done|].
    assert (Hin : c ∈ filter (fun c => c ∉ dict.keys T) (dict.keys strats))
      by (rewrite Hf; left).
    apply list_elem_of_filter in Hin as [Hnc Hc]. by apply Hall in Hc. }
  split; [|done].
  destruct σ as [self fr out w]. simpl in *.
  unfold _transform_strategy_validator, default.check_is_fitted.
  cbv [bind ret raise self_ update_self print in_world df_get df_put
       new_series lift_result modify getitem]. simpl.
  rewrite Hstats. simpl. rewrite HT. simpl. rewrite Hstrats.
  fold (missing_columns strats T). rewrite Hnil.
  by rewrite bool_decide_eq_false_2 by (intros Hne; by apply Hne).
Qed.

(** X15: after a [fit] that returned, the checks of [transform] pass on
    the table that was fitted: the object counts as fitted and no fitted
    column is found missing, so what [transform] does on that table is
    what its loop does. *)
Theorem fit_then_transform_checks_pass X σ T σ' :
  frames σ !! X = Some T ->
  fit env X σ = (Ok tt, σ') ->
  frames σ' !! X = Some T /\
  _transform_strategy_validator X σ' = (Ok tt, σ') /\
  exists stats,
    statistics_ (this σ') = Some stats /\
    transform env X σ' =
    match transform_loop env (loop_entry X T σ').1 stats (loop_entry X T σ').2 with
    | (Ok _, σ2) => (Ok (loop_entry X T σ').1, σ2)
    | (Raise e, σ2) => (Raise e, σ2)
    end.
Proof.
  intros HT Hrun. rewrite (fit_cases env X σ T HT) in Hrun.
  destruct (check_nan_columns env T) eqn:Hgate; [done|].
  destruct (check_strategy_fit env _ _) as [strats|e] eqn:Hs; [|done].
  assert (Hcols : forall c, c ∈ dict.keys strats -> c ∈ dict.keys T).
  { intros c Hc. apply dict_get_is_Some. eapply fit_loop_columns; [|exact Hrun|exact Hc]. done. }
  apply fit_loop_state in Hrun as (Hfr & Hst & [stats Hstats]); [|by eexists].
  simpl in Hfr, Hst.
  assert (HT' : frames σ' !! X = Some T) by (by rewrite Hfr).
  destruct (validator_passes X σ' T stats strats HT' Hstats Hst Hcols) as [Hval Hnil].
  split_and!; [done..|]. exists stats. split; [done|].
  rewrite (transform_cases env X σ' T HT'), Hgate, Hstats, Hst, Hnil.
  by rewrite bool_decide_eq_false_2 by (intros Hne; by apply Hne).
Qed.

(** *** A store of default imputers *)

Lemma transform_loop_default_Ok X items σ T σ' :
  default_only items ->
  frames σ !! X = Some T ->
  transform_loop env X items σ = (Ok tt, σ') ->
  frames σ' = frames σ /\ wld σ' = wld σ /\
  forall c, c ∈ dict.keys items -> missing_positions T c = [].
Proof.
  revert σ. induction items as [|[c imp] items IH]; intros σ Hdef HT Hrun; simpl in Hrun.
  - injection Hrun as <-. split_and!; [done..|]. intros c Hc. by apply elem_of_nil in Hc.
  - apply bind_run in Hrun as (r1 & σ1 & H1 & Hrun).
    eapply transform_column_spec in H1 as (_ & T1 & Hfr & _ & _ & Hok); [|done].
    destruct r1 as [[]|e]; [|by destruct Hrun].
    destruct (Hok eq_refl) as (col & rec & Hcol & _ & _ & Hcase).
    destruct Hcase as [(Hnil & -> & Hw)|(_ & o & a & w & rv & w' & col' & -> & _)]; cycle 1.
    { destruct (Hdef c (IPlug o)) as [d Hd]; [left | done]. }
    rewrite list_insert_id in Hfr by done.
    apply IH in Hrun as (Hfr' & Hw' & Hrest); [| |by rewrite Hfr].
    2:{ intros c' imp' Hin. eapply Hdef. by right. }
    split_and!; [congruence|congruence|].
    intros c0 Hc0. unfold dict.keys in Hc0; simpl in Hc0.
    apply elem_of_cons in Hc0 as [->|Hin]; [|by apply Hrest].
    unfold missing_positions. by rewrite Hcol.
Qed.

(** X16: with a store that holds only DefaultSingleImputer instances (the
    default strategy on every column), a [transform] that returns has
    imputed nothing: no column of the store had a missing entry, the table
    it returns equals the table it was given, and the world is unchanged. *)
Theorem transform_default_store_returns_input X σ T stats X' σ' :
  frames σ !! X = Some T ->
  statistics_ (this σ) = Some stats ->
  default_only stats ->
  transform env X σ = (Ok X', σ') ->
  frames σ' !! X' = Some T /\
  (forall c, c ∈ dict.keys stats -> missing_positions T c = []) /\
  wld σ' = wld σ.
Proof.
  intros HT Hstats Hdef Hrun.
  destruct (transform_Ok_inv env X σ T X' σ' HT Hrun)
    as (stats' & strats & _ & Hstats' & _ & _ & -> & Hloop).
  rewrite Hstats in Hstats'. injection Hstats' as <-.
  pose proof (loop_entry_lookup X σ T HT) as HT0.
  eapply transform_loop_default_Ok in Hloop as (Hfr & Hw & Hmiss); [|done..].
  split_and!; [by rewrite Hfr | done | by rewrite Hw].
Qed.

Lemma transform_column_default_raises X c d σ T col rec :
  frames σ !! X = Some T ->
  dict.get T c = Some col ->
  isnull_index col <> [] ->
  imputed_ (this σ) = Some rec ->
  imputer_fitted (IDefault d) ->
  exists σ',
    transform_column env X c (IDefault d) σ = (Raise (AttributeError no_impute_message), σ') /\
    frames σ' = frames σ /\ wld σ' = wld σ.
Proof.
  intros HT Hcol Hnn Hrec Hfit. unfold transform_column.
  erewrite bind_Ok; [|by unfold df_get; rewrite HT].
  erewrite bind_Ok; [|by unfold getitem; rewrite Hcol].
  erewrite bind_Ok; [|done].
  rewrite Hrec.
  erewrite bind_Ok; [|done].
  assert (Hnar : exists out,
    (if verbose (this σ) then narrate_column env c (IDefault d) (isnull_index col)
     else ret tt)
      (mkState (set_imputed_ (dict.set rec c (isnull_index col)) (this σ))
               (frames σ) (stdout σ) (wld σ))
    = (Ok tt, mkState (set_imputed_ (dict.set rec c (isnull_index col)) (this σ))
                      (frames σ) (stdout σ ++ out) (wld σ))).
  { destruct (verbose (this σ)).
    - edestruct (narrate_column_fitted env c (IDefault d) (isnull_index col)) as [out Hout];
        [done|]. exists out. exact Hout.
    - exists []. by rewrite app_nil_r. }
  destruct Hnar as [out Hnar].
  erewrite bind_Ok; [|exact Hnar].
  rewrite bool_decide_eq_false_2 by done.
  eexists. split.
  - unfold impute_column. erewrite bind_Raise; [reflexivity|].
    unfold in_world. simpl. rewrite default_has_no_impute. reflexivity.
  - done.
Qed.

Lemma transform_loop_default_raises X items σ T rec c :
  default_only items ->
  (forall c imp, (c, imp) ∈ items -> imputer_fitted imp) ->
  (forall c, c ∈ dict.keys items -> c ∈ dict.keys T) ->
  frames σ !! X = Some T ->
  imputed_ (this σ) = Some rec ->
  c ∈ dict.keys items ->
  missing_positions T c <> [] ->
  exists σ',
    transform_loop env X items σ = (Raise (AttributeError no_impute_message), σ') /\
    frames σ' = frames σ /\ wld σ' = wld σ.
Proof.
  revert σ rec. induction items as [|[c0 imp0] items IH];
    intros σ rec Hdef Hfit Hcols HT Hrec Hc Hmiss; simpl.
  - by apply elem_of_nil in Hc.
  - destruct (Hdef c0 imp0) as [d ->]; [left|].
    assert (Hcol0 : is_Some (dict.get T c0)) by (apply dict_get_is_Some, Hcols; left).
    destruct Hcol0 as [col0 Hcol0].
    destruct (isnull_index col0) as [|i ix] eqn:Hnil.
    + edestruct (transform_column_noop env X c0 (IDefault d) σ) as [out Hstep]; [done..| |].
      { intros _. eapply Hfit. left. }
      erewrite bind_Ok; [|exact Hstep].
      unfold dict.keys in Hc; simpl in Hc. apply elem_of_cons in Hc as [->|Hin].
      { exfalso. apply Hmiss. unfold missing_positions. by rewrite Hcol0. }
      edestruct (IH (mkState (set_imputed_ (dict.set rec c0 []) (this σ))
                             (frames σ) (stdout σ ++ out) (wld σ)))
        as (σ' & Hloop & Hfr & Hw); [| | |done|done|done|done|].
      * intros c' imp' Hin'. eapply Hdef. by right.
      * intros c' imp' Hin'. eapply Hfit. by right.
      * intros c' Hin'. apply Hcols. by right.
      * exists σ'. by rewrite Hloop.
    + edestruct (transform_column_default_raises X c0 d σ T col0 rec)
        as (σ' & Hstep & Hfr & Hw); [done|done|by rewrite Hnil|done| |].
      { eapply Hfit. left. }
      exists σ'. by erewrite bind_Raise.
Qed.

(** X17: with the default strategy on every column, [transform] cannot
    impute.  Let the store hold only fitted DefaultSingleImputer instances
    and let the table pass the decorator and the column check: as soon as
    one column of the store has a missing entry, [transform] raises
    AttributeError, for DefaultSingleImputer has no [impute]; no table
    that existed before the call has changed. *)
Theorem transform_default_store_raises X σ T stats strats c :
  frames σ !! X = Some T ->
  check_nan_columns env T = None ->
  statistics_ (this σ) = Some stats ->
  _strats (this σ) = Some strats ->
  (forall c, c ∈ dict.keys strats -> c ∈ dict.keys T) ->
  (forall c, c ∈ dict.keys stats -> c ∈ dict.keys T) ->
  default_only stats ->
  (forall c imp, (c, imp) ∈ stats -> imputer_fitted imp) ->
  c ∈ dict.keys stats ->
  missing_positions T c <> [] ->
  exists σ',
    transform env X σ = (Raise (AttributeError no_impute_message), σ') /\
    (forall Y T0, frames σ !! Y = Some T0 -> frames σ' !! Y = Some T0) /\
    wld σ' = wld σ.
Proof.
  intros HT Hgate Hstats Hstrats Hcols Hcols' Hdef Hfit Hc Hmiss.
  destruct (validator_passes X σ T stats strats HT Hstats Hstrats Hcols) as [_ Hnil].
  rewrite (transform_cases env X σ T HT), Hgate, Hstats, Hstrats, Hnil.
  rewrite bool_decide_eq_false_2 by (intros Hne; by apply Hne).
  edestruct (transform_loop_default_raises (loop_entry X T σ).1 stats (loop_entry X T σ).2 T [] c)
    as (σ' & Hloop & Hfr & Hw); [done|done|done|by apply loop_entry_lookup|done|done|done|].
  rewrite Hloop. exists σ'. split_and!; [done| |by rewrite Hw].
  intros Y T0 HY. rewrite Hfr. unfold loop_entry; simpl.
  destruct (copy (this σ)); [by apply lookup_app_l_Some | done].
Qed.

(** *** The default strategy, from [fit] to [transform] *)

Lemma fit_column_default X c σ σ' :
  fit_column env X c methods.DEFAULT σ = (Ok tt, σ') ->
  exists stats d,
    statistics_ (this σ) = Some stats /\
    statistics_ (this σ') = Some (dict.set stats c (IDefault d)).
Proof.
  intros Hrun. unfold fit_column in Hrun.
  apply bind_run in Hrun as (r1 & σ1 & H1 & Hrun).
  injection H1 as <- <-.
  apply bind_run in Hrun as (r2 & σ2 & H2 & Hrun). injection H2 as <- <-.
  apply bind_run in Hrun as (r3 & σ3 & H3 & Hrun).
  destruct r3 as [imputer|e]; [|by destruct Hrun].
  assert (Hdef : exists d, imputer = IDefault d /\ this σ3 = this σ).
  { revert H3. destruct σ as [self fr out w].
    unfold create_imputer, try_except, in_world, construct. simpl.
    destruct (_fit_init_params c methods.DEFAULT (imp_kwgs self)); simpl;
      try (intros ?; by simplify_eq).
    all: unfold bind, ret.
    all: match goal with
         | |- context [default.DefaultSingleImputer_new env ?kw ?w0] =>
             destruct (default.DefaultSingleImputer_new env kw w0) as [[d|e] w1]
         end; simpl; [intros ?; simplify_eq; by eexists|].
    all: match goal with
         | |- context [isinstance_TypeError ?e] => destruct (isinstance_TypeError e)
         end; simpl; intros ?; by simplify_eq. }
  destruct Hdef as (d & -> & Hthis).
  apply bind_run in Hrun as (r4 & σ4 & H4 & Hrun).
  assert (H4' : r4 = Ok tt /\ this σ4 = this σ).
  { destruct (verbose (this σ)); injection H4 as <- <-; by rewrite <- Hthis. }
  destruct H4' as [-> Hthis4].
  apply bind_run in Hrun as (r5 & σ5 & H5 & Hrun).
  unfold df_get in H5. destruct (frames σ4 !! X) as [T|]; injection H5 as <- <-;
    [|by destruct Hrun].
  apply bind_run in Hrun as (r6 & σ6 & H6 & Hrun).
  unfold getitem in H6. destruct (dict.get T c) as [col|]; injection H6 as <- <-;
    [|by destruct Hrun].
  apply bind_run in Hrun as (r7 & σ7 & H7 & Hrun). injection H7 as <- <-.
  apply bind_run in Hrun as (r8 & σ8 & H8 & Hrun).
  unfold in_world in H8. simpl in H8. unfold bind, ret in H8.
  match type of H8 with
  | context [default.DefaultSingleImputer_fit env d ?x ?w] =>
      destruct (default.DefaultSingleImputer_fit env d x w) as [[d'|e] w8]
  end; simpl in H8; injection H8 as <- <-; [|by destruct Hrun].
  apply bind_run in Hrun as (r9 & σ9 & H9 & Hrun). injection H9 as <- <-.
  simpl in Hrun. rewrite Hthis4 in Hrun.
  destruct (statistics_ (this σ)) as [stats|]; [|done].
  injection Hrun as <-. simpl. by exists stats, d'.
Qed.

Lemma fit_loop_default X items σ stats σ' :
  statistics_ (this σ) = Some stats ->
  default_only stats ->
  (forall c m, (c, m) ∈ items -> m = methods.DEFAULT) ->
  fit_loop env X items σ = (Ok tt, σ') ->
  exists stats', statistics_ (this σ') = Some stats' /\ default_only stats'.
Proof.
  revert σ stats. induction items as [|[c m] items IH];
    intros σ stats Hst Hdef Hall Hrun; simpl in Hrun.
  - injection Hrun as <-. by exists stats.
  - apply bind_run in Hrun as (r1 & σ1 & H1 & Hrun).
    destruct r1 as [[]|e]; [|by destruct Hrun].
    rewrite (Hall c m) in H1 by left.
    apply fit_column_default in H1 as (stats0 & d & Hst0 & Hst1).
    rewrite Hst in Hst0. injection Hst0 as <-.
    eapply IH in Hrun; [done|exact Hst1| |].
    + intros c' imp' Hin. apply dict_set_elem in Hin as [[-> ->]|Hin]; [by eexists|].
      by eapply Hdef.
    + intros c' m' Hin. eapply Hall. by right.
Qed.

(** X18: the default strategy end to end.  When the strategy map gives
    "default" to every column, a [fit] that returns is followed by a
    [transform] that raises AttributeError on the fitted table as soon as
    a fitted column has a missing entry. *)
Theorem default_strategy_cannot_impute X σ T strats σ' c :
  frames σ !! X = Some T ->
  check_strategy_fit env (strategy (this σ)) (dict.keys T) = Ok strats ->
  NoDup (dict.keys strats) ->
  (forall c m, (c, m) ∈ strats -> m = methods.DEFAULT) ->
  fit env X σ = (Ok tt, σ') ->
  c ∈ dict.keys strats ->
  missing_positions T c <> [] ->
  exists σ'',
    transform env X σ' = (Raise (AttributeError no_impute_message), σ'') /\
    frames σ'' !! X = Some T.
Proof.
  intros HT Hs Hnd Hall Hrun Hc Hmiss.
  rewrite (fit_cases env X σ T HT) in Hrun.
  destruct (check_nan_columns env T) eqn:Hgate; [done|]. rewrite Hs in Hrun.
  assert (Hcols : forall c, c ∈ dict.keys strats -> c ∈ dict.keys T).
  { intros c0 Hc0. apply dict_get_is_Some.
    eapply fit_loop_columns; [|exact Hrun|exact Hc0]. done. }
  pose proof Hrun as Hdef.
  eapply (fit_loop_default X strats _ []) in Hdef as (stats & Hstats & Hdef);
    [|done| |done].
  2:{ intros c0 imp0 Hin. by apply elem_of_nil in Hin. }
  apply (fit_loop_spec env X strats _ []) in Hrun
    as (Hfr & Hsame & fitted & stats' & Hst' & Hk & Hfit & ->); [|done|done|].
  2:{ intros c0 imp0 Hin. by apply elem_of_nil in Hin. }
  rewrite Hstats in Hst'. injection Hst' as <-. simpl in Hfr, Hk.
  destruct Hsame as (_ & _ & _ & _ & Hstrats & _). simpl in Hstrats.
  assert (HT' : frames σ' !! X = Some T) by (by rewrite Hfr).
  destruct (validator_passes X σ' T stats strats HT' Hstats Hstrats Hcols) as [_ Hnil].
  rewrite (transform_cases env X σ' T HT'), Hgate, Hstats, Hstrats, Hnil.
  rewrite bool_decide_eq_false_2 by (intros Hne; by apply Hne).
  edestruct (transform_loop_default_raises (loop_entry X T σ').1 stats
               (loop_entry X T σ').2 T [] c)
    as (σ'' & Hloop & Hfr' & _);
    [done|done| |by apply loop_entry_lookup|done|by rewrite Hk|done|].
  { intros c0 Hc0. apply Hcols. by rewrite <- Hk. }
  rewrite Hloop. exists σ''. split; [done|].
  rewrite Hfr'. unfold loop_entry; simpl.
  destruct (copy (this σ')); [by apply lookup_app_l_Some | done].
Qed.

(** *** Edges: an unregistered strategy, an empty store *)

(** X19: the registry knows eight strategy names.  For any other name
    the loop of [fit] raises KeyError with that name at once: no imputer
    is constructed, nothing is printed and the object is untouched. *)
Theorem fit_column_unregistered_method X c m σ :
  m ∉ [methods.DEFAULT; methods.MEAN; methods.MEDIAN; methods.MODE;
       methods.RANDOM; methods.NORM; methods.CATEGORICAL; methods.INTERPOLATE] ->
  fit_column env X c m σ = (Raise (KeyError m), σ).
Proof.
  intros Hm. unfold fit_column.
  erewrite bind_Raise; [done|].
  unfold getitem. by rewrite (proj2 (dict_get_None (strategies env) m) Hm).
Qed.

(** X20: with an empty Statistics Store (a fit on no column), [transform]
    on an accepted table returns at once: the table it returns equals the
    table it was given, the Imputed-Index Record is reset to the empty
    dict, and the world is unchanged. *)
Theorem transform_empty_store X σ T strats :
  frames σ !! X = Some T ->
  check_nan_columns env T = None ->
  statistics_ (this σ) = Some [] ->
  _strats (this σ) = Some strats ->
  (forall c, c ∈ dict.keys strats -> c ∈ dict.keys T) ->
  exists X' σ',
    transform env X σ = (Ok X', σ') /\
    frames σ' !! X' = Some T /\ frames σ' !! X = Some T /\
    imputed_ (this σ') = Some [] /\ wld σ' = wld σ.
Proof.
  intros HT Hgate Hstats Hstrats Hcols.
  destruct (validator_passes X σ T [] strats HT Hstats Hstrats Hcols) as [_ Hnil].
  rewrite (transform_cases env X σ T HT), Hgate, Hstats, Hstrats, Hnil.
  rewrite bool_decide_eq_false_2 by (intros Hne; by apply Hne).
  simpl. eexists _, _. split; [reflexivity|]. simpl.
  destruct (copy (this σ)); split_and!; try done.
  - by rewrite lookup_app_r, Nat.sub_diag.
  - by apply lookup_app_l_Some.
Qed.

End orchestrator_more.

(** ** The code on examples *)

Section examples.
Import single_imputer.

Lemma demo_impute_fills stats : impute_fills demo.env stats.
Proof.
  intros c o a w rv w' col _ _. simpl. unfold demo.impute.
  destruct (demo.instance_of o w); [|done]. intros [= <- _]. simpl. by eexists.
Qed.

Lemma fitted_mean_store_ok : store_ok (this demo.fitted_mean).
Proof.
  eapply store_ok_intro; [reflexivity | |].
  - apply (bool_decide_unpack _). by vm_compute.
  - repeat constructor.
Qed.

(** C1: with the default strategy, [fit] succeeds on the table of the
    two scenario columns and the following [transform] raises
    AttributeError at the first column that has a missing entry. *)
Theorem default_strategy_transform_raises :
  (fit demo.env 0
     (demo.session (SingleImputer_init (StratStr "default") None true false)
                   demo.table_AB)).1 = Ok tt /\
  (transform demo.env 0 demo.fitted_default).1
  = Raise (AttributeError "'DefaultSingleImputer' object has no attribute 'impute'").
Proof. split; by vm_compute. Qed.

Lemma transform_imputed_record_witness :
  imputed_ (this (transform demo.env 0 demo.fitted_mean).2)
  = Some [("A", [Lint 2]); ("B", [Lint 2])].
Proof.
  destruct (transform_imputed_record demo.env 0 demo.fitted_mean demo.table_AB
              [("A", IPlug (PyObj 100)); ("B", IPlug (PyObj 101))]
              1 (transform demo.env 0 demo.fitted_mean).2) as [H _].
  - by vm_compute.
  - by vm_compute.
  - apply (bool_decide_unpack _). by vm_compute.
  - by vm_compute.
  - exact H.
Defined.

Lemma transform_writes_only_missing_witness :
  exists T',
    frames (transform demo.env 0 demo.fitted_mean).2 !! 1%nat = Some T' /\
    dict.keys T' = dict.keys demo.table_AB.
Proof.
  destruct (transform_writes_only_missing demo.env 0 demo.fitted_mean demo.table_AB
              [("A", IPlug (PyObj 100)); ("B", IPlug (PyObj 101))]
              1 (transform demo.env 0 demo.fitted_mean).2) as (T' & H1 & H2 & _).
  - by vm_compute.
  - by vm_compute.
  - by vm_compute.
  - exists T'. split; [exact H1 | exact H2].
Defined.

(** C2 as stated fails.  On the table whose rows are labelled 10 to 13,
    the entry at position 2 of column A is missing; the record that
    [transform] leaves lists the label 12 of that row, not the
    position. *)
Lemma imputed_record_lists_labels :
  (s_values <$> dict.get demo.table_from_10 "A")
  = Some [Some (Num 1); Some (Num 2); None; Some (Num 4)] /\
  (transform demo.env 0 demo.fitted_mean_from_10).1 = Ok 1%nat /\
  imputed_ (this (transform demo.env 0 demo.fitted_mean_from_10).2)
  = Some [("A", [Lint 12])] /\
  imputed_ (this (transform demo.env 0 demo.fitted_mean_from_10).2)
  <> Some [("A", [position_label 2])].
Proof. split_and!; by vm_compute. Qed.

(** C3 as stated fails.  On the table whose rows are labelled 10, 11,
    11, the entry of column A at position 1 is missing and the one at
    position 2 is 3; [transform] writes the imputed value 1 into every
    row labelled 11, and the entry that was present is lost. *)
Lemma repeated_label_overwrites_present_entry :
  (s_values <$> dict.get demo.table_repeated "A")
  = Some [Some (Num 1); None; Some (Num 3)] /\
  (transform demo.env 0 demo.fitted_mean_repeated).1 = Ok 1%nat /\
  (s_values <$>
     (frames (transform demo.env 0 demo.fitted_mean_repeated).2 !! 1%nat
        ≫= fun T => dict.get T "A"))
  = Some [Some (Num 1); Some (Num 1); Some (Num 1)].
Proof. split_and!; by vm_compute. Qed.

Lemma transform_idempotent_witness :
  exists X2 σ2,
    transform demo.env 1 (transform demo.env 0 demo.fitted_mean).2 = (Ok X2, σ2) /\
    imputed_ (this σ2) = Some [("A", []); ("B", [])].
Proof.
  destruct (transform_idempotent demo.env 0 demo.fitted_mean demo.table_AB
              [("A", IPlug (PyObj 100)); ("B", IPlug (PyObj 101))]
              1 (transform demo.env 0 demo.fitted_mean).2)
    as (T1 & HT1 & _ & Hagain).
  - by vm_compute.
  - by vm_compute.
  - apply fitted_mean_store_ok.
  - apply demo_impute_fills.
  - by vm_compute.
  - vm_compute in HT1. injection HT1 as <-.
    destruct Hagain as (X2 & σ2 & Hrun & _ & _ & Hrec & _); [by vm_compute|].
    exists X2, σ2. split; [exact Hrun | exact Hrec].
Defined.

Lemma transform_verbose_noninterference_witness :
  (transform demo.env 0 (with_verbose true demo.fitted_mean)).1
  = (transform demo.env 0 (with_verbose false demo.fitted_mean)).1.
Proof.
  destruct (transform_verbose_noninterference demo.env 0 demo.fitted_mean
              fitted_mean_store_ok) as [H _].
  exact H.
Defined.

Lemma DefaultBaseImputer_fit_classifies_witness :
  default.DefaultBaseImputer_fit demo.env demo.default_imputer.1 (PySeries 0)
    demo.default_imputer.2
  = (Ok demo.default_imputer_fitted.1, demo.default_imputer_fitted.2).
Proof.
  destruct (DefaultBaseImputer_fit_classifies demo.env demo.default_imputer.1
              (PySeries 0) demo.default_imputer.2) as (_ & Hnum & _).
  rewrite (Hnum ltac:(by vm_compute) (PyObj 100) demo.default_imputer_fitted.2
             (PyStr "mean") ltac:(by vm_compute) ltac:(by vm_compute)).
  by vm_compute.
Defined.

Lemma default_transform_returns_argument_witness :
  default.DefaultSingleImputer_transform demo.env demo.default_imputer_fitted.1
    (PySeries 0) demo.default_imputer_fitted.2
  = (Ok (PySeries 0), demo.default_imputer_fitted.2).
Proof.
  destruct (default_transform_returns_argument demo.env demo.default_imputer_fitted.1
              (PySeries 0) demo.default_imputer_fitted.2
              [("param", PyObj 100); ("strategy", PyStr "mean")] (PyObj 100)
              ltac:(by vm_compute) ltac:(by vm_compute)
              (default.DefaultSingleImputer_transform demo.env)
              ltac:(by right)) as (_ & Hrun & _).
  apply (Hrun ltac:(by vm_compute) (PySeries 0)). by vm_compute.
Defined.


Lemma fit_column_construction_failure_witness :
  fit_column demo.env 0 "B" "mean" demo.bogus_B
  = (Raise (ValueError (invalid_arguments_message "MeanImputer")
              (Some (TypeError "__init__() got an unexpected keyword argument"))),
     demo.bogus_B).
Proof.
  destruct (fit_column_construction_failure demo.env 0 "B" "mean" demo.bogus_B
              (cls_external (PyObj 0))
              (TypeError "__init__() got an unexpected keyword argument") demo.w0)
    as [Hwrap _].
  - by vm_compute.
  - by vm_compute.
  - rewrite (Hwrap ltac:(by vm_compute) "MeanImputer" demo.w0 ltac:(by vm_compute)).
    by vm_compute.
Defined.

(** C6 as stated fails.  [DefaultSingleImputer(num_kwgs=5)] raises a
    ValueError of its own, which [fit] lets through as it is: it names
    neither the imputer nor the column.  And the ValueError that wraps
    the TypeError of [MeanImputer(bogus=1)] for column B names the
    imputer alone. *)
Lemma construction_failure_not_wrapped :
  ~ (exists e s, fit demo.env 0 demo.bad_num_kwgs = (Raise e, s) /\
                 names e "DefaultSingleImputer" = true /\ names e "A" = true) /\
  ~ (exists e s, fit demo.env 0 demo.bogus_B = (Raise e, s) /\
                 names e "MeanImputer" = true /\ names e "B" = true).
Proof.
  split; intros (e & s & Hrun & Himp & Hcol); vm_compute in Hrun;
    injection Hrun as <- _; by vm_compute in Hcol.
Qed.

Lemma transform_column_mismatch_witness :
  transform demo.env 1 (demo.load demo.table_A demo.fitted_mean)
  = (Raise (ValueError column_mismatch_message None),
     after_copy demo.table_A (demo.load demo.table_A demo.fitted_mean)).
Proof.
  destruct (transform_column_mismatch demo.env 1
              (demo.load demo.table_A demo.fitted_mean) demo.table_A
              [("A", IPlug (PyObj 100)); ("B", IPlug (PyObj 101))]
              [("A", "mean"); ("B", "mean")]) as [Hmiss _].
  - by vm_compute.
  - by vm_compute.
  - by vm_compute.
  - by vm_compute.
  - apply (Hmiss "B").
    + apply (bool_decide_unpack _). by vm_compute.
    + apply (bool_decide_unpack _). by vm_compute.
Defined.

(** C4 as stated fails.  The imputer was fitted on columns A and B; on a
    table without B, [transform] raises an exception that does not name
    B. *)
Lemma column_mismatch_names_no_column :
  ("B" ∈ dict.keys (default [] (_strats (this demo.fitted_mean)))) /\
  ("B" ∉ dict.keys demo.table_A) /\
  ~ (exists e s,
       transform demo.env 1 (demo.load demo.table_A demo.fitted_mean) = (Raise e, s) /\
       names e "B" = true).
Proof.
  split_and!.
  - apply (bool_decide_unpack _). by vm_compute.
  - apply (bool_decide_unpack _). by vm_compute.
  - intros (e & s & Hrun & Hname). vm_compute in Hrun.
    injection Hrun as <- _. by vm_compute in Hname.
Qed.

End examples.

(** ** The further properties on examples *)

Section more_examples.
Import single_imputer.

Lemma default_only_intro (stats : dict.t imputer) :
  Forall (fun p => exists d, p.2 = IDefault d) stats -> default_only stats.
Proof.
  intros Hall c imp Hin. eapply Forall_forall in Hall; [|exact Hin]. done.
Qed.

Lemma fitted_intro (stats : dict.t imputer) :
  Forall (fun p => imputer_fitted p.2) stats ->
  forall c imp, (c, imp) ∈ stats -> imputer_fitted imp.
Proof.
  intros Hall c imp Hin. eapply Forall_forall in Hall; [|exact Hin]. done.
Qed.

Lemma DefaultBaseImputer_init_checks_kwgs_first_witness :
  default.DefaultBaseImputer_init demo.env (PyObj 0) (PyObj 1) (PyInt 5) PyNone demo.w0
  = (Raise (ValueError num_kwgs_message None), demo.w0).
Proof.
  destruct (DefaultBaseImputer_init_checks_kwgs_first demo.env (PyObj 0) (PyObj 1)
              (PyInt 5) PyNone demo.w0) as [H _].
  apply H. reflexivity.
Defined.

Lemma DefaultBaseImputer_init_success_witness :
  default.statistics_ demo.default_imputer.1 = None /\
  default._num_imputer demo.default_imputer.1 = PyObj 100 /\
  default._cat_imputer demo.default_imputer.1 = PyObj 101.
Proof.
  destruct (DefaultBaseImputer_init_success demo.env (PyObj 0) (PyObj 1) PyNone
              (PyDict [("fill_strategy", PyStr "random")]) demo.world_A
              demo.default_imputer.2 demo.default_imputer.1)
    as (_ & _ & _ & _ & Hst & _).
  - by vm_compute.
  - split; [exact Hst | by vm_compute].
Defined.

Lemma DefaultBaseImputer_init_AttributeError_only_from_format_witness :
  default.DefaultBaseImputer_init demo.env (PyObj 99) (PyObj 1) PyNone PyNone demo.w0
  = (Raise (demo.no_attribute "name"), demo.w0) /\
  exists imp w0,
    (imp = PyObj 99 \/ imp = PyObj 1) /\
    py_format demo.env imp w0 = Raise (demo.no_attribute "name").
Proof.
  split; [by vm_compute|].
  destruct (DefaultBaseImputer_init_AttributeError_only_from_format demo.env
              (PyObj 99) (PyObj 1) PyNone PyNone demo.w0 demo.w0
              (demo.no_attribute "name")) as [Hno|Hfmt].
  - by vm_compute.
  - by vm_compute in Hno.
  - exact Hfmt.
Defined.

Lemma set_num_imputer_masks_AttributeError_witness :
  default.set_num_imputer demo.env_attr PyNone (PyObj 0) demo.w0
  = (Raise (ValueError "MeanImputer is not an instance of an Imputer"
              (Some (demo.no_attribute "lower"))), demo.w0).
Proof.
  rewrite (set_num_imputer_masks_AttributeError demo.env_attr PyNone (PyObj 0)
             demo.w0 demo.w0 "MeanImputer" PyNone (demo.no_attribute "lower")
             ltac:(by vm_compute) ltac:(by vm_compute) ltac:(by vm_compute)
             ltac:(by vm_compute)).
  by vm_compute.
Defined.

Lemma default_transform_not_fitted_witness :
  default.DefaultTimeSeriesImputer_transform demo.env demo.default_imputer.1 (PySeries 0)
    demo.default_imputer.2
  = (Raise (NotFittedError (not_fitted_message "DefaultTimeSeriesImputer")),
     demo.default_imputer.2).
Proof.
  apply (default_transform_not_fitted demo.env demo.default_imputer.1 (PySeries 0)
           demo.default_imputer.2 "DefaultTimeSeriesImputer").
  - by vm_compute.
  - right. right. left.
Defined.

Lemma default_fit_then_transform_witness :
  exists self',
    default.DefaultSingleImputer_fit demo.env demo.default_imputer.1 (PySeries 0)
      demo.default_imputer.2 = (Ok self', demo.default_imputer_fitted.2) /\
    default.DefaultSingleImputer_transform demo.env self' (PySeries 0)
      demo.default_imputer_fitted.2
    = (Ok (PySeries 0), demo.default_imputer_fitted.2).
Proof.
  destruct (default_fit_then_transform demo.env demo.default_imputer.1 (PySeries 0)
              demo.default_imputer.2
              (default.DefaultSingleImputer_fit demo.env)
              "DefaultSingleImputer" (default.DefaultSingleImputer_transform demo.env)
              ltac:(right; left) ltac:(right; left)) as [Hnum _].
  destruct (Hnum ltac:(by vm_compute) (PyObj 100) demo.default_imputer_fitted.2
              (PyStr "mean") ltac:(by vm_compute) ltac:(by vm_compute))
    as (self' & Hfit & Htr).
  exists self'. split; [exact Hfit|].
  rewrite (Htr (PySeries 0) demo.default_imputer_fitted.2 ltac:(by vm_compute)).
  by vm_compute.
Defined.

Lemma transform_before_fit_raises_witness :
  exists σ',
    transform demo.env 0 demo.fresh
    = (Raise (NotFittedError (not_fitted_message "SingleImputer")), σ').
Proof.
  destruct (transform_before_fit_raises demo.env 0 demo.fresh demo.table_AB)
    as (σ' & Hrun & _).
  - by vm_compute.
  - by vm_compute.
  - by vm_compute.
  - by exists σ'.
Defined.

Lemma transform_copy_leaves_tables_witness :
  frames (transform demo.env 0 demo.fitted_mean).2 !! 0%nat = Some demo.table_AB.
Proof.
  destruct (transform_copy_leaves_tables demo.env 0 demo.fitted_mean demo.table_AB
              (transform demo.env 0 demo.fitted_mean).1
              (transform demo.env 0 demo.fitted_mean).2) as [Hkeep _].
  - by vm_compute.
  - by vm_compute.
  - by destruct (transform demo.env 0 demo.fitted_mean).
  - apply Hkeep. by vm_compute.
Defined.

Lemma transform_in_place_witness :
  (transform demo.env 0 demo.fitted_mean_inplace).1 = Ok 0%nat /\
  length (frames (transform demo.env 0 demo.fitted_mean_inplace).2) = 1%nat.
Proof.
  destruct (transform_in_place demo.env 0 demo.fitted_mean_inplace demo.table_AB
              (transform demo.env 0 demo.fitted_mean_inplace).1
              (transform demo.env 0 demo.fitted_mean_inplace).2) as (Hlen & _).
  - by vm_compute.
  - by vm_compute.
  - by destruct (transform demo.env 0 demo.fitted_mean_inplace).
  - split; [by vm_compute|]. rewrite Hlen. by vm_compute.
Defined.

Lemma transform_keeps_configuration_witness :
  statistics_ (this (transform demo.env 0 demo.fitted_mean).2)
  = statistics_ (this demo.fitted_mean).
Proof.
  destruct (transform_keeps_configuration demo.env 0 demo.fitted_mean
              (transform demo.env 0 demo.fitted_mean).1
              (transform demo.env 0 demo.fitted_mean).2) as (_ & _ & _ & _ & _ & H).
  - by destruct (transform demo.env 0 demo.fitted_mean).
  - exact H.
Defined.


Lemma fit_validation_failure_keeps_object_witness :
  fit demo.env 0 demo.bad_strategy
  = (Raise (ValueError "Length of columns not equal to number of strategies." None),
     demo.bad_strategy).
Proof.
  apply (fit_validation_failure_keeps_object demo.env 0 demo.bad_strategy demo.table_AB).
  - by vm_compute.
  - right. split; by vm_compute.
Defined.

Lemma fit_forgets_earlier_fit_witness :
  fit demo.env 0 demo.fitted_mean = fit demo.env 0 (forget_fit demo.fitted_mean).
Proof.
  apply (fit_forgets_earlier_fit demo.env 0 demo.fitted_mean demo.table_AB
           [("A", "mean"); ("B", "mean")]); by vm_compute.
Defined.

Lemma fit_then_transform_checks_pass_witness :
  _transform_strategy_validator 0 (fit demo.env 0 demo.fresh).2
  = (Ok tt, (fit demo.env 0 demo.fresh).2).
Proof.
  destruct (fit_then_transform_checks_pass demo.env 0 demo.fresh demo.table_AB
              (fit demo.env 0 demo.fresh).2) as (_ & H & _).
  - by vm_compute.
  - by vm_compute.
  - exact H.
Defined.

Lemma transform_default_store_returns_input_witness :
  frames (transform demo.env 0 demo.fitted_default_full).2 !! 1%nat = Some demo.table_full.
Proof.
  destruct (transform_default_store_returns_input demo.env 0 demo.fitted_default_full
              demo.table_full demo.default_full_store
              1 (transform demo.env 0 demo.fitted_default_full).2) as (H & _).
  - by vm_compute.
  - by vm_compute.
  - apply default_only_intro. unfold demo.default_full_store.
    repeat constructor; by eexists.
  - by vm_compute.
  - exact H.
Defined.

Lemma transform_default_store_raises_witness :
  exists σ',
    transform demo.env 0 demo.fitted_default
    = (Raise (AttributeError no_impute_message), σ').
Proof.
  destruct (transform_default_store_raises demo.env 0 demo.fitted_default demo.table_AB
              demo.default_store [("A", "default"); ("B", "default")] "A")
    as (σ' & H & _).
  - by vm_compute.
  - by vm_compute.
  - by vm_compute.
  - by vm_compute.
  - change (dict.keys [("A", "default"); ("B", "default")] ⊆ dict.keys demo.table_AB).
    apply (bool_decide_unpack _). by vm_compute.
  - change (dict.keys demo.default_store ⊆ dict.keys demo.table_AB).
    apply (bool_decide_unpack _). by vm_compute.
  - apply default_only_intro. unfold demo.default_store.
    repeat constructor; by eexists.
  - apply fitted_intro. unfold demo.default_store.
    repeat constructor; (eexists; split; [reflexivity | by eexists]).
  - apply (bool_decide_unpack _). by vm_compute.
  - by vm_compute.
  - by exists σ'.
Defined.

Lemma default_strategy_cannot_impute_witness :
  exists σ'',
    transform demo.env 0 (fit demo.env 0 demo.fresh_default).2
    = (Raise (AttributeError no_impute_message), σ'').
Proof.
  destruct (default_strategy_cannot_impute demo.env 0 demo.fresh_default demo.table_AB
              [("A", "default"); ("B", "default")]
              (fit demo.env 0 demo.fresh_default).2 "B") as (σ'' & H & _).
  - by vm_compute.
  - by vm_compute.
  - apply (bool_decide_unpack _). by vm_compute.
  - intros c m Hin.
    repeat (apply elem_of_cons in Hin as [[= _ ->]|Hin]; [done|]).
    by apply elem_of_nil in Hin.
  - by vm_compute.
  - apply (bool_decide_unpack _). by vm_compute.
  - by vm_compute.
  - by exists σ''.
Defined.

Lemma fit_column_unregistered_method_witness :
  fit_column demo.env 0 "A" "knn" demo.fresh = (Raise (KeyError "knn"), demo.fresh).
Proof.
  apply (fit_column_unregistered_method demo.env 0 "A" "knn" demo.fresh).
  apply (bool_decide_unpack _). by vm_compute.
Defined.

Lemma transform_empty_store_witness :
  exists X' σ',
    transform demo.env 0 demo.fitted_empty = (Ok X', σ') /\
    imputed_ (this σ') = Some [].
Proof.
  destruct (transform_empty_store demo.env 0 demo.fitted_empty [] [])
    as (X' & σ' & Hrun & _ & _ & Hrec & _).
  - by vm_compute.
  - by vm_compute.
  - by vm_compute.
  - by vm_compute.
  - intros c Hc. by apply elem_of_nil in Hc.
  - exists X', σ'. split; [exact Hrun | exact Hrec].
Defined.

End more_examples.
